(** * RAT (retrieval augmented thinking): the dual-stage reasoning relay

    A shallow embedding of the chat clients [rat-akash.py], [rat-claude.py]
    and [rat-local.py]: the reasoning stage ([get_deepseek_reasoning]), the
    response stage ([get_llama_response], [get_claude_response],
    [get_local_response]) and the command loop ([main]), followed by the
    properties of the relay.

    A Python [str] is modelled by its UTF-8 encoding, a [string] of 8-bit
    characters (the literals are the bytes of the source files), a Python
    list as [list], the instance [__dict__] entries that [__init__] does not
    create as a [gmap] from attribute names.  The external world (the API
    client, the clock, and what the rich library makes of console markup) is
    an explicit oracle ([Backend]); the terminal and the requests sent are an
    explicit log ([stdout], [sent]). *)

From Stdlib Require Import Ascii Bool Arith Lia.
From stdpp Require Import base list strings gmap.

(** ** Python string operations used by the clients *)

Module PyStr.

(** The newline character of the Python literals. *)
Definition nl : string := String (ascii_of_nat 10) "".

(** [s.startswith(p)] *)
Fixpoint startswith (p s : string) : bool :=
  match p, s with
  | EmptyString, _ => true
  | String _ _, EmptyString => false
  | String a p', String b s' => Ascii.eqb a b && startswith p' s'
  end.

(** [p in s] *)
Fixpoint contains (p s : string) : bool :=
  startswith p s ||
  match s with
  | EmptyString => false
  | String _ s' => contains p s'
  end.

(** [s.find(p)]: the lowest index of an occurrence, [None] for [-1]. *)
Fixpoint find (p s : string) : option nat :=
  if startswith p s then Some 0
  else match s with
       | EmptyString => None
       | String _ s' => S <$> find p s'
       end.

(** [s[:n]] and [s[n:]] *)
Fixpoint take (n : nat) (s : string) : string :=
  match n, s with
  | S k, String c s' => String c (take k s')
  | _, _ => EmptyString
  end.

Fixpoint drop (n : nat) (s : string) : string :=
  match n, s with
  | S k, String _ s' => drop k s'
  | _, _ => s
  end.

(** [s.split(sep)[0]]: the text before the first [sep], all of [s] when
    [sep] does not occur. *)
Definition split_head (sep s : string) : string :=
  match find sep s with
  | Some i => take i s
  | None => s
  end.

(** [s.replace(old, new)] for a non-empty [old] (both call sites pass a
    literal tag): occurrences are replaced left to right, without overlap.
    [skip] counts the characters of a matched [old] still to be dropped. *)
Fixpoint replace_from (old new : string) (skip : nat) (s : string) : string :=
  match s with
  | EmptyString => EmptyString
  | String c s' =>
      match skip with
      | S k => replace_from old new k s'
      | O =>
          if startswith old s
          then new +:+ replace_from old new (String.length old - 1) s'
          else String c (replace_from old new 0 s')
      end
  end.

Definition replace (old new s : string) : string := replace_from old new 0 s.

(** [re.findall(open + '(.*?)' + close, s, re.DOTALL)] for literal [open]
    and [close]: the scan finds the leftmost [open], then the nearest
    [close] after it, records the text in between and resumes after that
    [close].  An [open] with no [close] after it ends the scan (no later
    [open] can match either).  Each match consumes at least one character,
    so [fuel] above the length of [s] never runs out. *)
Fixpoint findall_between (op cl : string) (fuel : nat) (s : string)
  : list string :=
  match fuel with
  | O => []
  | S fuel' =>
      match find op s with
      | None => []
      | Some i =>
          let body := drop (i + String.length op) s in
          match find cl body with
          | None => []
          | Some j =>
              take j body
                :: findall_between op cl fuel' (drop (j + String.length cl) body)
          end
      end
  end.

Definition findall (op cl s : string) : list string :=
  findall_between op cl (S (String.length s)) s.

(** ["\n".join(l)] *)
Fixpoint join (sep : string) (l : list string) : string :=
  match l with
  | [] => ""
  | [x] => x
  | x :: l' => x +:+ sep +:+ join sep l'
  end.

(** [s.lower()], which the clients only compare with the ASCII words of
    their commands: [A]..[Z] go to [a]..[z], the bytes of the other
    characters are kept. *)
Definition lower_char (c : ascii) : ascii :=
  let n := nat_of_ascii c in
  if (65 <=? n) && (n <=? 90) then ascii_of_nat (n + 32) else c.

Fixpoint lower (s : string) : string :=
  match s with
  | EmptyString => EmptyString
  | String c s' => String (lower_char c) (lower s')
  end.

(** The characters for which [isspace()] holds, the ones [strip()] removes:
    U+0009..U+000D, U+001C..U+0020, U+0085, U+00A0, U+1680, U+2000..U+200A,
    U+2028, U+2029, U+202F, U+205F and U+3000, here by the one, two or three
    bytes of their encoding. *)
Definition space1 (a : ascii) : bool :=
  let x := nat_of_ascii a in
  ((9 <=? x) && (x <=? 13)) || ((28 <=? x) && (x <=? 32)).

Definition space2 (a b : ascii) : bool :=
  let x := nat_of_ascii a in
  let y := nat_of_ascii b in
  (x =? 194) && ((y =? 133) || (y =? 160)).

Definition space3 (a b c : ascii) : bool :=
  let x := nat_of_ascii a in
  let y := nat_of_ascii b in
  let z := nat_of_ascii c in
  ((x =? 225) && (y =? 154) && (z =? 128))
  || ((x =? 226) && (y =? 128)
      && (((128 <=? z) && (z <=? 138)) || (z =? 168) || (z =? 169) || (z =? 175)))
  || ((x =? 226) && (y =? 129) && (z =? 159))
  || ((x =? 227) && (y =? 128) && (z =? 128)).

(** When [s] starts with a white-space character, the text after it. *)
Definition after_space (s : string) : option string :=
  match s with
  | String a s1 =>
      if space1 a then Some s1
      else match s1 with
           | String b s2 =>
               if space2 a b then Some s2
               else match s2 with
                    | String c s3 => if space3 a b c then Some s3 else None
                    | EmptyString => None
                    end
           | EmptyString => None
           end
  | EmptyString => None
  end.

(** [s.lstrip()] *)
Fixpoint lstrip (s : string) : string :=
  match s with
  | String a s1 =>
      if space1 a then lstrip s1
      else match s1 with
           | String b s2 =>
               if space2 a b then lstrip s2
               else match s2 with
                    | String c s3 => if space3 a b c then lstrip s3 else s
                    | EmptyString => s
                    end
           | EmptyString => s
           end
  | EmptyString => EmptyString
  end.

(** [s.isspace()] or [s == ""]: the text holds white space only. *)
Definition blank (s : string) : bool :=
  match lstrip s with
  | EmptyString => true
  | String _ _ => false
  end.

(** [s.rstrip()]: the longest blank end of [s] is removed. *)
Fixpoint rstrip (s : string) : string :=
  match s with
  | EmptyString => EmptyString
  | String c s' => if blank s then EmptyString else String c (rstrip s')
  end.

(** [s.strip()] *)
Definition strip (s : string) : string := rstrip (lstrip s).

(** The concatenation of a list of strings, [""].join(l). *)
Definition concat (l : list string) : string := foldr String.append "" l.

End PyStr.

(** The two literal delimiters of the inline-tag reasoning stream. *)
Definition OPEN : string := "<think>".
Definition CLOSE : string := "</think>".

(** ** Messages, requests and the external world *)

Inductive Role := user | assistant.

(** The ["content"] of a message: a plain string, or a list of
    [{"type": "text", "text": t}] blocks. *)
Inductive Content :=
| Text (s : string)
| Blocks (texts : list string).

(** [{"role": r, "content": c}] *)
Record message := Message { role : Role; content : Content }.

Definition history := list message.

(** A chat-completion request as the clients issue it. *)
Record request := Request {
  req_model : string;
  req_messages : list message;
  req_stream : bool;
  req_max_tokens : option N
}.

(** The exceptions the clients can meet.  All but [KeyboardInterrupt] derive
    from Python's [Exception]; [MarkupError] is the one rich raises for
    console markup it cannot render. *)
Inductive exn :=
| APIError (msg : string)
| MarkupError (msg : string)
| IndexError
| EOFError
| KeyboardInterrupt.

Definition is_Exception (e : exn) : bool :=
  match e with
  | KeyboardInterrupt => false
  | _ => true
  end.

(** [str(e)] *)
Definition str_exn (e : exn) : string :=
  match e with
  | APIError msg | MarkupError msg => msg
  | IndexError => "list index out of range"
  | EOFError | KeyboardInterrupt => ""
  end.

(** [chunk.choices[i].delta]: the inline-tag vendors fill [content] only, the
    explicit-field vendor also [reasoning_content]. *)
Record delta := Delta {
  delta_content : option string;
  delta_reasoning_content : option string
}.

Record chunk := Chunk { choices : list delta }.

(** Iterating a streamed response yields chunks and may raise part-way. *)
Inductive stream_ev :=
| Yield (c : chunk)
| Abort (e : exn).

(** The result of [client.chat.completions.create]: a stream to iterate, or
    the [message.content] of each choice of a complete response. *)
Inductive response :=
| Streamed (evs : list stream_ev)
| Completed (contents : list string).

(** The world outside the process, as seen during one iteration of the
    command loop: what the endpoint answers to a request in either transport
    mode, what [models.list()] returns, the rendering of the elapsed time of
    the reasoning stage (the [time_str] of the source, computed there from
    two clock readings: digits, a point and a unit), and what rich makes of a
    text with console markup: [markup_error s] is the message of the
    [MarkupError] that [rprint(s)] raises, [None] when the text is rendered
    (rich refuses a closing tag that closes nothing). *)
Record Backend := {
  chat_stream : request -> exn + list stream_ev;
  chat_create : request -> exn + list string;
  models_list : exn + list string;
  time_str : string;
  markup_error : string -> option string
}.

(** Truthiness of an optional string: [None] and [""] are falsy. *)
Definition truthy (o : option string) : bool :=
  match o with
  | Some (String _ _) => true
  | _ => false
  end.

(** ** A state-and-exception monad for the clients

    A computation runs in a [world]: the chain object ([self]), what was
    written to the terminal and the requests sent so far.  It returns a value
    or raises; the world it leaves behind is kept in both cases, as mutations
    made before a Python exception are. *)

Record world (Self : Type) := World {
  self : Self;
  stdout : list string;
  sent : list request
}.
Arguments World {Self} _ _ _.
Arguments self {Self} _.
Arguments stdout {Self} _.
Arguments sent {Self} _.

Inductive outcome (A : Type) :=
| Ret (a : A)
| Raise (e : exn).
Arguments Ret {A} _.
Arguments Raise {A} _.

Definition M (Self A : Type) : Type := world Self -> outcome A * world Self.

Section Monad.
Context {Self : Type}.

Definition ret {A} (a : A) : M Self A := fun w => (Ret a, w).

Definition bind {A B} (c : M Self A) (k : A -> M Self B) : M Self B :=
  fun w =>
    match c w with
    | (Ret a, w') => k a w'
    | (Raise e, w') => (Raise e, w')
    end.

Definition raise {A} (e : exn) : M Self A := fun w => (Raise e, w).

(** [try: c  except Exception as e: h e] *)
Definition try_except {A} (c : M Self A) (h : exn -> M Self A) : M Self A :=
  fun w =>
    match c w with
    | (Raise e, w') => if is_Exception e then h e w' else (Raise e, w')
    | r => r
    end.

(** Reading and updating the attributes of [self]. *)
Definition gets {A} (f : Self -> A) : M Self A := fun w => (Ret (f (self w)), w).

Definition modify (f : Self -> Self) : M Self unit :=
  fun w => (Ret tt, World (f (self w)) (stdout w) (sent w)).

(** [print(s, end=e)]: the text reaches the terminal.  It also stands for
    rich's [rprint] where the markup is a literal of the source (with, at
    most, the elapsed time or one of two fixed words inside), which rich
    renders. *)
Definition print (s e : string) : M Self unit :=
  fun w => (Ret tt, World (self w) (stdout w ++ [s +:+ e]) (sent w)).

(** [rprint(s, end=e)] for a text that holds data (the name of a model, the
    message of an exception): rich parses it as markup first, and raises when
    it cannot. *)
Definition rprint (be : Backend) (s e : string) : M Self unit :=
  match markup_error be s with
  | Some msg => raise (MarkupError msg)
  | None => print s e
  end.

Definition when (b : bool) (c : M Self unit) : M Self unit :=
  if b then c else ret tt.

(** [client.chat.completions.create(...)]: the request leaves the process,
    the endpoint answers in the transport mode the request asks for. *)
Definition create (be : Backend) (req : request) : M Self response :=
  fun w =>
    let w' := World (self w) (stdout w) (sent w ++ [req]) in
    if req_stream req
    then match chat_stream be req with
         | inl e => (Raise e, w')
         | inr evs => (Ret (Streamed evs), w')
         end
    else match chat_create be req with
         | inl e => (Raise e, w')
         | inr cs => (Ret (Completed cs), w')
         end.

(** [for x in l: body x] *)
Fixpoint for_each {A} (l : list A) (body : A -> M Self unit) : M Self unit :=
  match l with
  | [] => ret tt
  | x :: l' => bind (body x) (fun _ => for_each l' body)
  end.

(** [l[0]] *)
Definition first {A} (l : list A) : M Self A :=
  match l with
  | x :: _ => ret x
  | [] => raise IndexError
  end.

End Monad.

#[global] Instance M_ret {Self} : MRet (M Self) := @ret Self.
#[global] Instance M_bind {Self} : MBind (M Self) := fun A B k c => bind c k.

(** ** rat-akash.py *)

Module Akash.

Definition DEEPSEEK_MODEL : string := "DeepSeek-R1".
Definition LLAMA_MODEL : string := "Meta-Llama-3-3-70B-Instruct".

Record AkashModelChain := {
  stream : bool;
  deepseek_messages : history;
  llama_messages : history;
  current_model : string;
  show_reasoning : bool
}.

(** [__init__] *)
Definition init (stream : bool) : AkashModelChain :=
  {| stream := stream;
     deepseek_messages := [];
     llama_messages := [];
     current_model := LLAMA_MODEL;
     show_reasoning := true |}.

Definition with_deepseek_messages (f : history -> history) (c : AkashModelChain) :=
  {| stream := stream c;
     deepseek_messages := f (deepseek_messages c);
     llama_messages := llama_messages c;
     current_model := current_model c;
     show_reasoning := show_reasoning c |}.

Definition with_llama_messages (f : history -> history) (c : AkashModelChain) :=
  {| stream := stream c;
     deepseek_messages := deepseek_messages c;
     llama_messages := f (llama_messages c);
     current_model := current_model c;
     show_reasoning := show_reasoning c |}.

Definition with_current_model (m : string) (c : AkashModelChain) :=
  {| stream := stream c;
     deepseek_messages := deepseek_messages c;
     llama_messages := llama_messages c;
     current_model := m;
     show_reasoning := show_reasoning c |}.

Definition with_show_reasoning (b : bool) (c : AkashModelChain) :=
  {| stream := stream c;
     deepseek_messages := deepseek_messages c;
     llama_messages := llama_messages c;
     current_model := current_model c;
     show_reasoning := b |}.

Abbreviation Py := (M AkashModelChain).

Definition set_model (model_name : string) : Py unit :=
  modify (with_current_model model_name).

Definition get_model_display_name : Py string := gets current_model.

(** [get_all_models]: the ids that do not contain ['DeepSeek-R1']. *)
Definition get_all_models (be : Backend) : Py (list string) :=
  match models_list be with
  | inl e => raise e
  | inr ids => mret (filter (fun id => PyStr.contains "DeepSeek-R1" id = false) ids)
  end.

(** The streaming loop of [get_deepseek_reasoning]: every non-empty piece
    is accumulated, shown when [show_reasoning] is set, and the loop breaks
    after the first piece that contains the closing tag. *)
Fixpoint reasoning_loop (evs : list stream_ev) (reasoning_content : string)
  : Py string :=
  match evs with
  | [] => mret reasoning_content
  | Abort e :: _ => raise e
  | Yield chunk :: rest =>
      d ← first (choices chunk);
      if truthy (delta_content d) then
        let content_piece := default "" (delta_content d) in
        let reasoning_content := reasoning_content +:+ content_piece in
        show ← gets show_reasoning;
        when show (print content_piece "");;
        if PyStr.contains CLOSE content_piece
        then mret reasoning_content
        else reasoning_loop rest reasoning_content
      else reasoning_loop rest reasoning_content
  end.

(** The non-streaming branch: the text is cut after the first closing tag. *)
Definition reasoning_single_shot (contents : list string) : Py string :=
  content ← first contents;
  show ← gets show_reasoning;
  when show (print content PyStr.nl);;
  mret (if PyStr.contains CLOSE content
        then PyStr.split_head CLOSE content +:+ CLOSE
        else content).

(** The last statement of [get_deepseek_reasoning]: both tags are removed
    from what was accumulated. *)
Definition clean (reasoning_content : string) : string :=
  PyStr.replace CLOSE "" (PyStr.replace OPEN "" reasoning_content).

(** The [if self.stream: ... else: ...] block of [get_deepseek_reasoning]. *)
Definition read_reasoning (r : response) : Py string :=
  match r with
  | Streamed evs => reasoning_loop evs ""
  | Completed contents => reasoning_single_shot contents
  end.

(** The end of [get_deepseek_reasoning]: the elapsed time is reported and
    the cleaned text returned. *)
Definition finish_reasoning (be : Backend) (reasoning_content : string)
  : Py string :=
  print (PyStr.nl +:+ PyStr.nl +:+ "[yellow]Thought for " +:+ time_str be +:+ "[/]")
        PyStr.nl;;
  show ← gets show_reasoning;
  when show (print PyStr.nl PyStr.nl);;
  mret (clean reasoning_content).

Definition get_deepseek_reasoning (be : Backend) (user_input : string)
  : Py string :=
  modify (with_deepseek_messages (fun h => h ++ [Message user (Text user_input)]));;
  show ← gets show_reasoning;
  when show (print (PyStr.nl +:+ "[blue]Reasoning Process[/]") PyStr.nl);;
  msgs ← gets deepseek_messages;
  st ← gets stream;
  response ← create be (Request DEEPSEEK_MODEL msgs st None);
  reasoning_content ← read_reasoning response;
  finish_reasoning be reasoning_content.

(** The hand-off template of the response stage. *)
Definition thinking (reasoning : string) : string :=
  "<thinking>" +:+ reasoning +:+ "</thinking>".

Fixpoint response_loop (evs : list stream_ev) (full_response : string)
  : Py string :=
  match evs with
  | [] => mret full_response
  | Abort e :: _ => raise e
  | Yield chunk :: rest =>
      d ← first (choices chunk);
      if truthy (delta_content d) then
        let text := default "" (delta_content d) in
        print text "";;
        response_loop rest (full_response +:+ text)
      else response_loop rest full_response
  end.

(** The two-message context the response stage is called with. *)
Definition handoff (user_input reasoning : string) : list message :=
  [Message user (Text user_input);
   Message assistant (Text (thinking reasoning))].

(** The [if self.stream: ... else: ...] block of [get_llama_response]. *)
Definition read_response (r : response) : Py string :=
  match r with
  | Streamed evs => response_loop evs ""
  | Completed contents =>
      full_response ← first contents;
      print full_response PyStr.nl;;
      mret full_response
  end.

(** The end of the [try] block: the finished exchange is written to both
    histories. *)
Definition record_response (user_input full_response : string) : Py string :=
  modify (with_llama_messages (fun h =>
    h ++ [Message user (Text user_input);
          Message assistant (Text full_response)]));;
  modify (with_deepseek_messages (fun h =>
    h ++ [Message assistant (Text full_response)]));;
  print PyStr.nl PyStr.nl;;
  mret full_response.

(** The [try] block of [get_llama_response]: the request, the reading of
    the answer, and only then the writes to the two histories. *)
Definition attempt_response (be : Backend) (user_input : string)
    (messages : list message) : Py string :=
  st ← gets stream;
  model ← gets current_model;
  response ← create be (Request model messages st None);
  full_response ← read_response response;
  record_response user_input full_response.

(** What [get_llama_response] prints before its [try] block: the name of
    the model, as markup. *)
Definition announce_model (be : Backend) : Py unit :=
  name ← get_model_display_name;
  rprint be ("[green]" +:+ name +:+ "[/]") "".

(** The [except Exception as e] block: the message of the exception, as
    markup, then the fixed text. *)
Definition report_error (be : Backend) (e : exn) : Py string :=
  rprint be (PyStr.nl +:+ "[red]Error in response: " +:+ str_exn e +:+ "[/]")
         PyStr.nl;;
  mret "Error occurred while getting response".

Definition get_llama_response (be : Backend) (user_input reasoning : string)
  : Py string :=
  let messages := handoff user_input reasoning in
  announce_model be;;
  try_except (attempt_response be user_input messages) (report_error be).

(** One user turn: the last two statements of the loop body of [main]. *)
Definition turn (be : Backend) (user_input : string) : Py string :=
  reasoning ← get_deepseek_reasoning be user_input;
  get_llama_response be user_input reasoning.

(** The [clear] command. *)
Definition clear : Py unit :=
  modify (with_deepseek_messages (fun _ => []));;
  modify (with_llama_messages (fun _ => []));;
  print (PyStr.nl +:+ "[magenta]Chat history cleared![/]" +:+ PyStr.nl) PyStr.nl.

Inductive loop_ctl := Continue | Break.

(** The body of the [while True] loop of [main], without its two handlers.
    [line] is what [session.prompt] returns, or the exception it raises. *)
Definition loop_body (be : Backend) (line : exn + string) : Py loop_ctl :=
  match line with
  | inl e => raise e
  | inr raw =>
      let user_input := PyStr.strip raw in
      if String.eqb (PyStr.lower user_input) "quit" then
        print (PyStr.nl +:+ "Goodbye! ðŸ‘‹") PyStr.nl;; mret Break
      else if String.eqb (PyStr.lower user_input) "view_models" then
        available_models ← get_all_models be;
        print (PyStr.nl +:+ "[yellow]Available models:[/]") PyStr.nl;;
        for_each available_models (fun model =>
          rprint be (" â€¢ " +:+ model) PyStr.nl);;
        print "" PyStr.nl;;
        mret Continue
      else if String.eqb (PyStr.lower user_input) "clear" then
        clear;; mret Continue
      else if PyStr.startswith "model " (PyStr.lower user_input) then
        let new_model := PyStr.strip (PyStr.drop 6 user_input) in
        set_model new_model;;
        name ← get_model_display_name;
        print (PyStr.nl +:+ "Changed model to: " +:+ name +:+ PyStr.nl) PyStr.nl;;
        mret Continue
      else if String.eqb (PyStr.lower user_input) "reasoning" then
        b ← gets show_reasoning;
        modify (with_show_reasoning (negb b));;
        b ← gets show_reasoning;
        let status : string := if (b : bool) then "visible" else "hidden" in
        print (PyStr.nl +:+ "[magenta]Reasoning process is now " +:+ status
                 +:+ "[/]" +:+ PyStr.nl) PyStr.nl;;
        mret Continue
      else
        turn be user_input;; mret Continue
  end.

(** One iteration of the loop: [KeyboardInterrupt] continues, [EOFError]
    leaves the loop, any other exception leaves [main]. *)
Definition main_iter (be : Backend) (line : exn + string) : Py loop_ctl :=
  fun w =>
    match loop_body be line w with
    | (Raise KeyboardInterrupt, w') => (Ret Continue, w')
    | (Raise EOFError, w') => (Ret Break, w')
    | r => r
    end.

(** The loop over a finite script of prompt results, each with the state of
    the outside world at that iteration. *)
Fixpoint main_loop (script : list (Backend * (exn + string))) : Py unit :=
  match script with
  | [] => mret tt
  | (be, line) :: rest =>
      ctl ← main_iter be line;
      match ctl with
      | Break => mret tt
      | Continue => main_loop rest
      end
  end.

(** [main], from the construction of the chain on. *)
Definition main (no_stream : bool) (script : list (Backend * (exn + string)))
  : outcome unit * world AkashModelChain :=
  main_loop script (World (init (negb no_stream)) [] []).

End Akash.

(** ** rat-claude.py *)

Module Claude.

Definition DEEPSEEK_MODEL : string := "deepseek-reasoner".
Definition DEEPSEEK_MODEL_AKASH : string := "DeepSeek-R1".
Definition CLAUDE_MODEL : string := "claude-3-5-haiku-20241022".

Record ModelChain := {
  use_deepseek_openrouter : bool;
  stream : bool;
  deepseek_model : string;
  deepseek_messages : history;
  claude_messages : history;
  current_model : string;
  show_reasoning : bool
}.

(** [__init__] *)
Definition init (use_deepseek_openrouter stream : bool) : ModelChain :=
  {| use_deepseek_openrouter := use_deepseek_openrouter;
     stream := stream;
     deepseek_model :=
       if use_deepseek_openrouter then DEEPSEEK_MODEL else DEEPSEEK_MODEL_AKASH;
     deepseek_messages := [];
     claude_messages := [];
     current_model := CLAUDE_MODEL;
     show_reasoning := true |}.

Definition with_deepseek_messages (f : history -> history) (c : ModelChain) :=
  {| use_deepseek_openrouter := use_deepseek_openrouter c;
     stream := stream c;
     deepseek_model := deepseek_model c;
     deepseek_messages := f (deepseek_messages c);
     claude_messages := claude_messages c;
     current_model := current_model c;
     show_reasoning := show_reasoning c |}.

Definition with_claude_messages (f : history -> history) (c : ModelChain) :=
  {| use_deepseek_openrouter := use_deepseek_openrouter c;
     stream := stream c;
     deepseek_model := deepseek_model c;
     deepseek_messages := deepseek_messages c;
     claude_messages := f (claude_messages c);
     current_model := current_model c;
     show_reasoning := show_reasoning c |}.

Abbreviation Py := (M ModelChain).

(** The streaming loop of [get_deepseek_reasoning].  With the DeepSeek API
    the reasoning arrives in [reasoning_content] and the answer in
    [content]; with the Akash API both arrive in [content]. *)
Fixpoint reasoning_loop (evs : list stream_ev)
    (reasoning_content final_content : string) : Py string :=
  match evs with
  | [] => mret reasoning_content
  | Abort e :: _ => raise e
  | Yield chunk :: rest =>
      d ← first (choices chunk);
      openrouter ← gets use_deepseek_openrouter;
      if openrouter && truthy (delta_reasoning_content d) then
        let reasoning_piece := default "" (delta_reasoning_content d) in
        let reasoning_content := reasoning_content +:+ reasoning_piece in
        show ← gets show_reasoning;
        when show (print reasoning_piece "");;
        if PyStr.contains CLOSE reasoning_piece
        then mret reasoning_content
        else reasoning_loop rest reasoning_content final_content
      else if truthy (delta_content d) then
        let content_piece := default "" (delta_content d) in
        if negb openrouter then
          let reasoning_content := reasoning_content +:+ content_piece in
          show ← gets show_reasoning;
          when show (print content_piece "");;
          if PyStr.contains CLOSE content_piece
          then mret reasoning_content
          else reasoning_loop rest reasoning_content final_content
        else
          let final_content := final_content +:+ content_piece in
          if PyStr.contains CLOSE final_content
          then mret reasoning_content
          else reasoning_loop rest reasoning_content final_content
      else reasoning_loop rest reasoning_content final_content
  end.

Definition reasoning_single_shot (contents : list string) : Py string :=
  content ← first contents;
  show ← gets show_reasoning;
  when show (print content PyStr.nl);;
  mret (if PyStr.contains CLOSE content
        then PyStr.split_head CLOSE content +:+ CLOSE
        else content).

Definition clean (reasoning_content : string) : string :=
  PyStr.replace CLOSE "" (PyStr.replace OPEN "" reasoning_content).

Definition get_deepseek_reasoning (be : Backend) (user_input : string)
  : Py string :=
  modify (with_deepseek_messages (fun h => h ++ [Message user (Text user_input)]));;
  show ← gets show_reasoning;
  when show (print (PyStr.nl +:+ "[blue]Reasoning Process[/]") PyStr.nl);;
  model ← gets deepseek_model;
  msgs ← gets deepseek_messages;
  st ← gets stream;
  openrouter ← gets use_deepseek_openrouter;
  response ← create be (Request model msgs st (if (openrouter : bool) then Some 1%N else None));
  reasoning_content ←
    match response with
    | Streamed evs => reasoning_loop evs "" ""
    | Completed contents => reasoning_single_shot contents
    end;
  print (PyStr.nl +:+ PyStr.nl +:+ "[yellow]Thought for " +:+ time_str be +:+ "[/]")
        PyStr.nl;;
  show ← gets show_reasoning;
  when show (print PyStr.nl PyStr.nl);;
  mret (clean reasoning_content).

Definition thinking (reasoning : string) : string :=
  "<thinking>" +:+ reasoning +:+ "</thinking>".

(** [for text in stream.text_stream]: the Anthropic client yields the text
    pieces themselves; they are read here from the [content] of the events. *)
Fixpoint response_loop (evs : list stream_ev) (full_response : string)
  : Py string :=
  match evs with
  | [] => mret full_response
  | Abort e :: _ => raise e
  | Yield chunk :: rest =>
      d ← first (choices chunk);
      let text := default "" (delta_content d) in
      print text "";;
      response_loop rest (full_response +:+ text)
  end.

Definition get_claude_response (be : Backend) (user_input reasoning : string)
  : Py string :=
  let user_message := Message user (Blocks [user_input]) in
  let assistant_prefill := Message assistant (Blocks [thinking reasoning]) in
  let messages := [user_message; assistant_prefill] in
  name ← gets current_model;
  rprint be ("[green]" +:+ name +:+ "[/]") "";;
  try_except
    (st ← gets stream;
     model ← gets current_model;
     response ← create be (Request model messages st (Some 8000%N));
     full_response ←
       match response with
       | Streamed evs => response_loop evs ""
       | Completed contents =>
           full_response ← first contents;
           print full_response PyStr.nl;;
           mret full_response
       end;
     modify (with_claude_messages (fun h =>
       h ++ [user_message; Message assistant (Blocks [full_response])]));;
     modify (with_deepseek_messages (fun h =>
       h ++ [Message assistant (Text full_response)]));;
     print PyStr.nl PyStr.nl;;
     mret full_response)
    (fun e =>
       rprint be (PyStr.nl +:+ "[red]Error in response: " +:+ str_exn e +:+ "[/]")
              PyStr.nl;;
       mret "Error occurred while getting response").

Definition turn (be : Backend) (user_input : string) : Py string :=
  reasoning ← get_deepseek_reasoning be user_input;
  get_claude_response be user_input reasoning.

End Claude.

(** ** rat-local.py *)

Module Local.

Definition DEEPSEEK_MODEL : string := "deepseek-r1-distill-llama-8b".
Definition RESPONSE_MODEL : string := "meta-llama-3.1-8b-instruct".

(** The instance attributes.  [__init__] creates the first four; an
    assignment to any other name adds an entry to the instance [__dict__],
    kept in [extra_attrs]. *)
Record ModelChain := {
  deepseek_messages : history;
  response_messages : history;
  current_model : string;
  show_reasoning : bool;
  extra_attrs : gmap string history
}.

(** [__init__] *)
Definition init : ModelChain :=
  {| deepseek_messages := [];
     response_messages := [];
     current_model := RESPONSE_MODEL;
     show_reasoning := true;
     extra_attrs := ∅ |}.

Definition with_deepseek_messages (f : history -> history) (c : ModelChain) :=
  {| deepseek_messages := f (deepseek_messages c);
     response_messages := response_messages c;
     current_model := current_model c;
     show_reasoning := show_reasoning c;
     extra_attrs := extra_attrs c |}.

Definition with_response_messages (f : history -> history) (c : ModelChain) :=
  {| deepseek_messages := deepseek_messages c;
     response_messages := f (response_messages c);
     current_model := current_model c;
     show_reasoning := show_reasoning c;
     extra_attrs := extra_attrs c |}.

Definition with_current_model (m : string) (c : ModelChain) :=
  {| deepseek_messages := deepseek_messages c;
     response_messages := response_messages c;
     current_model := m;
     show_reasoning := show_reasoning c;
     extra_attrs := extra_attrs c |}.

Definition with_show_reasoning (b : bool) (c : ModelChain) :=
  {| deepseek_messages := deepseek_messages c;
     response_messages := response_messages c;
     current_model := current_model c;
     show_reasoning := b;
     extra_attrs := extra_attrs c |}.

(** [chain.<name> = value] for a list of messages. *)
Definition setattr (name : string) (value : history) (c : ModelChain) : ModelChain :=
  if String.eqb name "deepseek_messages" then with_deepseek_messages (fun _ => value) c
  else if String.eqb name "response_messages" then with_response_messages (fun _ => value) c
  else
    {| deepseek_messages := deepseek_messages c;
       response_messages := response_messages c;
       current_model := current_model c;
       show_reasoning := show_reasoning c;
       extra_attrs := <[name := value]> (extra_attrs c) |}.

Abbreviation Py := (M ModelChain).

(** The three local variables of the streaming loop. *)
Record scan := Scan {
  full_response : string;
  is_thinking : bool;
  think_content : string
}.

(** The body of the loop for one non-empty [content]. *)
Definition scan_step (st : scan) (content : string) : scan :=
  let full_response := full_response st +:+ content in
  let opened := PyStr.contains OPEN content in
  let is_thinking := if opened then true else is_thinking st in
  let think_content := if opened then "" else think_content st in
  if is_thinking
  then Scan full_response
            (if PyStr.contains CLOSE content then false else is_thinking)
            (think_content +:+ content)
  else Scan full_response is_thinking think_content.

Fixpoint scan_loop (evs : list stream_ev) (st : scan) : Py scan :=
  match evs with
  | [] => mret st
  | Abort e :: _ => raise e
  | Yield chunk :: rest =>
      match choices chunk with
      | [] => scan_loop rest st
      | d :: _ =>
          if truthy (delta_content d)
          then scan_loop rest (scan_step st (default "" (delta_content d)))
          else scan_loop rest st
      end
  end.

(** The request is always sent with [stream=True], so the answer is always a
    stream; the other case of [response] is never met. *)
Definition get_deepseek_reasoning (be : Backend) (user_input : string)
  : Py (list string) :=
  modify (with_deepseek_messages (fun h => h ++ [Message user (Text user_input)]));;
  show ← gets show_reasoning;
  when show (print (PyStr.nl +:+ "[blue]Reasoning Process[/]") PyStr.nl);;
  msgs ← gets deepseek_messages;
  response ← create be (Request DEEPSEEK_MODEL msgs true None);
  st ← match response with
       | Streamed evs => scan_loop evs (Scan "" false "")
       | Completed _ => mret (Scan "" false "")
       end;
  let extracted_think_content := PyStr.findall OPEN CLOSE (think_content st) in
  print (PyStr.join PyStr.nl extracted_think_content) PyStr.nl;;
  print (PyStr.nl +:+ PyStr.nl +:+ "[yellow]Thought for " +:+ time_str be +:+ "[/]")
        PyStr.nl;;
  show ← gets show_reasoning;
  when show (print PyStr.nl PyStr.nl);;
  mret extracted_think_content.

(** The [clear] command of [main]: it assigns [deepseek_messages] and
    [claude_messages]. *)
Definition clear : Py unit :=
  modify (setattr "deepseek_messages" []);;
  modify (setattr "claude_messages" []);;
  print (PyStr.nl +:+ "[magenta]Chat history cleared![/]" +:+ PyStr.nl) PyStr.nl.

Inductive loop_ctl := Continue | Break.

Section Response.
(** Python's [str] of a list of strings, which the f-string of the
    hand-off applies to the list the reasoning stage returned. *)
Variable str_of_list : list string -> string.

Fixpoint response_loop (evs : list stream_ev) (full_response : string)
  : Py string :=
  match evs with
  | [] => mret full_response
  | Abort e :: _ => raise e
  | Yield chunk :: rest =>
      d ← first (choices chunk);
      match delta_content d with
      | Some text =>
          print text "";;
          response_loop rest (full_response +:+ text)
      | None => response_loop rest full_response
      end
  end.

Definition get_local_response (be : Backend) (user_input : string)
    (reasoning : list string) : Py string :=
  let user_message := Message user (Blocks [user_input]) in
  let assistant_prefill :=
    Message assistant
      (Blocks ["<thinking>" +:+ str_of_list reasoning +:+ "</thinking>"]) in
  let messages := [user_message; assistant_prefill] in
  name ← gets current_model;
  rprint be ("[green]" +:+ name +:+ "[/]") "";;
  try_except
    (model ← gets current_model;
     response ← create be (Request model messages true (Some 8000%N));
     full_response ←
       match response with
       | Streamed evs => response_loop evs ""
       | Completed _ => mret ""
       end;
     modify (with_response_messages (fun h =>
       h ++ [user_message; Message assistant (Blocks [full_response])]));;
     modify (with_deepseek_messages (fun h =>
       h ++ [Message assistant (Text full_response)]));;
     print PyStr.nl PyStr.nl;;
     mret full_response)
    (fun e =>
       rprint be (PyStr.nl +:+ "[red]Error in response: " +:+ str_exn e +:+ "[/]")
              PyStr.nl;;
       mret "Error occurred while getting response").

Definition turn (be : Backend) (user_input : string) : Py string :=
  reasoning ← get_deepseek_reasoning be user_input;
  get_local_response be user_input reasoning.

Definition loop_body (be : Backend) (line : exn + string) : Py loop_ctl :=
  match line with
  | inl e => raise e
  | inr raw =>
      let user_input := PyStr.strip raw in
      if String.eqb (PyStr.lower user_input) "quit" then
        print (PyStr.nl +:+ "Goodbye! ðŸ‘‹") PyStr.nl;; mret Break
      else if String.eqb (PyStr.lower user_input) "clear" then
        clear;; mret Continue
      else if PyStr.startswith "model " (PyStr.lower user_input) then
        let new_model := PyStr.strip (PyStr.drop 6 user_input) in
        modify (with_current_model new_model);;
        name ← gets current_model;
        print (PyStr.nl +:+ "Changed model to: " +:+ name +:+ PyStr.nl) PyStr.nl;;
        mret Continue
      else if String.eqb (PyStr.lower user_input) "reasoning" then
        b ← gets show_reasoning;
        modify (with_show_reasoning (negb b));;
        b ← gets show_reasoning;
        let status : string := if (b : bool) then "visible" else "hidden" in
        print (PyStr.nl +:+ "[magenta]Reasoning process is now " +:+ status
                 +:+ "[/]" +:+ PyStr.nl) PyStr.nl;;
        mret Continue
      else
        turn be user_input;; mret Continue
  end.

Definition main_iter (be : Backend) (line : exn + string) : Py loop_ctl :=
  fun w =>
    match loop_body be line w with
    | (Raise KeyboardInterrupt, w') => (Ret Continue, w')
    | (Raise EOFError, w') => (Ret Break, w')
    | r => r
    end.

Fixpoint main_loop (script : list (Backend * (exn + string))) : Py unit :=
  match script with
  | [] => mret tt
  | (be, line) :: rest =>
      ctl ← main_iter be line;
      match ctl with
      | Break => mret tt
      | Continue => main_loop rest
      end
  end.

Definition main (script : list (Backend * (exn + string)))
  : outcome unit * world ModelChain :=
  main_loop script (World init [] []).

End Response.

End Local.

(** ** The delimited spans of a text, in the words of the specification *)

Module Spans.

(** [p] occurs in [s]. *)
Definition occurs (p s : string) : Prop := exists a b, s = a +:+ p +:+ b.

(** [p] occurs in [t] as a suffix or not at all. *)
Definition ends_only (p t : string) : Prop :=
  forall a b, t = a +:+ p +:+ b -> b = "".

(** In [pre +:+ p], the pattern [p] occurs at the end only: the first
    occurrence of [p] in any [pre +:+ p +:+ post] starts right after [pre]. *)
Definition first_occurrence (p pre : string) : Prop := ends_only p (pre +:+ p).

(** [matched_spans op cl s l]: [l] lists, in order, the texts strictly
    between each [op] and the next [cl] after it; an [op] with no [cl]
    after it contributes nothing. *)
Inductive matched_spans (op cl : string) : string -> list string -> Prop :=
| spans_no_open s :
    ~ occurs op s -> matched_spans op cl s []
| spans_unterminated pre rest :
    first_occurrence op pre -> ~ occurs cl rest ->
    matched_spans op cl (pre +:+ op +:+ rest) []
| spans_pair pre mid post l :
    first_occurrence op pre -> first_occurrence cl mid ->
    matched_spans op cl post l ->
    matched_spans op cl (pre +:+ op +:+ mid +:+ cl +:+ post) (mid :: l).

(** [inside_spans op cl s l]: the same, except that a trailing unmatched
    [op] contributes everything after it. *)
Inductive inside_spans (op cl : string) : string -> list string -> Prop :=
| inside_no_open s :
    ~ occurs op s -> inside_spans op cl s []
| inside_unterminated pre rest :
    first_occurrence op pre -> ~ occurs cl rest ->
    inside_spans op cl (pre +:+ op +:+ rest) [rest]
| inside_pair pre mid post l :
    first_occurrence op pre -> first_occurrence cl mid ->
    inside_spans op cl post l ->
    inside_spans op cl (pre +:+ op +:+ mid +:+ cl +:+ post) (mid :: l).

End Spans.

(** ** Scripted endpoints and the course of a turn *)

(** A streamed chunk whose only choice carries [s] as [delta.content]. *)
Definition piece (s : string) : stream_ev := Yield (Chunk [Delta (Some s) None]).

Definition pieces (frags : list string) : list stream_ev := map piece frags.

(** An endpoint that delivers the same text in either transport mode: as the
    given fragments when streaming, as their concatenation otherwise.  In the
    scripted endpoints rich renders every text it is given. *)
Definition streaming (frags : list string) : Backend :=
  {| chat_stream := fun _ => inr (pieces frags);
     chat_create := fun _ => inr [PyStr.concat frags];
     models_list := inr [];
     time_str := "0.0 seconds";
     markup_error := fun _ => None |}.

(** The hand-off request ends with an assistant message, the request of the
    reasoning stage with the user's. *)
Definition is_handoff (req : request) : bool :=
  match last (req_messages req) with
  | Some (Message assistant _) => true
  | _ => false
  end.

(** An endpoint with one scripted answer per stage: the fragments to
    deliver, or the error to raise. *)
Definition endpoint (reasoning answer : exn + list string) : Backend :=
  {| chat_stream := fun req =>
       match (if is_handoff req then answer else reasoning) with
       | inl e => inl e
       | inr frags => inr (pieces frags)
       end;
     chat_create := fun req =>
       match (if is_handoff req then answer else reasoning) with
       | inl e => inl e
       | inr frags => inr [PyStr.concat frags]
       end;
     models_list := inr [];
     time_str := "0.0 seconds";
     markup_error := fun _ => None |}.

Module AkashTurns.
Import Akash.

(** The request of the reasoning stage: the whole reasoning history, the new
    user message included. *)
Definition reasoning_request (user_input : string) (c : AkashModelChain) : request :=
  Request DEEPSEEK_MODEL
    (deepseek_messages c ++ [Message user (Text user_input)]) (stream c) None.

(** The request of the response stage. *)
Definition response_request (user_input reasoning : string) (c : AkashModelChain)
  : request :=
  Request (current_model c) (handoff user_input reasoning) (stream c) None.

(** The world in which the request of the reasoning stage is sent. *)
Definition asked (u : string) (w : world AkashModelChain) : world AkashModelChain :=
  World (with_deepseek_messages (fun h => h ++ [Message user (Text u)]) (self w))
        (stdout w ++
           if show_reasoning (self w)
           then [(PyStr.nl +:+ "[blue]Reasoning Process[/]") +:+ PyStr.nl] else [])
        (sent w).

(** What rich is asked to render before the request of the response stage. *)
Definition announcement (c : AkashModelChain) : string :=
  "[green]" +:+ current_model c +:+ "[/]".

(** How a turn ends: with the answer of the response stage, or with the
    exception raised in the reasoning stage, or with the exception raised in
    the response stage before the answer was there (by the announcement of
    the model or inside the [try] block). *)
Inductive status :=
| Answered (full_response : string)
| ReasoningFailed (e : exn)
| ResponseFailed (e : exn).

Definition turn_status (be : Backend) (user_input : string)
    (w : world AkashModelChain) : status :=
  match get_deepseek_reasoning be user_input w with
  | (Raise e, _) => ReasoningFailed e
  | (Ret reasoning, w1) =>
      match (announce_model be;;
             attempt_response be user_input (handoff user_input reasoning)) w1 with
      | (Raise e, _) => ResponseFailed e
      | (Ret full_response, _) => Answered full_response
      end
  end.

(** The world after a sequence of turns. *)
Fixpoint run_turns (script : list (Backend * string)) (w : world AkashModelChain)
  : world AkashModelChain :=
  match script with
  | [] => w
  | (be, user_input) :: rest => run_turns rest (snd (turn be user_input w))
  end.

(** The messages of completed exchanges. *)
Fixpoint exchanges (inputs answers : list string) : history :=
  match inputs, answers with
  | u :: inputs', a :: answers' =>
      Message user (Text u) :: Message assistant (Text a)
        :: exchanges inputs' answers'
  | _, _ => []
  end.

Definition is_user (m : message) : bool :=
  match role m with user => true | assistant => false end.

Definition user_messages (h : history) : history := List.filter is_user h.

(** The answered turns of a script, each with its answer, in order. *)
Fixpoint answered_turns (script : list (Backend * string))
    (w : world AkashModelChain) : list (string * string) :=
  match script with
  | [] => []
  | (be, user_input) :: rest =>
      match turn_status be user_input w with
      | Answered a => [(user_input, a)]
      | _ => []
      end ++ answered_turns rest (snd (turn be user_input w))
  end.

(** The user message of a query. *)
Definition query (user_input : string) : message := Message user (Text user_input).

End AkashTurns.

(** ** Auxiliary notions for the proofs *)

(** The computation writes to the terminal only. *)
Definition quiet {Self A} (c : M Self A) : Prop :=
  forall w, self (snd (c w)) = self w /\ sent (snd (c w)) = sent w.

(** The outcome of the computation does not depend on the world it runs in. *)
Definition oblivious {Self A} (c : M Self A) : Prop :=
  forall w w', fst (c w) = fst (c w').

(** The fragments the streaming loop of rat-akash.py reads before it stops:
    all of them up to and including the first that contains the closing
    tag. *)
Fixpoint consumed (frags : list string) : list string :=
  match frags with
  | [] => []
  | s :: rest => if PyStr.contains CLOSE s then [s] else s :: consumed rest
  end.

(** ** Example inputs *)

(** A fresh streaming session of rat-akash.py. *)
Definition fresh : world Akash.AkashModelChain := World (Akash.init true) [] [].

(** The reasoning stage delivers a plan, the response stage times out. *)
Definition answer_times_out : Backend :=
  endpoint (inr ["<think>plan A</think>"]) (inl (APIError "timeout")).

(** The reasoning stage is refused. *)
Definition reasoning_refused : Backend :=
  endpoint (inl (APIError "unauthorized")) (inr ["unused"]).

(** Both stages deliver: the reasoning with its tags cut across fragments,
    the answer in two pieces. *)
Definition plan_then_answer : Backend :=
  endpoint (inr ["<th"; "ink>plan A</thi"; "nk>"]) (inr ["Do"; " A."]).

(** A turn whose response stage times out, then an answered turn. *)
Definition failed_then_answered : list (Backend * string) :=
  [(answer_times_out, "how?"); (plan_then_answer, "then?")].

(** ** Further notions for the properties of the stages and of the loop *)

(** The text on the terminal: everything written so far, in order. *)
Definition terminal {Self} (w : world Self) : string := PyStr.concat (stdout w).

(** Some non-empty end of [a] is a start of [p]: an occurrence of [p] could
    begin in [a] and go on after it. *)
Fixpoint meets (a p : string) : bool :=
  match a with
  | EmptyString => false
  | String _ a' => PyStr.startswith a p || meets a' p
  end.

(** The text ends with a white-space character. *)
Definition ends_with_space (s : string) : Prop :=
  exists a e, s = a +:+ e /\ PyStr.after_space e = Some "".

(** The stripped line is one of the commands of the loop of rat-akash.py. *)
Definition is_command (user_input : string) : bool :=
  String.eqb (PyStr.lower user_input) "quit"
  || String.eqb (PyStr.lower user_input) "view_models"
  || String.eqb (PyStr.lower user_input) "clear"
  || PyStr.startswith "model " (PyStr.lower user_input)
  || String.eqb (PyStr.lower user_input) "reasoning".

(** The computation always returns: it raises in no world. *)
Definition returns {Self A} (c : M Self A) : Prop :=
  forall w, exists a, fst (c w) = Ret a.

(** The line ends the session: [quit] in any case, or the end of input. *)
Definition ends_session (line : exn + string) : bool :=
  match line with
  | inl EOFError => true
  | inl _ => false
  | inr raw => String.eqb (PyStr.lower (PyStr.strip raw)) "quit"
  end.

(** ** rat-claude.py: the command loop and the course of a turn *)

Module ClaudeSession.
Import Claude.

Definition with_current_model (m : string) (c : ModelChain) :=
  {| use_deepseek_openrouter := use_deepseek_openrouter c;
     stream := stream c;
     deepseek_model := deepseek_model c;
     deepseek_messages := deepseek_messages c;
     claude_messages := claude_messages c;
     current_model := m;
     show_reasoning := show_reasoning c |}.

Definition with_show_reasoning (b : bool) (c : ModelChain) :=
  {| use_deepseek_openrouter := use_deepseek_openrouter c;
     stream := stream c;
     deepseek_model := deepseek_model c;
     deepseek_messages := deepseek_messages c;
     claude_messages := claude_messages c;
     current_model := current_model c;
     show_reasoning := b |}.

(** [set_model] and [get_model_display_name] *)
Definition set_model (model_name : string) : Py unit :=
  modify (with_current_model model_name).

Definition get_model_display_name : Py string := gets current_model.

(** The [clear] command of [main]. *)
Definition clear : Py unit :=
  modify (with_deepseek_messages (fun _ => []));;
  modify (with_claude_messages (fun _ => []));;
  print (PyStr.nl +:+ "[magenta]Chat history cleared![/]" +:+ PyStr.nl) PyStr.nl.

Inductive loop_ctl := Continue | Break.

(** The body of the [while True] loop of [main], without its two handlers. *)
Definition loop_body (be : Backend) (line : exn + string) : Py loop_ctl :=
  match line with
  | inl e => raise e
  | inr raw =>
      let user_input := PyStr.strip raw in
      if String.eqb (PyStr.lower user_input) "quit" then
        print (PyStr.nl +:+ "Goodbye! ðŸ‘‹") PyStr.nl;; mret Break
      else if String.eqb (PyStr.lower user_input) "clear" then
        clear;; mret Continue
      else if PyStr.startswith "model " (PyStr.lower user_input) then
        let new_model := PyStr.strip (PyStr.drop 6 user_input) in
        set_model new_model;;
        name ← get_model_display_name;
        print (PyStr.nl +:+ "Changed model to: " +:+ name +:+ PyStr.nl) PyStr.nl;;
        mret Continue
      else if String.eqb (PyStr.lower user_input) "reasoning" then
        b ← gets show_reasoning;
        modify (with_show_reasoning (negb b));;
        b ← gets show_reasoning;
        let status : string := if (b : bool) then "visible" else "hidden" in
        print (PyStr.nl +:+ "[magenta]Reasoning process is now " +:+ status
                 +:+ "[/]" +:+ PyStr.nl) PyStr.nl;;
        mret Continue
      else
        turn be user_input;; mret Continue
  end.

(** One iteration: [KeyboardInterrupt] continues, [EOFError] leaves the
    loop, any other exception leaves [main]. *)
Definition main_iter (be : Backend) (line : exn + string) : Py loop_ctl :=
  fun w =>
    match loop_body be line w with
    | (Raise KeyboardInterrupt, w') => (Ret Continue, w')
    | (Raise EOFError, w') => (Ret Break, w')
    | r => r
    end.

Fixpoint main_loop (script : list (Backend * (exn + string))) : Py unit :=
  match script with
  | [] => mret tt
  | (be, line) :: rest =>
      ctl ← main_iter be line;
      match ctl with
      | Break => mret tt
      | Continue => main_loop rest
      end
  end.

(** [main], from the construction of the chain on. *)
Definition main (use_deepseek no_stream : bool)
    (script : list (Backend * (exn + string)))
  : outcome unit * world ModelChain :=
  main_loop script (World (init use_deepseek (negb no_stream)) [] []).

(** The two messages [get_claude_response] sends. *)
Definition handoff (user_input reasoning : string) : list message :=
  [Message user (Blocks [user_input]);
   Message assistant (Blocks [thinking reasoning])].

(** The [if self.stream: ... else: ...] block of [get_claude_response]. *)
Definition read_response (r : response) : Py string :=
  match r with
  | Streamed evs => response_loop evs ""
  | Completed contents =>
      full_response ← first contents;
      print full_response PyStr.nl;;
      mret full_response
  end.

(** The end of the [try] block: the exchange is written to both histories,
    as text blocks to the response history, as plain text to the reasoning
    history. *)
Definition record_response (user_input full_response : string) : Py string :=
  modify (with_claude_messages (fun h =>
    h ++ [Message user (Blocks [user_input]);
          Message assistant (Blocks [full_response])]));;
  modify (with_deepseek_messages (fun h =>
    h ++ [Message assistant (Text full_response)]));;
  print PyStr.nl PyStr.nl;;
  mret full_response.

(** The [try] block of [get_claude_response], on its own. *)
Definition attempt_response (be : Backend) (user_input reasoning : string)
  : Py string :=
  st ← gets stream;
  model ← gets current_model;
  response ← create be (Request model (handoff user_input reasoning) st (Some 8000%N));
  full_response ← read_response response;
  record_response user_input full_response.

(** What rich is asked to render before the request of the response stage. *)
Definition announcement (c : ModelChain) : string :=
  "[green]" +:+ current_model c +:+ "[/]".

(** What [get_claude_response] prints before its [try] block. *)
Definition announce_model (be : Backend) : Py unit :=
  name ← gets current_model;
  rprint be ("[green]" +:+ name +:+ "[/]") "".

(** The [except Exception as e] block. *)
Definition report_error (be : Backend) (e : exn) : Py string :=
  rprint be (PyStr.nl +:+ "[red]Error in response: " +:+ str_exn e +:+ "[/]")
         PyStr.nl;;
  mret "Error occurred while getting response".

(** How a turn ends: with the answer, or with the exception raised in the
    reasoning stage, or in the response stage before the answer was there. *)
Inductive status :=
| Answered (full_response : string)
| ReasoningFailed (e : exn)
| ResponseFailed (e : exn).

Definition turn_status (be : Backend) (user_input : string)
    (w : world ModelChain) : status :=
  match get_deepseek_reasoning be user_input w with
  | (Raise e, _) => ReasoningFailed e
  | (Ret reasoning, w1) =>
      match (announce_model be;; attempt_response be user_input reasoning) w1 with
      | (Raise e, _) => ResponseFailed e
      | (Ret full_response, _) => Answered full_response
      end
  end.

(** The request of the reasoning stage. *)
Definition reasoning_request (u : string) (c : ModelChain) : request :=
  Request (deepseek_model c) (deepseek_messages c ++ [Message user (Text u)])
    (stream c) (if use_deepseek_openrouter c then Some 1%N else None).

(** The world in which the request of the reasoning stage is sent. *)
Definition asked (u : string) (w : world ModelChain) : world ModelChain :=
  World (with_deepseek_messages (fun h => h ++ [Message user (Text u)]) (self w))
        (stdout w ++
           if show_reasoning (self w)
           then [(PyStr.nl +:+ "[blue]Reasoning Process[/]") +:+ PyStr.nl] else [])
        (sent w).

(** A streamed chunk of the DeepSeek API: one choice with its two fields. *)
Definition delta_piece (d : delta) : stream_ev := Yield (Chunk [d]).

(** The [reasoning_content] the loop reads from a chunk. *)
Definition reasoning_of (d : delta) : string :=
  if truthy (delta_reasoning_content d)
  then default "" (delta_reasoning_content d) else "".

(** The chunks the loop reads with the DeepSeek API before it stops: all of
    them up to and including the first whose [reasoning_content] holds the
    closing tag, or with which the [content] gathered so far holds it. *)
Fixpoint read_deltas (ds : list delta) (final_content : string) : list delta :=
  match ds with
  | [] => []
  | d :: rest =>
      if truthy (delta_reasoning_content d) then
        if PyStr.contains CLOSE (default "" (delta_reasoning_content d))
        then [d] else d :: read_deltas rest final_content
      else if truthy (delta_content d) then
        let final_content := final_content +:+ default "" (delta_content d) in
        if PyStr.contains CLOSE final_content
        then [d] else d :: read_deltas rest final_content
      else d :: read_deltas rest final_content
  end.

End ClaudeSession.

(** ** rat-local.py: the course of a turn *)

Module LocalSession.
Import Local.

(** The state of the scanning loop after the given fragments: empty
    fragments are skipped, as the loop skips falsy [content]. *)
Definition scan_all (frags : list string) (st : scan) : scan :=
  fold_left (fun st s => if truthy (Some s) then scan_step st s else st) frags st.

(** No fragment holds a whole opening tag. *)
Definition no_open (frags : list string) : bool :=
  forallb (fun s => negb (PyStr.contains OPEN s)) frags.

(** The request of the reasoning stage. *)
Definition reasoning_request (u : string) (c : ModelChain) : request :=
  Request DEEPSEEK_MODEL (deepseek_messages c ++ [Message user (Text u)]) true None.

(** The world in which the request of the reasoning stage is sent. *)
Definition asked (u : string) (w : world ModelChain) : world ModelChain :=
  World (with_deepseek_messages (fun h => h ++ [Message user (Text u)]) (self w))
        (stdout w ++
           if show_reasoning (self w)
           then [(PyStr.nl +:+ "[blue]Reasoning Process[/]") +:+ PyStr.nl] else [])
        (sent w).

Section Response.
Variable str_of_list : list string -> string.

(** The two messages [get_local_response] sends. *)
Definition handoff (user_input : string) (reasoning : list string) : list message :=
  [Message user (Blocks [user_input]);
   Message assistant
     (Blocks ["<thinking>" +:+ str_of_list reasoning +:+ "</thinking>"])].

(** The reading of the answer in [get_local_response]. *)
Definition read_response (r : response) : Py string :=
  match r with
  | Streamed evs => response_loop evs ""
  | Completed _ => mret ""
  end.

(** The end of the [try] block. *)
Definition record_response (user_input full_response : string) : Py string :=
  modify (with_response_messages (fun h =>
    h ++ [Message user (Blocks [user_input]);
          Message assistant (Blocks [full_response])]));;
  modify (with_deepseek_messages (fun h =>
    h ++ [Message assistant (Text full_response)]));;
  print PyStr.nl PyStr.nl;;
  mret full_response.

(** The [try] block of [get_local_response], on its own. *)
Definition attempt_response (be : Backend) (user_input : string)
    (reasoning : list string) : Py string :=
  model ← gets current_model;
  response ← create be (Request model (handoff user_input reasoning) true
                          (Some 8000%N));
  full_response ← read_response response;
  record_response user_input full_response.

(** What rich is asked to render before the request of the response stage. *)
Definition announcement (c : ModelChain) : string :=
  "[green]" +:+ current_model c +:+ "[/]".

(** What [get_local_response] prints before its [try] block. *)
Definition announce_model (be : Backend) : Py unit :=
  name ← gets current_model;
  rprint be ("[green]" +:+ name +:+ "[/]") "".

(** The [except Exception as e] block. *)
Definition report_error (be : Backend) (e : exn) : Py string :=
  rprint be (PyStr.nl +:+ "[red]Error in response: " +:+ str_exn e +:+ "[/]")
         PyStr.nl;;
  mret "Error occurred while getting response".

(** How a turn ends: with the answer, or with the exception raised in the
    reasoning stage, or in the response stage before the answer was there. *)
Inductive status :=
| Answered (full_response : string)
| ReasoningFailed (e : exn)
| ResponseFailed (e : exn).

Definition turn_status (be : Backend) (user_input : string)
    (w : world ModelChain) : status :=
  match get_deepseek_reasoning be user_input w with
  | (Raise e, _) => ReasoningFailed e
  | (Ret reasoning, w1) =>
      match (announce_model be;; attempt_response be user_input reasoning) w1 with
      | (Raise e, _) => ResponseFailed e
      | (Ret full_response, _) => Answered full_response
      end
  end.

End Response.

End LocalSession.

(** ** Further example inputs *)

(** A reasoning stream whose closing tag ends its second chunk, followed by
    the answer of the reasoning model. *)
Definition plan_then_more : list string := ["<think>pl"; "an A</think>"; "Do A."].

(** An endpoint of the DeepSeek API: it streams the given chunks. *)
Definition deepseek_endpoint (ds : list delta) : Backend :=
  {| chat_stream := fun _ => inr (map ClaudeSession.delta_piece ds);
     chat_create := fun _ => inl (APIError "not streaming");
     models_list := inr [];
     time_str := "0.0 seconds";
     markup_error := fun _ => None |}.

(** Reasoning in two chunks, then the answer in [content]. *)
Definition deepseek_chunks : list delta :=
  [Delta None (Some "plan"); Delta (Some "") (Some " A"); Delta (Some "Do A.") None].


(** U+00A0, the no-break space, in UTF-8. *)
Definition nbsp : string := String (ascii_of_nat 194) (String (ascii_of_nat 160) "").

(** The same endpoint, with a rich that refuses the texts holding the given
    closing tag. *)
Definition refusing (tag : string) (be : Backend) : Backend :=
  {| chat_stream := chat_stream be;
     chat_create := chat_create be;
     models_list := models_list be;
     time_str := time_str be;
     markup_error := fun s =>
       if PyStr.contains tag s
       then Some ("closing tag '" +:+ tag +:+ "' doesn't match any open tag")
       else None |}.

(** An endpoint whose answer breaks after one piece. *)
Definition connection_lost : Backend :=
  {| chat_stream := fun _ =>
       inr (pieces ["Do"] ++ [Abort (APIError "connection lost")]);
     chat_create := fun _ => inr [];
     models_list := inr [];
     time_str := "0.0 seconds";
     markup_error := fun _ => None |}.

(** Fresh sessions of rat-claude.py and rat-local.py. *)
Definition fresh_claude (use_deepseek : bool) : world Claude.ModelChain :=
  World (Claude.init use_deepseek true) [] [].

Definition fresh_local : world Local.ModelChain := World Local.init [] [].

(** * Properties *)

(** ** Facts about the string operations *)

Module PyStrFacts.
Import PyStr Spans.

Lemma app_cons c (a b : string) : String c a +:+ b = String c (a +:+ b).
Proof. reflexivity. Qed.

Lemma app_nil_l (s : string) : "" +:+ s = s.
Proof. reflexivity. Qed.

Lemma app_nil_r (s : string) : s +:+ "" = s.
Proof. induction s as [|c s IH]; [reflexivity|]. rewrite app_cons, IH. reflexivity. Qed.

Lemma app_assoc (a b c : string) : (a +:+ b) +:+ c = a +:+ b +:+ c.
Proof.
  induction a as [|x a IH]; [reflexivity|].
  rewrite !app_cons, IH. reflexivity.
Qed.

Lemma length_app (a b : string) :
  String.length (a +:+ b) = String.length a + String.length b.
Proof.
  induction a as [|x a IH]; [reflexivity|].
  rewrite app_cons. simpl. rewrite IH. reflexivity.
Qed.

Lemma length_zero (s : string) : String.length s = 0 -> s = "".
Proof. destruct s; [reflexivity | discriminate]. Qed.

(** *** [startswith] *)

Lemma startswith_nil s : startswith "" s = true.
Proof. destruct s; reflexivity. Qed.

Lemma startswith_app p s : startswith p (p +:+ s) = true.
Proof.
  induction p as [|c p IH]; [apply startswith_nil|].
  rewrite app_cons. simpl. rewrite Ascii.eqb_refl. exact IH.
Qed.

Lemma startswith_drop p s :
  startswith p s = true -> s = p +:+ drop (String.length p) s.
Proof.
  revert s. induction p as [|c p IH]; intros s H.
  - destruct s; reflexivity.
  - destruct s as [|d s]; [discriminate|].
    simpl in H. apply andb_true_iff in H as [Hc Hp].
    apply Ascii.eqb_eq in Hc as ->.
    rewrite app_cons. simpl. f_equal. apply IH, Hp.
Qed.

Lemma startswith_iff p s : startswith p s = true <-> exists t, s = p +:+ t.
Proof.
  split.
  - intros H. eexists. apply startswith_drop, H.
  - intros [t ->]. apply startswith_app.
Qed.

(** A prefix of [x +:+ y] no longer than [x] is a prefix of [x]. *)
Lemma startswith_app_short p x y :
  startswith p (x +:+ y) = true -> String.length p <= String.length x ->
  startswith p x = true.
Proof.
  revert x. induction p as [|c p IH]; intros x H Hlen.
  - apply startswith_nil.
  - destruct x as [|d x]; [simpl in Hlen; lia|].
    rewrite app_cons in H. simpl in *.
    apply andb_true_iff in H as [-> Hp]. simpl.
    apply IH; [exact Hp | lia].
Qed.

(** *** [take] and [drop] *)

Lemma take_drop n s : take n s +:+ drop n s = s.
Proof.
  revert s. induction n as [|n IH]; intros [|c s]; try reflexivity.
  simpl. rewrite app_cons, IH. reflexivity.
Qed.

Lemma drop_add n m s : drop (n + m) s = drop m (drop n s).
Proof.
  revert s. induction n as [|n IH]; intros s; [reflexivity|].
  destruct s as [|c s]; simpl; [destruct m; reflexivity | apply IH].
Qed.

Lemma take_app a b : take (String.length a) (a +:+ b) = a.
Proof.
  induction a as [|c a IH]; [destruct b; reflexivity|].
  rewrite app_cons. simpl. rewrite IH. reflexivity.
Qed.

Lemma drop_app a b : drop (String.length a) (a +:+ b) = b.
Proof.
  induction a as [|c a IH]; [destruct b; reflexivity|].
  rewrite app_cons. simpl. exact IH.
Qed.

Lemma length_take n s : n <= String.length s -> String.length (take n s) = n.
Proof.
  revert s. induction n as [|n IH]; intros [|c s] H; simpl in *; try lia.
  rewrite IH; lia.
Qed.

(** *** Occurrences *)


Lemma contains_occurs p s : contains p s = true <-> occurs p s.
Proof.
  split.
  - induction s as [|c s IH]; simpl; intros H.
    + apply orb_true_iff in H as [H|H]; [|discriminate].
      apply startswith_iff in H as [t Ht]. exists "", t. exact Ht.
    + apply orb_true_iff in H as [H|H].
      * apply startswith_iff in H as [t Ht]. exists "", t. exact Ht.
      * destruct (IH H) as (a & b & ->). exists (String c a), b. reflexivity.
  - intros (a & b & ->). induction a as [|c a IH].
    + rewrite app_nil_l.
      destruct (p +:+ b) eqn:E; simpl; rewrite <- E, startswith_app; reflexivity.
    + rewrite app_cons. simpl. rewrite IH. apply orb_true_r.
Qed.

Lemma find_None p s : find p s = None <-> contains p s = false.
Proof.
  induction s as [|c s IH]; simpl.
  - destruct (startswith p ""); simpl; split; congruence.
  - destruct (startswith p (String c s)); simpl; [split; congruence|].
    rewrite <- IH. destruct (find p s); simpl; split; congruence.
Qed.

Lemma find_None_occurs p s : find p s = None -> ~ occurs p s.
Proof.
  intros H Ho. apply find_None in H. apply contains_occurs in Ho. congruence.
Qed.


Lemma first_occurrence_nil p : first_occurrence p "".
Proof.
  intros a b H. apply (f_equal String.length) in H.
  rewrite app_nil_l, !length_app in H. apply length_zero. lia.
Qed.

Lemma first_occurrence_tail p c pre :
  first_occurrence p (String c pre) -> first_occurrence p pre.
Proof.
  intros H a b E. apply (H (String c a) b). rewrite !app_cons, E. reflexivity.
Qed.

Lemma find_Some p s i :
  find p s = Some i ->
  startswith p (drop i s) = true /\ i <= String.length s /\
  first_occurrence p (take i s).
Proof.
  revert i. induction s as [|c s IH]; intros i; simpl.
  - destruct (startswith p "") eqn:E; [|discriminate].
    intros [= <-]. simpl. split; [exact E|]. split; [lia|].
    apply first_occurrence_nil.
  - destruct (startswith p (String c s)) eqn:E.
    + intros [= <-]. simpl. split; [exact E|]. split; [lia|].
      apply first_occurrence_nil.
    + destruct (find p s) as [j|] eqn:Ej; [|discriminate].
      intros [= <-]. destruct (IH j eq_refl) as (Hs & Hl & Hf).
      simpl. split; [exact Hs|]. split; [lia|].
      intros a b Hab. destruct a as [|d a].
      * exfalso. rewrite app_nil_l in Hab.
        assert (String c s = p +:+ (b +:+ drop (String.length p) (drop j s))) as Hc.
        { rewrite <- app_assoc, <- Hab, app_assoc, app_cons. f_equal.
          rewrite <- (startswith_drop _ _ Hs). symmetry. apply take_drop. }
        rewrite Hc, startswith_app in E. discriminate.
      * rewrite !app_cons in Hab. injection Hab as -> Hab.
        apply (Hf a b Hab).
Qed.

(** The decomposition of [s] at the first occurrence of [p]. *)
Lemma find_split p s i :
  find p s = Some i ->
  s = take i s +:+ p +:+ drop (i + String.length p) s /\
  String.length (take i s) = i /\ first_occurrence p (take i s).
Proof.
  intros H. destruct (find_Some _ _ _ H) as (Hs & Hl & Hf).
  split; [|split; [apply length_take, Hl | exact Hf]].
  rewrite drop_add, <- (startswith_drop _ _ Hs). symmetry. apply take_drop.
Qed.

Lemma find_first p pre post :
  first_occurrence p pre ->
  find p (pre +:+ p +:+ post) = Some (String.length pre).
Proof.
  induction pre as [|c pre IH]; intros Hf.
  - rewrite app_nil_l. destruct (p +:+ post) eqn:E; simpl;
      rewrite <- E, startswith_app; reflexivity.
  - rewrite app_cons. simpl.
    destruct (startswith p (String c (pre +:+ p +:+ post))) eqn:E.
    + exfalso. rewrite <- app_cons, <- app_assoc in E.
      apply startswith_app_short in E.
      2:{ rewrite length_app. lia. }
      apply startswith_iff in E as [t Ht].
      pose proof (Hf "" t Ht) as ->.
      apply (f_equal String.length) in Ht.
      rewrite app_nil_r, length_app in Ht. simpl in Ht. lia.
    + rewrite (IH (first_occurrence_tail _ _ _ Hf)). reflexivity.
Qed.

(** *** [findall] computes the matched spans *)

Section Findall.
Variables op cl : string.
Hypothesis op_nonempty : 0 < String.length op.

Lemma findall_between_spans fuel s :
  String.length s < fuel ->
  matched_spans op cl s (findall_between op cl fuel s).
Proof.
  revert s. induction fuel as [|fuel IH]; intros s Hfuel; [lia|].
  simpl. destruct (find op s) as [i|] eqn:Ei.
  - destruct (find_split _ _ _ Ei) as (Hs & Hli & Hfi).
    set (body := drop (i + String.length op) s) in *.
    destruct (find cl body) as [j|] eqn:Ej.
    + destruct (find_split _ _ _ Ej) as (Hb & Hlj & Hfj).
      set (post := drop (j + String.length cl) body) in *.
      assert (String.length post < fuel) as Hpost.
      { apply (f_equal String.length) in Hs, Hb.
        rewrite !length_app in Hs, Hb. lia. }
      pose proof (spans_pair op cl _ _ _ _ Hfi Hfj (IH post Hpost)) as Hp.
      rewrite <- Hb, <- Hs in Hp. exact Hp.
    + pose proof (spans_unterminated op cl _ _ Hfi (find_None_occurs _ _ Ej)) as Hp.
      rewrite <- Hs in Hp. exact Hp.
  - apply spans_no_open, find_None_occurs, Ei.
Qed.

Lemma findall_spans s : matched_spans op cl s (findall op cl s).
Proof. apply findall_between_spans. lia. Qed.

Lemma spans_findall_between s l :
  matched_spans op cl s l ->
  forall fuel, String.length s < fuel -> findall_between op cl fuel s = l.
Proof.
  induction 1 as [s Hno|pre rest Hf Hno|pre mid post l Hf Hm _ IH];
    intros [|fuel] Hfuel; try lia; simpl.
  - destruct (find op s) as [i|] eqn:Ei; [|reflexivity].
    exfalso. apply Hno. destruct (find_split _ _ _ Ei) as (Hs & _).
    eexists _, _. exact Hs.
  - rewrite (find_first _ _ _ Hf), drop_add, drop_app, drop_app.
    destruct (find cl rest) as [j|] eqn:Ej; [|reflexivity].
    exfalso. apply Hno. destruct (find_split _ _ _ Ej) as (Hs & _).
    eexists _, _. exact Hs.
  - rewrite (find_first _ _ _ Hf), drop_add, drop_app, drop_app.
    rewrite (find_first _ _ _ Hm), take_app, drop_add, drop_app, drop_app.
    f_equal. apply IH. rewrite !length_app in Hfuel. lia.
Qed.

(** The matched spans of a text are unique, and [findall] returns them. *)
Lemma spans_findall s l : matched_spans op cl s l <-> findall op cl s = l.
Proof.
  split.
  - intros H. apply (spans_findall_between _ _ H). lia.
  - intros <-. apply findall_spans.
Qed.

End Findall.

End PyStrFacts.

(** ** The monad: what quiet code leaves untouched *)

Section Quiet.
Context {Self : Type}.
Implicit Types w : world Self.

Lemma quiet_ret {A} (a : A) : quiet (mret a : M Self A).
Proof. intros w. split; reflexivity. Qed.

Lemma quiet_raise {A} e : quiet (raise e : M Self A).
Proof. intros w. split; reflexivity. Qed.

Lemma quiet_bind {A B} (c : M Self A) (k : A -> M Self B) :
  quiet c -> (forall a, quiet (k a)) -> quiet (c ≫= k).
Proof.
  intros Hc Hk w. unfold mbind, M_bind, bind.
  destruct (Hc w) as [H1 H2]. destruct (c w) as [[a|e] w1]; simpl in *.
  - destruct (Hk a w1) as [H3 H4]. split; congruence.
  - split; assumption.
Qed.

Lemma quiet_gets {A} (f : Self -> A) : quiet (gets f).
Proof. intros w. split; reflexivity. Qed.

Lemma quiet_print s e : quiet (print s e : M Self unit).
Proof. intros w. split; reflexivity. Qed.

Lemma quiet_rprint be s e : quiet (rprint be s e : M Self unit).
Proof.
  unfold rprint. destruct (markup_error be s); intros w; split; reflexivity.
Qed.

Lemma quiet_when b (c : M Self unit) : quiet c -> quiet (when b c).
Proof. destruct b; [auto | intros _; apply (quiet_ret tt)]. Qed.

Lemma quiet_first {A} (l : list A) : quiet (first l : M Self A).
Proof. destruct l; [apply (quiet_raise IndexError) | apply quiet_ret]. Qed.

(** A request followed by quiet code: one more request in the log. *)
Lemma create_then {A} be req (k : response -> M Self A) w :
  (forall resp, quiet (k resp)) ->
  self (snd ((create be req ≫= k) w)) = self w /\
  sent (snd ((create be req ≫= k) w)) = sent w ++ [req].
Proof.
  intros Hk. unfold mbind, M_bind, bind, create.
  destruct (req_stream req).
  - destruct (chat_stream be req) as [e|evs]; simpl; [auto|].
    destruct (Hk (Streamed evs) (World (self w) (stdout w) (sent w ++ [req]))) as [H1 H2].
    rewrite H1, H2. auto.
  - destruct (chat_create be req) as [e|cs]; simpl; [auto|].
    destruct (Hk (Completed cs) (World (self w) (stdout w) (sent w ++ [req]))) as [H1 H2].
    rewrite H1, H2. auto.
Qed.

(** When a request followed by [k] raises, either the request or [k] did. *)
Lemma create_then_outcome {A} be req (k : response -> M Self A) w :
  let w1 := World (self w) (stdout w) (sent w ++ [req]) in
  (exists e, (create be req ≫= k) w = (Raise e, w1)) \/
  (exists resp, (create be req ≫= k) w = k resp w1).
Proof.
  unfold mbind, M_bind, bind, create.
  destruct (req_stream req).
  - destruct (chat_stream be req) as [e|evs]; simpl; eauto.
  - destruct (chat_create be req) as [e|cs]; simpl; eauto.
Qed.

(** *** Outcomes that do not depend on the world *)

Lemma oblivious_ret {A} (a : A) : oblivious (mret a : M Self A).
Proof. intros w w'. reflexivity. Qed.

Lemma oblivious_raise {A} e : oblivious (raise e : M Self A).
Proof. intros w w'. reflexivity. Qed.

Lemma oblivious_bind {A B} (c : M Self A) (k : A -> M Self B) :
  oblivious c -> (forall a, oblivious (k a)) -> oblivious (c ≫= k).
Proof.
  intros Hc Hk w w'. unfold mbind, M_bind, bind.
  specialize (Hc w w').
  destruct (c w) as [[a|e] w1], (c w') as [[a'|e'] w1']; simpl in Hc;
    try discriminate; injection Hc as <-; [apply Hk | reflexivity].
Qed.

Lemma oblivious_print s e : oblivious (print s e : M Self unit).
Proof. intros w w'. reflexivity. Qed.

Lemma oblivious_rprint be s e : oblivious (rprint be s e : M Self unit).
Proof. unfold rprint. destruct (markup_error be s); intros w w'; reflexivity. Qed.

Lemma oblivious_modify f : oblivious (modify f : M Self unit).
Proof. intros w w'. reflexivity. Qed.

Lemma oblivious_first {A} (l : list A) : oblivious (first l : M Self A).
Proof. destruct l; [apply (oblivious_raise IndexError) | apply oblivious_ret]. Qed.

Lemma oblivious_create be req : oblivious (create be req : M Self response).
Proof.
  intros w w'. unfold create.
  destruct (req_stream req);
    [destruct (chat_stream be req) | destruct (chat_create be req)]; reflexivity.
Qed.

(** A display switch read from the chain and used only to decide whether to
    print does not show in the outcome. *)
Lemma oblivious_display {A} (flag : Self -> bool) s e (k : M Self A) :
  oblivious k -> oblivious (show ← gets flag; when show (print s e);; k).
Proof.
  intros Hk w w'. unfold mbind, M_bind, bind, gets, when.
  destruct (flag (self w)), (flag (self w')); simpl; apply Hk.
Qed.

End Quiet.

Create HintDb quiet.
#[global] Hint Resolve quiet_ret quiet_raise quiet_gets quiet_print quiet_rprint
  quiet_when quiet_first : quiet.

Create HintDb oblivious.
#[global] Hint Resolve oblivious_ret oblivious_raise oblivious_print
  oblivious_rprint oblivious_modify oblivious_first oblivious_create : oblivious.

Ltac oblivious_step :=
  first [ apply oblivious_display
        | apply oblivious_bind; [|intros ?]
        | solve [auto with oblivious] ].

Ltac quiet_step :=
  first [ apply quiet_bind; [|intros ?] | solve [auto with quiet] ].

Module AkashFacts.
Import Akash AkashTurns.

Lemma quiet_reasoning_loop evs acc : quiet (reasoning_loop evs acc).
Proof.
  revert acc. induction evs as [|[chunk|e] evs IH]; intros acc; simpl.
  - auto with quiet.
  - quiet_step; [auto with quiet|].
    destruct (truthy _); [|apply IH].
    repeat quiet_step. destruct (PyStr.contains _ _); [auto with quiet | apply IH].
  - auto with quiet.
Qed.

Lemma quiet_reasoning_single_shot contents : quiet (reasoning_single_shot contents).
Proof. unfold reasoning_single_shot. repeat quiet_step. Qed.

Lemma quiet_read_reasoning r : quiet (read_reasoning r).
Proof.
  destruct r; [apply quiet_reasoning_loop | apply quiet_reasoning_single_shot].
Qed.

Lemma quiet_finish_reasoning be rc : quiet (finish_reasoning be rc).
Proof. unfold finish_reasoning. repeat quiet_step. Qed.

Lemma quiet_response_loop evs acc : quiet (response_loop evs acc).
Proof.
  revert acc. induction evs as [|[chunk|e] evs IH]; intros acc; simpl.
  - auto with quiet.
  - quiet_step; [auto with quiet|].
    destruct (truthy _); [|apply IH].
    quiet_step; [auto with quiet | apply IH].
  - auto with quiet.
Qed.

Lemma quiet_read_response r : quiet (read_response r).
Proof.
  destruct r; simpl; [apply quiet_response_loop | repeat quiet_step].
Qed.

#[local] Hint Resolve quiet_read_reasoning quiet_finish_reasoning
  quiet_read_response : quiet.

(** *** The reasoning stage *)

Lemma get_deepseek_reasoning_unfold be u w :
  get_deepseek_reasoning be u w =
  (create be (reasoning_request u (self w))
     ≫= λ response, read_reasoning response ≫= finish_reasoning be) (asked u w).
Proof.
  unfold get_deepseek_reasoning, asked, reasoning_request.
  unfold mbind at 1 2 3 4 5. unfold M_bind, bind at 1 2 3 4 5. simpl.
  destruct (show_reasoning (self w)); simpl; [reflexivity|].
  rewrite app_nil_r. reflexivity.
Qed.

(** The reasoning stage appends the user message to the reasoning history
    and sends one request, whether it returns or raises. *)
Lemma get_deepseek_reasoning_world be u w :
  let w' := snd (get_deepseek_reasoning be u w) in
  self w' = with_deepseek_messages (fun h => h ++ [Message user (Text u)]) (self w) /\
  sent w' = sent w ++ [reasoning_request u (self w)].
Proof.
  simpl. rewrite get_deepseek_reasoning_unfold.
  apply (create_then be _ _ (asked u w)).
  intros resp. repeat quiet_step.
Qed.

(** *** The response stage *)

Lemma quiet_report_error be e : quiet (report_error be e).
Proof. unfold report_error. repeat quiet_step. Qed.

(** The announcement either raises rich's [MarkupError] and writes
    nothing, or puts the name of the model on the terminal. *)
Lemma announce_model_run be (w : world AkashModelChain) :
  announce_model be w =
  match markup_error be (announcement (self w)) with
  | Some msg => (Raise (MarkupError msg), w)
  | None =>
      (Ret tt, World (self w) (stdout w ++ [announcement (self w) +:+ ""]) (sent w))
  end.
Proof.
  unfold announce_model, get_model_display_name, rprint, announcement.
  unfold mbind, M_bind, bind, gets. simpl.
  destruct (markup_error be _); reflexivity.
Qed.

(** The handler either raises rich's [MarkupError] or puts the message of
    the exception on the terminal and returns the fixed text. *)
Lemma report_error_run be e (w : world AkashModelChain) :
  report_error be e w =
  match markup_error be
          (PyStr.nl +:+ "[red]Error in response: " +:+ str_exn e +:+ "[/]") with
  | Some msg => (Raise (MarkupError msg), w)
  | None =>
      (Ret "Error occurred while getting response",
       World (self w)
             (stdout w ++
                [(PyStr.nl +:+ "[red]Error in response: " +:+ str_exn e +:+ "[/]")
                   +:+ PyStr.nl])
             (sent w))
  end.
Proof.
  unfold report_error, rprint, mbind, M_bind, bind.
  destruct (markup_error be _); reflexivity.
Qed.

Lemma announce_then {A} be (k : Py A) (w : world AkashModelChain) :
  (announce_model be;; k) w =
  match markup_error be (announcement (self w)) with
  | Some msg => (Raise (MarkupError msg), w)
  | None => k (World (self w) (stdout w ++ [announcement (self w) +:+ ""]) (sent w))
  end.
Proof.
  unfold mbind, M_bind, bind. rewrite announce_model_run.
  destruct (markup_error be _); reflexivity.
Qed.

Lemma attempt_response_unfold be u msgs w :
  attempt_response be u msgs w =
  (create be (Request (current_model (self w)) msgs (stream (self w)) None)
     ≫= λ response, read_response response ≫= record_response u) w.
Proof. reflexivity. Qed.

(** The [try] block either raises before it has written anything to the
    histories, or returns after it has appended the exchange to both. *)
Lemma attempt_response_world be u msgs w :
  let req := Request (current_model (self w)) msgs (stream (self w)) None in
  let w' := snd (attempt_response be u msgs w) in
  sent w' = sent w ++ [req] /\
  match fst (attempt_response be u msgs w) with
  | Raise _ => self w' = self w
  | Ret a =>
      self w' =
        with_deepseek_messages (fun h => h ++ [Message assistant (Text a)])
          (with_llama_messages (fun h =>
             h ++ [Message user (Text u); Message assistant (Text a)]) (self w))
  end.
Proof.
  simpl. rewrite attempt_response_unfold.
  set (req := Request _ _ _ _).
  destruct (create_then_outcome be req
              (λ response, read_response response ≫= record_response u) w)
    as [[e ->]|[resp ->]]; simpl; [auto|].
  unfold mbind, M_bind, bind.
  destruct (quiet_read_response resp (World (self w) (stdout w) (sent w ++ [req])))
    as [H1 H2].
  destruct (read_response resp _) as [[a|e] w1]; simpl in *; rewrite ?H1; auto.
Qed.

(** The response stage, by what its announcement and its [try] block do:
    the chain is written only when the answer is there, and the request is
    sent only when the announcement was rendered. *)
Lemma get_llama_response_world be u r (w : world AkashModelChain) :
  let w' := snd (get_llama_response be u r w) in
  match fst ((announce_model be;; attempt_response be u (handoff u r)) w) with
  | Raise _ => self w' = self w
  | Ret a =>
      self w' =
        with_deepseek_messages (fun h => h ++ [Message assistant (Text a)])
          (with_llama_messages (fun h =>
             h ++ [Message user (Text u); Message assistant (Text a)]) (self w))
  end /\
  sent w' =
    sent w ++
    match markup_error be (announcement (self w)) with
    | None => [response_request u r (self w)]
    | Some _ => []
    end.
Proof.
  simpl. unfold get_llama_response. rewrite !announce_then.
  destruct (markup_error be (announcement (self w))) as [msg|]; simpl.
  { rewrite app_nil_r. auto. }
  set (w2 := World _ _ _).
  destruct (attempt_response_world be u (handoff u r) w2) as [Hs Hc].
  unfold try_except.
  destruct (attempt_response be u (handoff u r) w2) as [[a|e] w3]; simpl in *;
    [auto|].
  destruct (is_Exception e); simpl; [|auto].
  destruct (quiet_report_error be e w3) as [-> ->]. auto.
Qed.

(** *** The display switch does not reach the outcomes *)

Lemma oblivious_reasoning_loop evs acc : oblivious (reasoning_loop evs acc).
Proof.
  revert acc. induction evs as [|[chunk|e] evs IH]; intros acc; simpl.
  - auto with oblivious.
  - oblivious_step; [auto with oblivious|].
    destruct (truthy _); [|apply IH].
    oblivious_step. destruct (PyStr.contains _ _); [auto with oblivious | apply IH].
  - auto with oblivious.
Qed.

Lemma oblivious_read_reasoning r : oblivious (read_reasoning r).
Proof.
  destruct r; simpl; [apply oblivious_reasoning_loop|].
  unfold reasoning_single_shot. oblivious_step; [auto with oblivious|].
  oblivious_step. auto with oblivious.
Qed.

Lemma oblivious_finish_reasoning be rc : oblivious (finish_reasoning be rc).
Proof. unfold finish_reasoning. repeat oblivious_step. Qed.

Lemma oblivious_response_loop evs acc : oblivious (response_loop evs acc).
Proof.
  revert acc. induction evs as [|[chunk|e] evs IH]; intros acc; simpl.
  - auto with oblivious.
  - oblivious_step; [auto with oblivious|].
    destruct (truthy _); [|apply IH].
    oblivious_step; [auto with oblivious | apply IH].
  - auto with oblivious.
Qed.

Lemma oblivious_read_response r : oblivious (read_response r).
Proof.
  destruct r; simpl; [apply oblivious_response_loop | repeat oblivious_step].
Qed.

Lemma oblivious_record_response u a : oblivious (record_response u a).
Proof. unfold record_response. repeat oblivious_step. Qed.

#[local] Hint Resolve oblivious_read_reasoning oblivious_finish_reasoning
  oblivious_read_response oblivious_record_response : oblivious.

(** The outcome of the reasoning stage is decided by the request alone. *)
Lemma get_deepseek_reasoning_outcome be u w w' :
  reasoning_request u (self w) = reasoning_request u (self w') ->
  fst (get_deepseek_reasoning be u w) = fst (get_deepseek_reasoning be u w').
Proof.
  intros Hreq. rewrite !get_deepseek_reasoning_unfold, Hreq.
  apply oblivious_bind; [auto with oblivious|].
  intros resp. repeat oblivious_step.
Qed.

Lemma attempt_response_outcome be u msgs w w' :
  current_model (self w) = current_model (self w') ->
  stream (self w) = stream (self w') ->
  fst (attempt_response be u msgs w) = fst (attempt_response be u msgs w').
Proof.
  intros Hm Hs. rewrite !attempt_response_unfold, Hm, Hs.
  apply oblivious_bind; [auto with oblivious|].
  intros resp. repeat oblivious_step.
Qed.

(** *** A whole turn *)

Lemma turn_unfold be u w :
  turn be u w =
  match get_deepseek_reasoning be u w with
  | (Raise e, w1) => (Raise e, w1)
  | (Ret r, w1) => get_llama_response be u r w1
  end.
Proof.
  unfold turn, mbind, M_bind, bind.
  destruct (get_deepseek_reasoning be u w) as [[r|e] w1]; reflexivity.
Qed.

(** The histories after a turn, by the way the turn ended. *)
Lemma turn_histories be u w :
  let c := self w in
  let c' := self (snd (turn be u w)) in
  match turn_status be u w with
  | Answered a =>
      deepseek_messages c' =
        deepseek_messages c ++ [Message user (Text u); Message assistant (Text a)] /\
      llama_messages c' =
        llama_messages c ++ [Message user (Text u); Message assistant (Text a)]
  | ReasoningFailed _ | ResponseFailed _ =>
      deepseek_messages c' = deepseek_messages c ++ [Message user (Text u)] /\
      llama_messages c' = llama_messages c
  end.
Proof.
  simpl. unfold turn_status. rewrite turn_unfold.
  destruct (get_deepseek_reasoning_world be u w) as [Hself _].
  destruct (get_deepseek_reasoning be u w) as [[r|e] w1]; simpl in Hself.
  - destruct (get_llama_response_world be u r w1) as [Hc _].
    destruct ((announce_model be;; attempt_response be u (handoff u r)) w1)
      as [[a|e] w3]; simpl in *; rewrite Hc, Hself; simpl;
      rewrite <- ?app_assoc; auto.
  - simpl. rewrite Hself. simpl. auto.
Qed.

(** The requests of a turn: the reasoning history first, then, when the
    reasoning stage returned and rich rendered the name of the model, the
    hand-off built from what the reasoning stage returned. *)
Lemma turn_sent be u w :
  sent (snd (turn be u w)) =
  sent w ++ reasoning_request u (self w) ::
    match fst (get_deepseek_reasoning be u w) with
    | Ret r =>
        match markup_error be (announcement (self w)) with
        | None => [response_request u r (self w)]
        | Some _ => []
        end
    | Raise _ => []
    end.
Proof.
  rewrite turn_unfold.
  destruct (get_deepseek_reasoning_world be u w) as [Hself Hsent].
  destruct (get_deepseek_reasoning be u w) as [[r|e] w1]; simpl in *;
    [|exact Hsent].
  destruct (get_llama_response_world be u r w1) as [_ Hs].
  rewrite Hs, Hsent, Hself. unfold announcement, response_request. simpl.
  rewrite <- app_assoc. reflexivity.
Qed.

(** The outcome of the announcement and the [try] block is decided by the
    model and the transport mode. *)
Lemma response_stage_outcome be u msgs w w' :
  current_model (self w) = current_model (self w') ->
  stream (self w) = stream (self w') ->
  fst ((announce_model be;; attempt_response be u msgs) w) =
  fst ((announce_model be;; attempt_response be u msgs) w').
Proof.
  intros Hm Hs. rewrite !announce_then. unfold announcement. rewrite Hm.
  destruct (markup_error be _); [reflexivity|].
  apply attempt_response_outcome; simpl; assumption.
Qed.

Lemma turn_status_display be u c b b' out out' snt snt' :
  turn_status be u (World (with_show_reasoning b c) out snt) =
  turn_status be u (World (with_show_reasoning b' c) out' snt').
Proof.
  unfold turn_status.
  set (w := World (with_show_reasoning b c) out snt).
  set (w' := World (with_show_reasoning b' c) out' snt').
  pose proof (get_deepseek_reasoning_outcome be u w w' eq_refl) as Hr.
  destruct (get_deepseek_reasoning_world be u w) as [Hw _].
  destruct (get_deepseek_reasoning_world be u w') as [Hw' _].
  destruct (get_deepseek_reasoning be u w) as [[r|e] w1],
           (get_deepseek_reasoning be u w') as [[r'|e'] w1'];
    simpl in Hr, Hw, Hw'; try discriminate; injection Hr as <-; [|reflexivity].
  assert (fst ((announce_model be;; attempt_response be u (handoff u r)) w1) =
          fst ((announce_model be;; attempt_response be u (handoff u r)) w1'))
    as Ha.
  { apply response_stage_outcome; rewrite Hw, Hw'; reflexivity. }
  destruct ((announce_model be;; attempt_response be u (handoff u r)) w1)
    as [[a|e] w3],
    ((announce_model be;; attempt_response be u (handoff u r)) w1')
    as [[a'|e'] w3']; simpl in Ha; congruence.
Qed.

(** Right cancellation for the hand-off template. *)
Lemma app_inv_tail (a b c : string) : a +:+ c = b +:+ c -> a = b.
Proof.
  revert b. induction a as [|x a IH]; intros [|y b] H.
  - reflexivity.
  - apply (f_equal String.length) in H.
    rewrite PyStrFacts.app_nil_l, PyStrFacts.length_app in H. simpl in H. lia.
  - apply (f_equal String.length) in H.
    rewrite PyStrFacts.app_nil_l, PyStrFacts.length_app in H. simpl in H. lia.
  - rewrite !PyStrFacts.app_cons in H. injection H as -> H. f_equal. auto.
Qed.

Lemma thinking_inj r r' : thinking r = thinking r' -> r = r'.
Proof.
  unfold thinking. intros H. apply String.app_inj in H.
  apply app_inv_tail in H. exact H.
Qed.

(** Claim C5.  In every turn whose reasoning stage returns, the response
    stage sends at most one request, and the context of that request is the
    synthetic pair of messages: the user's query, then an assistant message
    holding the clean reasoning payload inside the fixed template
    [<thinking>...</thinking>], from which the payload can be read back.  The
    accumulated histories are not part of that request.  The request is sent
    unless rich refuses to render the name of the model: the stage then
    raises [MarkupError] before it calls the endpoint. *)
Theorem response_stage_context be u w r w1 :
  get_deepseek_reasoning be u w = (Ret r, w1) ->
  sent (snd (turn be u w)) =
    sent w ++ reasoning_request u (self w) ::
      match markup_error be ("[green]" +:+ current_model (self w) +:+ "[/]") with
      | None =>
          [Request (current_model (self w))
             [Message user (Text u);
              Message assistant (Text ("<thinking>" +:+ r +:+ "</thinking>"))]
             (stream (self w)) None]
      | Some _ => []
      end /\
  (forall r', thinking r' = thinking r -> r' = r).
Proof.
  intros H. split.
  - rewrite turn_sent, H. reflexivity.
  - intros r' Hr. apply thinking_inj, Hr.
Qed.

Lemma response_stage_context_witness :
  get_deepseek_reasoning plan_then_answer "how?" fresh =
    (Ret "plan A", snd (get_deepseek_reasoning plan_then_answer "how?" fresh)) /\
  sent (snd (turn plan_then_answer "how?" fresh)) =
    [Request DEEPSEEK_MODEL [Message user (Text "how?")] true None;
     Request LLAMA_MODEL
       [Message user (Text "how?");
        Message assistant (Text "<thinking>plan A</thinking>")] true None].
Proof.
  split; [vm_compute; reflexivity|].
  refine (proj1 (response_stage_context plan_then_answer "how?" fresh
                   "plan A" _ _)).
  vm_compute. reflexivity.
Defined.

(** Claim C8.  When the response stage raises after the reasoning stage
    returned, the reasoning history is the one before the turn followed by
    the turn's user message, which is its last message (no assistant message
    follows), and the response history is unchanged. *)
Theorem response_failure_histories be u w e :
  turn_status be u w = ResponseFailed e ->
  let c := self w in
  let c' := self (snd (turn be u w)) in
  deepseek_messages c' = deepseek_messages c ++ [Message user (Text u)] /\
  last (deepseek_messages c') = Some (Message user (Text u)) /\
  llama_messages c' = llama_messages c.
Proof.
  intros H. pose proof (turn_histories be u w) as Ht.
  rewrite H in Ht. simpl in *. destruct Ht as [Hd Hl].
  rewrite Hd, last_snoc. auto.
Qed.

Lemma response_failure_histories_witness :
  turn_status answer_times_out "how?" fresh = ResponseFailed (APIError "timeout") /\
  (deepseek_messages (self (snd (turn answer_times_out "how?" fresh))) =
     [Message user (Text "how?")] /\
   last (deepseek_messages (self (snd (turn answer_times_out "how?" fresh)))) =
     Some (Message user (Text "how?")) /\
   llama_messages (self (snd (turn answer_times_out "how?" fresh))) = []).
Proof.
  split; [vm_compute; reflexivity|].
  apply (response_failure_histories answer_times_out "how?" fresh
           (APIError "timeout")).
  vm_compute. reflexivity.
Defined.

(** Claim C3, as the code has it.  A turn in which either stage raises
    leaves the response history as it was and appends no assistant message
    to either history; the reasoning history keeps the user message of the
    failed turn, appended before the request of the reasoning stage. *)
Theorem failed_turn_histories be u w e :
  turn_status be u w = ReasoningFailed e \/ turn_status be u w = ResponseFailed e ->
  let c := self w in
  let c' := self (snd (turn be u w)) in
  llama_messages c' = llama_messages c /\
  deepseek_messages c' = deepseek_messages c ++ [Message user (Text u)].
Proof.
  intros H. pose proof (turn_histories be u w) as Ht.
  destruct H as [H|H]; rewrite H in Ht; simpl in *; destruct Ht; auto.
Qed.

Lemma failed_turn_histories_witness :
  turn_status reasoning_refused "how?" fresh =
    ReasoningFailed (APIError "unauthorized") /\
  (llama_messages (self (snd (turn reasoning_refused "how?" fresh))) = [] /\
   deepseek_messages (self (snd (turn reasoning_refused "how?" fresh))) =
     [Message user (Text "how?")]).
Proof.
  split; [vm_compute; reflexivity|].
  apply (failed_turn_histories reasoning_refused "how?" fresh
           (APIError "unauthorized")).
  left. vm_compute. reflexivity.
Defined.

(** Claim C3 as stated fails: after a turn whose response stage raised, the
    reasoning history is not the one before the turn. *)
Lemma failed_turn_changes_reasoning_history :
  turn_status answer_times_out "how?" fresh = ResponseFailed (APIError "timeout") /\
  deepseek_messages (self (snd (turn answer_times_out "how?" fresh))) <>
    deepseek_messages (self fresh).
Proof. split; [vm_compute; reflexivity | vm_compute; discriminate]. Qed.

(** *** Sequences of turns *)

Lemma user_messages_app h h' :
  user_messages (h ++ h') = user_messages h ++ user_messages h'.
Proof. apply List.filter_app. Qed.

Lemma answered_turns_length script w :
  length (answered_turns script w) <= length script.
Proof.
  revert w. induction script as [|[be u] script IH]; intros w; simpl; [lia|].
  rewrite length_app. specialize (IH (snd (turn be u w))).
  destruct (turn_status be u w); simpl; lia.
Qed.

(** Claim C7, as the code has it.  After any sequence of turns the response
    history has grown by exactly the exchanges of the answered turns, so it
    has gained one user message per answered turn, in order.  The reasoning
    history has gained the user message of every turn, answered or not.
    When all the turns were answered the two histories have grown by the
    same exchanges. *)
Theorem session_histories script w :
  let c := self w in
  let c' := self (run_turns script w) in
  let done := answered_turns script w in
  llama_messages c' =
    llama_messages c ++ exchanges (map fst done) (map snd done) /\
  user_messages (llama_messages c') =
    user_messages (llama_messages c) ++ map query (map fst done) /\
  user_messages (deepseek_messages c') =
    user_messages (deepseek_messages c) ++ map query (map snd script) /\
  (length done = length script ->
   map fst done = map snd script /\
   deepseek_messages c' =
     deepseek_messages c ++ exchanges (map fst done) (map snd done)).
Proof.
  simpl. revert w. induction script as [|[be u] script IH]; intros w.
  - simpl. rewrite !app_nil_r. auto.
  - simpl. specialize (IH (snd (turn be u w))).
    destruct IH as (Hl & Hul & Hud & Hall).
    pose proof (turn_histories be u w) as Ht. simpl in Ht.
    pose proof (answered_turns_length script (snd (turn be u w))) as Hlen.
    rewrite Hul, Hud, Hl.
    destruct (turn_status be u w); destruct Ht as [Hd Hh]; rewrite ?Hd, ?Hh;
      simpl; rewrite ?user_messages_app, <- ?app_assoc; simpl;
      (split; [reflexivity|]); (split; [reflexivity|]);
      (split; [reflexivity|]); intros Hn; try lia.
    injection Hn as Hn. destruct (Hall Hn) as [Hm Hds].
    rewrite Hds, Hd, <- app_assoc, Hm. auto.
Qed.

(** Claim C7 as stated fails: after a turn whose response stage failed and
    a turn that was answered, that is after one successful turn, the
    reasoning history holds two user messages and the response history
    one. *)
Lemma failed_turn_breaks_alignment :
  turn_status answer_times_out "how?" fresh = ResponseFailed (APIError "timeout") /\
  answered_turns failed_then_answered fresh = [("then?", "Do A.")] /\
  user_messages (deepseek_messages (self (run_turns failed_then_answered fresh))) =
    [query "how?"; query "then?"] /\
  user_messages (llama_messages (self (run_turns failed_then_answered fresh))) =
    [query "then?"].
Proof. repeat split. Qed.

(** Claim C9.  Two runs that differ only in the display switch (and in what
    the terminal already shows) return the same clean reasoning payload, send
    the same requests, the hand-off among them, and leave the same histories:
    [show_reasoning] decides what is printed and nothing else. *)
Theorem display_switch_keeps_payload be u c out out' snt :
  let shown := World (with_show_reasoning true c) out snt in
  let hidden := World (with_show_reasoning false c) out' snt in
  fst (get_deepseek_reasoning be u shown) = fst (get_deepseek_reasoning be u hidden) /\
  sent (snd (turn be u shown)) = sent (snd (turn be u hidden)) /\
  deepseek_messages (self (snd (turn be u shown))) =
    deepseek_messages (self (snd (turn be u hidden))) /\
  llama_messages (self (snd (turn be u shown))) =
    llama_messages (self (snd (turn be u hidden))).
Proof.
  intros shown hidden.
  assert (fst (get_deepseek_reasoning be u shown) =
          fst (get_deepseek_reasoning be u hidden)) as Hr.
  { apply get_deepseek_reasoning_outcome. reflexivity. }
  split; [exact Hr|]. split.
  - rewrite !turn_sent, Hr. reflexivity.
  - pose proof (turn_histories be u shown) as Hs.
    pose proof (turn_histories be u hidden) as Hh.
    unfold shown, hidden in Hs, Hh.
    rewrite (turn_status_display be u c true false out out' snt snt) in Hs.
    fold shown hidden in Hs, Hh.
    destruct (turn_status be u hidden); simpl in *;
      destruct Hs as [-> ->], Hh as [-> ->]; auto.
Qed.

(** *** The command loop *)

(** The [clear] command empties both histories of rat-akash.py and the loop
    goes on. *)
Lemma main_iter_clear be (w : world AkashModelChain) :
  fst (main_iter be (inr "clear") w) = Ret Continue /\
  deepseek_messages (self (snd (main_iter be (inr "clear") w))) = [] /\
  llama_messages (self (snd (main_iter be (inr "clear") w))) = [].
Proof. repeat split. Qed.

(** An [Exception] of the reasoning stage is caught by neither handler of
    the loop and leaves [main]; a [KeyboardInterrupt] returns to the prompt.
    The user message stays in the reasoning history in both cases. *)
Lemma main_iter_reasoning_raises :
  main_iter reasoning_refused (inr "how?") fresh =
    (Raise (APIError "unauthorized"),
     snd (get_deepseek_reasoning reasoning_refused "how?" fresh)) /\
  fst (main_iter (endpoint (inl KeyboardInterrupt) (inr [])) (inr "how?") fresh) =
    Ret Continue /\
  deepseek_messages
    (self (snd (main_iter (endpoint (inl KeyboardInterrupt) (inr []))
                  (inr "how?") fresh))) = [Message user (Text "how?")].
Proof. repeat split. Qed.

Lemma quiet_for_each {A} (l : list A) (body : A -> Py unit) :
  (forall x, quiet (body x)) -> quiet (for_each l body).
Proof.
  intros Hb. induction l as [|x l IH]; simpl; [apply (quiet_ret tt)|].
  apply (quiet_bind (body x) (fun _ => for_each l body)); auto.
Qed.

Lemma quiet_get_all_models be : quiet (get_all_models be).
Proof.
  unfold get_all_models. destruct (models_list be); auto with quiet.
Qed.

Lemma main_iter_world be line w :
  snd (main_iter be line w) = snd (loop_body be line w).
Proof.
  unfold main_iter. destruct (loop_body be line w) as [[ctl|[]] w']; reflexivity.
Qed.

(** In rat-akash.py an iteration of the command loop either empties both
    histories (the [clear] command) or extends each of them, possibly by
    nothing: no iteration empties one history and keeps the other. *)
Lemma main_iter_histories be line w :
  let c := self w in
  let c' := self (snd (main_iter be line w)) in
  (deepseek_messages c' = [] /\ llama_messages c' = []) \/
  (exists d l, deepseek_messages c' = deepseek_messages c ++ d /\
               llama_messages c' = llama_messages c ++ l).
Proof.
  simpl. rewrite main_iter_world.
  assert (forall c : Py loop_ctl, quiet c ->
            exists d l,
              deepseek_messages (self (snd (c w))) = deepseek_messages (self w) ++ d /\
              llama_messages (self (snd (c w))) = llama_messages (self w) ++ l)
    as Hquiet.
  { intros c Hc. destruct (Hc w) as [-> _]. exists [], [].
    rewrite !app_nil_r. auto. }
  unfold loop_body. destruct line as [e|raw].
  { right. apply Hquiet. auto with quiet. }
  set (u := PyStr.strip raw).
  destruct (String.eqb (PyStr.lower u) "quit").
  { right. apply Hquiet. repeat quiet_step. }
  destruct (String.eqb (PyStr.lower u) "view_models").
  { right. apply Hquiet.
    quiet_step; [apply quiet_get_all_models|].
    quiet_step; [auto with quiet|].
    quiet_step; [apply quiet_for_each; auto with quiet|].
    repeat quiet_step. }
  destruct (String.eqb (PyStr.lower u) "clear").
  { left. split; reflexivity. }
  destruct (PyStr.startswith "model " (PyStr.lower u)).
  { right. exists [], []. rewrite !app_nil_r. split; reflexivity. }
  destruct (String.eqb (PyStr.lower u) "reasoning").
  { right. exists [], []. rewrite !app_nil_r. split; reflexivity. }
  right.
  assert (snd ((turn be u;; mret Continue) w) = snd (turn be u w)) as ->.
  { unfold mbind, M_bind, bind. destruct (turn be u w) as [[a|e] w']; reflexivity. }
  pose proof (turn_histories be u w) as Ht. simpl in Ht.
  destruct (turn_status be u w); destruct Ht as [-> ->]; eauto;
    exists [Message user (Text u)], []; rewrite app_nil_r; auto.
Qed.

End AkashFacts.

(** ** rat-local.py *)

Module LocalFacts.
Import Local Spans.

(** Claim C4.  The [clear] command of rat-local.py empties the reasoning
    history and creates a new attribute [claude_messages]; the response
    history [response_messages] is left as it was.  After one answered turn
    and [clear], the reasoning history is empty and the response history
    still holds the exchange. *)
Theorem local_clear_keeps_response_history (w : world ModelChain)
    (str_of_list : list string -> string) :
  (let c' := self (snd (clear w)) in
   deepseek_messages c' = [] /\
   response_messages c' = response_messages (self w) /\
   extra_attrs c' !! "claude_messages" = Some []) /\
  (let c' := self (snd (main str_of_list
                 [(endpoint (inr ["<think>plan A</think>"]) (inr ["Do A."]),
                   inr "how?");
                  (endpoint (inr []) (inr []), inr "clear")])) in
   deepseek_messages c' = [] /\
   response_messages c' =
     [Message user (Blocks ["how?"]); Message assistant (Blocks ["Do A."])]).
Proof.
  split.
  - simpl. split; [reflexivity|]. split; [reflexivity|].
    apply lookup_insert_eq.
  - vm_compute. auto.
Qed.

End LocalFacts.

(** ** What the reasoning stage of rat-akash.py returns *)

Module PayloadFacts.
Import Akash Spans.

#[local] Arguments PyStr.contains : simpl never.

Lemma reasoning_loop_pieces frags acc (w : world AkashModelChain) :
  fst (reasoning_loop (pieces frags) acc w) =
  Ret (acc +:+ PyStr.concat (consumed frags)).
Proof.
  revert acc w. induction frags as [|s frags IH]; intros acc w; simpl.
  - rewrite PyStrFacts.app_nil_r. reflexivity.
  - destruct s as [|c s].
    + simpl. unfold mbind, M_bind, bind. simpl. apply IH.
    + unfold mbind, M_bind, bind. simpl.
      destruct (show_reasoning (self w)); simpl;
        destruct (PyStr.contains CLOSE (String c s)); simpl;
        rewrite ?IH, ?PyStrFacts.app_nil_r, ?PyStrFacts.app_assoc; reflexivity.
Qed.

(** What the reasoning stage of rat-akash.py returns for a streamed text:
    the fragments read, joined, without the two tags. *)
Lemma streamed_payload frags u (w : world AkashModelChain) :
  stream (self w) = true ->
  fst (get_deepseek_reasoning (streaming frags) u w) =
  Ret (clean (PyStr.concat (consumed frags))).
Proof.
  intros Hs. rewrite AkashFacts.get_deepseek_reasoning_unfold.
  unfold mbind, M_bind, bind, create. simpl. rewrite Hs. simpl.
  pose proof (reasoning_loop_pieces frags "" (World (self (AkashTurns.asked u w))
    (stdout (AkashTurns.asked u w))
    (sent (AkashTurns.asked u w) ++ [AkashTurns.reasoning_request u (self w)]))) as H.
  destruct (reasoning_loop _ _ _) as [[r|e] w1]; simpl in H; [|discriminate].
  injection H as ->. unfold finish_reasoning, mbind, M_bind, bind. simpl.
  destruct (show_reasoning (self w1)); reflexivity.
Qed.

(** ... and for the same text returned whole: the text up to and including
    its first closing tag, without the two tags. *)
Lemma single_shot_payload frags u (w : world AkashModelChain) :
  stream (self w) = false ->
  fst (get_deepseek_reasoning (streaming frags) u w) =
  Ret (clean (if PyStr.contains CLOSE (PyStr.concat frags)
              then PyStr.split_head CLOSE (PyStr.concat frags) +:+ CLOSE
              else PyStr.concat frags)).
Proof.
  intros Hs. destruct w as [[st dm lm cm sh] out snt]. simpl in Hs. subst st.
  destruct sh; reflexivity.
Qed.

Lemma consumed_all frags :
  ends_only CLOSE (PyStr.concat frags) ->
  PyStr.concat (consumed frags) = PyStr.concat frags.
Proof.
  induction frags as [|s frags IH]; intros Hend; [reflexivity|].
  simpl in *. destruct (PyStr.contains CLOSE s) eqn:E.
  - apply PyStrFacts.contains_occurs in E as (a & b & ->).
    assert (b +:+ PyStr.concat frags = "") as Hb.
    { apply (Hend a). rewrite !PyStrFacts.app_assoc. reflexivity. }
    simpl. f_equal.
    destruct b; [|discriminate]. rewrite PyStrFacts.app_nil_l in Hb. congruence.
  - simpl. f_equal. apply IH. intros a b Hab.
    apply (Hend (s +:+ a) b). rewrite Hab, !PyStrFacts.app_assoc. reflexivity.
Qed.

Lemma cut_at_close_all t :
  ends_only CLOSE t ->
  (if PyStr.contains CLOSE t then PyStr.split_head CLOSE t +:+ CLOSE else t) = t.
Proof.
  intros Hend. destruct (PyStr.contains CLOSE t) eqn:E; [|reflexivity].
  unfold PyStr.split_head. destruct (PyStr.find CLOSE t) as [i|] eqn:Ei.
  - destruct (PyStrFacts.find_split _ _ _ Ei) as (Hs & _).
    pose proof (Hend _ _ Hs) as Hnil. rewrite Hnil, PyStrFacts.app_nil_r in Hs.
    symmetry. exact Hs.
  - apply PyStrFacts.find_None in Ei. congruence.
Qed.

(** When the closing tag, if there is one, ends the reasoning text, the
    payload is the whole text without its tags, however the stream is cut
    and in either transport mode. *)
Lemma closing_tag_last_payload frags u (w : world AkashModelChain) :
  ends_only CLOSE (PyStr.concat frags) ->
  fst (get_deepseek_reasoning (streaming frags) u w) =
  Ret (clean (PyStr.concat frags)).
Proof.
  intros Hend. destruct (stream (self w)) eqn:Hs.
  - rewrite (streamed_payload _ _ _ Hs), (consumed_all _ Hend). reflexivity.
  - rewrite (single_shot_payload _ _ _ Hs), (cut_at_close_all _ Hend). reflexivity.
Qed.

End PayloadFacts.

(** ** The same text, delivered differently *)

Module DeliveryFacts.

(** On a concrete stream the outcome of a reasoning stage is found by
    running it; the chain is split into its attributes first. *)
Ltac run_akash w Hs :=
  destruct w as [[st dm lm cm sh] out snt]; simpl in Hs; subst st;
  destruct sh; vm_compute; reflexivity.

Ltac run_claude w Ho Hs :=
  destruct w as [[opr st dsm dm clm cm sh] out snt]; simpl in Ho, Hs; subst opr st;
  destruct sh; vm_compute; reflexivity.

Ltac run_local w :=
  destruct w as [[dm rm cm sh ex] out snt];
  destruct sh; vm_compute; reflexivity.

(** Claim C1.  The code looks for each tag inside one fragment at a time.
    In rat-local.py the fragments [<th], [ink>plan A</thi], [nk>] yield no
    reasoning at all, the same text in one fragment yields [plan A]; in
    rat-akash.py the text [<think>a</think>b] yields [a] when the closing tag
    ends a fragment and [ab] when the text arrives whole. *)
Theorem split_tag_changes_extraction (u : string)
    (wl : world Local.ModelChain) (wa : world Akash.AkashModelChain) :
  Akash.stream (self wa) = true ->
  fst (Local.get_deepseek_reasoning
         (streaming ["<th"; "ink>plan A</thi"; "nk>"]) u wl) = Ret [] /\
  fst (Local.get_deepseek_reasoning
         (streaming ["<think>plan A</think>"]) u wl) = Ret ["plan A"] /\
  fst (Akash.get_deepseek_reasoning
         (streaming ["<th"; "ink>plan A</thi"; "nk>"]) u wa) = Ret "plan A" /\
  fst (Akash.get_deepseek_reasoning
         (streaming ["<think>a</think>"; "b"]) u wa) = Ret "a" /\
  fst (Akash.get_deepseek_reasoning
         (streaming ["<think>a</think>b"]) u wa) = Ret "ab".
Proof.
  intros Hs. repeat split; first [run_local wl | run_akash wa Hs].
Qed.

Lemma split_tag_changes_extraction_witness :
  fst (Local.get_deepseek_reasoning
         (streaming ["<th"; "ink>plan A</thi"; "nk>"]) "q"
         (World Local.init [] [])) = Ret [] /\
  fst (Local.get_deepseek_reasoning
         (streaming ["<think>plan A</think>"]) "q"
         (World Local.init [] [])) = Ret ["plan A"] /\
  fst (Akash.get_deepseek_reasoning
         (streaming ["<th"; "ink>plan A</thi"; "nk>"]) "q"
         (World (Akash.init true) [] [])) = Ret "plan A" /\
  fst (Akash.get_deepseek_reasoning
         (streaming ["<think>a</think>"; "b"]) "q"
         (World (Akash.init true) [] [])) = Ret "a" /\
  fst (Akash.get_deepseek_reasoning
         (streaming ["<think>a</think>b"]) "q"
         (World (Akash.init true) [] [])) = Ret "ab".
Proof.
  apply (split_tag_changes_extraction "q" (World Local.init [] [])
           (World (Akash.init true) [] [])).
  reflexivity.
Defined.

(** Claim C6.  For the text [<think>a</think>b] the delivery mode shows in
    the payload: streamed as one fragment (the loop stops after it) or with
    the closing tag split over two fragments (the loop runs to the end of the
    stream) the payload is [ab]; as a complete response it is [a].  The same
    holds for the Akash path of rat-claude.py. *)
Theorem delivery_mode_changes_payload (u : string)
    (streamed whole : world Akash.AkashModelChain)
    (cstreamed cwhole : world Claude.ModelChain) :
  Akash.stream (self streamed) = true ->
  Akash.stream (self whole) = false ->
  Claude.use_deepseek_openrouter (self cstreamed) = false ->
  Claude.stream (self cstreamed) = true ->
  Claude.use_deepseek_openrouter (self cwhole) = false ->
  Claude.stream (self cwhole) = false ->
  fst (Akash.get_deepseek_reasoning
         (streaming ["<think>a</think>b"]) u streamed) = Ret "ab" /\
  fst (Akash.get_deepseek_reasoning
         (streaming ["<think>a</thi"; "nk>b"]) u streamed) = Ret "ab" /\
  fst (Akash.get_deepseek_reasoning
         (streaming ["<think>a</think>b"]) u whole) = Ret "a" /\
  fst (Claude.get_deepseek_reasoning
         (streaming ["<think>a</think>b"]) u cstreamed) = Ret "ab" /\
  fst (Claude.get_deepseek_reasoning
         (streaming ["<think>a</think>b"]) u cwhole) = Ret "a".
Proof.
  intros Hs Hw Hco Hcs Hwo Hws.
  repeat split;
    first [run_akash streamed Hs | run_akash whole Hw
          | run_claude cstreamed Hco Hcs | run_claude cwhole Hwo Hws].
Qed.

Lemma delivery_mode_changes_payload_witness :
  fst (Akash.get_deepseek_reasoning
         (streaming ["<think>a</think>b"]) "q"
         (World (Akash.init true) [] [])) = Ret "ab" /\
  fst (Akash.get_deepseek_reasoning
         (streaming ["<think>a</thi"; "nk>b"]) "q"
         (World (Akash.init true) [] [])) = Ret "ab" /\
  fst (Akash.get_deepseek_reasoning
         (streaming ["<think>a</think>b"]) "q"
         (World (Akash.init false) [] [])) = Ret "a" /\
  fst (Claude.get_deepseek_reasoning
         (streaming ["<think>a</think>b"]) "q"
         (World (Claude.init false true) [] [])) = Ret "ab" /\
  fst (Claude.get_deepseek_reasoning
         (streaming ["<think>a</think>b"]) "q"
         (World (Claude.init false false) [] [])) = Ret "a".
Proof.
  apply (delivery_mode_changes_payload "q"
           (World (Akash.init true) [] []) (World (Akash.init false) [] [])
           (World (Claude.init false true) [] [])
           (World (Claude.init false false) [] [])); reflexivity.
Defined.

(** The [clear] command of rat-akash.py empties both histories. *)
Lemma akash_clear_empties_both (w : world Akash.AkashModelChain) :
  Akash.deepseek_messages (self (snd (Akash.clear w))) = [] /\
  Akash.llama_messages (self (snd (Akash.clear w))) = [].
Proof. split; reflexivity. Qed.

End DeliveryFacts.

(** ** The stages of rat-akash.py on well-formed streams *)

Ltac norm_text :=
  repeat first [ rewrite PyStrFacts.app_assoc | rewrite PyStrFacts.app_nil_r
               | rewrite PyStrFacts.app_nil_l ].

Module AkashStages.
Import Akash AkashTurns.

#[local] Arguments PyStr.contains : simpl never.

Lemma text_concat_app (l l' : list string) :
  PyStr.concat (l ++ l') = PyStr.concat l +:+ PyStr.concat l'.
Proof.
  induction l as [|x l IH]; [reflexivity|].
  simpl. rewrite IH, PyStrFacts.app_assoc. reflexivity.
Qed.

Lemma terminal_app {Self} (c : Self) out out' snt :
  terminal (World c (out ++ out') snt) =
  terminal (World c out snt) +:+ PyStr.concat out'.
Proof. apply text_concat_app. Qed.

(** The streaming loop on well-formed chunks: it returns what it read, and
    writes the same text to the terminal when the display is on. *)
Lemma reasoning_loop_run frags acc (w : world AkashModelChain) :
  exists out,
    reasoning_loop (pieces frags) acc w =
      (Ret (acc +:+ PyStr.concat (consumed frags)),
       World (self w) (stdout w ++ out) (sent w)) /\
    PyStr.concat out =
      (if show_reasoning (self w) then PyStr.concat (consumed frags) else "") /\
    (show_reasoning (self w) = false -> out = []).
Proof.
  revert acc w. induction frags as [|s frags IH]; intros acc w.
  - exists []. simpl. rewrite !app_nil_r, PyStrFacts.app_nil_r.
    destruct w, (show_reasoning _); auto.
  - destruct s as [|c s].
    + destruct (IH acc w) as (out & Hrun & Hout & Hoff).
      exists out. simpl. unfold mbind, M_bind, bind. simpl.
      rewrite Hrun. auto.
    + simpl. unfold mbind, M_bind, bind. simpl.
      destruct (show_reasoning (self w)) eqn:Hshow; simpl;
        destruct (PyStr.contains CLOSE (String c s)); simpl.
      * exists [String c s +:+ ""]. simpl.
        rewrite !PyStrFacts.app_nil_r.
        split; [reflexivity|]. split; [reflexivity | discriminate].
      * destruct (IH (acc +:+ String c s)
                    (World (self w) (stdout w ++ [String c s +:+ ""]) (sent w)))
          as (out & Hrun & Hout & _).
        exists ((String c s +:+ "") :: out). simpl in *.
        rewrite Hrun, Hshow in *. rewrite <- !app_assoc, PyStrFacts.app_assoc.
        simpl. rewrite Hout, PyStrFacts.app_nil_r. split; [reflexivity|].
        split; [reflexivity | discriminate].
      * exists []. rewrite app_nil_r, PyStrFacts.app_nil_r. destruct w; auto.
      * destruct (IH (acc +:+ String c s) w) as (out & Hrun & Hout & Hoff).
        exists out. rewrite Hrun, PyStrFacts.app_assoc. rewrite Hshow in Hout.
        auto.
Qed.

(** Property X1.  The reasoning stage on a stream of well-formed chunks
    (rat-akash.py).  The stage returns the text it read, up to and including the
    first chunk with the closing tag, without the two tags.  With the display on
    the terminal shows the heading, that same text with its tags, and the time
    line; with the display off it shows the time line only. *)
Theorem streamed_reasoning_stage be frags u (w : world AkashModelChain) :
  stream (self w) = true ->
  chat_stream be (reasoning_request u (self w)) = inr (pieces frags) ->
  fst (get_deepseek_reasoning be u w) =
    Ret (clean (PyStr.concat (consumed frags))) /\
  terminal (snd (get_deepseek_reasoning be u w)) =
    terminal w +:+
    (if show_reasoning (self w)
     then PyStr.nl +:+ "[blue]Reasoning Process[/]" +:+ PyStr.nl
            +:+ PyStr.concat (consumed frags)
     else "") +:+
    PyStr.nl +:+ PyStr.nl +:+ "[yellow]Thought for " +:+ time_str be +:+ "[/]"
      +:+ PyStr.nl +:+
    (if show_reasoning (self w) then PyStr.nl +:+ PyStr.nl else "").
Proof.
  intros Hs Hbe. rewrite AkashFacts.get_deepseek_reasoning_unfold.
  unfold mbind, M_bind, bind, create. simpl. rewrite Hs, Hbe. simpl.
  destruct (reasoning_loop_run frags ""
              (World (self (asked u w)) (stdout (asked u w))
                 (sent (asked u w) ++ [reasoning_request u (self w)])))
    as (out & Hrun & Hout & Hoff).
  simpl in Hrun, Hout, Hoff. rewrite Hrun. clear Hrun.
  unfold finish_reasoning, mbind, M_bind, bind, terminal. simpl.
  destruct (show_reasoning (self w)); simpl.
  - split; [reflexivity|].
    rewrite !text_concat_app, Hout. simpl. norm_text. reflexivity.
  - split; [reflexivity|].
    rewrite (Hoff eq_refl), !text_concat_app. simpl. norm_text. reflexivity.
Qed.

(** Property X2.  The reasoning stage of rat-akash.py, whatever the endpoint
    does and whether the stage returns or raises: the user message is appended
    to the reasoning history, exactly one request is sent, carrying that whole
    history, and nothing else of the chain changes. *)
Theorem reasoning_stage_effect be u (w : world AkashModelChain) :
  let w' := snd (get_deepseek_reasoning be u w) in
  deepseek_messages (self w') =
    deepseek_messages (self w) ++ [Message user (Text u)] /\
  llama_messages (self w') = llama_messages (self w) /\
  current_model (self w') = current_model (self w) /\
  stream (self w') = stream (self w) /\
  show_reasoning (self w') = show_reasoning (self w) /\
  sent w' =
    sent w ++ [Request DEEPSEEK_MODEL
                 (deepseek_messages (self w) ++ [Message user (Text u)])
                 (stream (self w)) None].
Proof.
  simpl. destruct (AkashFacts.get_deepseek_reasoning_world be u w) as [-> ->].
  repeat split.
Qed.

End AkashStages.

(** ** Replacing and finding the tags *)

Module ReplaceFacts.
Import PyStr Spans PyStrFacts.

(** *** [replace] *)

Lemma replace_from_skip old new a rest :
  replace_from old new (String.length a) (a +:+ rest) = replace_from old new 0 rest.
Proof.
  induction a as [|c a IH]; [destruct rest; reflexivity|].
  rewrite app_cons. simpl. exact IH.
Qed.

(** An occurrence at the head is replaced and the scan resumes after it. *)
Lemma replace_head old new rest :
  0 < String.length old ->
  replace old new (old +:+ rest) = new +:+ replace old new rest.
Proof.
  intros Hlen. destruct old as [|c old]; [simpl in Hlen; lia|].
  unfold replace. rewrite app_cons.
  change (replace_from (String c old) new 0 (String c (old +:+ rest)))
    with (if startswith (String c old) (String c (old +:+ rest))
          then new +:+ replace_from (String c old) new
                         (String.length (String c old) - 1) (old +:+ rest)
          else String c (replace_from (String c old) new 0 (old +:+ rest))).
  rewrite <- app_cons, startswith_app. simpl. rewrite Nat.sub_0_r.
  rewrite replace_from_skip. reflexivity.
Qed.

Lemma startswith_occurs p s : startswith p s = true -> occurs p s.
Proof. intros H. apply startswith_iff in H as [t ->]. exists "", t. reflexivity. Qed.

Lemma occurs_tail p c s : occurs p s -> occurs p (String c s).
Proof. intros (a & b & ->). exists (String c a), b. reflexivity. Qed.

(** A text without an occurrence is left as it is. *)
Lemma replace_absent old new s : ~ occurs old s -> replace old new s = s.
Proof.
  unfold replace. induction s as [|c s IH]; intros Hno; [reflexivity|].
  simpl. destruct (startswith old (String c s)) eqn:E.
  - exfalso. apply Hno, startswith_occurs, E.
  - f_equal. apply IH. intros Ho. apply Hno, occurs_tail, Ho.
Qed.

(** The text before the first occurrence is kept. *)
Lemma replace_first old new pre post :
  0 < String.length old -> first_occurrence old pre ->
  replace old new (pre +:+ old +:+ post) = pre +:+ new +:+ replace old new post.
Proof.
  intros Hlen. induction pre as [|c pre IH]; intros Hf.
  - rewrite !app_nil_l. apply replace_head, Hlen.
  - pose proof (find_first _ _ post Hf) as Hfind.
    rewrite !app_cons in *. unfold replace in *. simpl in *.
    destruct (startswith old (String c (pre +:+ old +:+ post))); [discriminate|].
    f_equal. apply IH. apply (first_occurrence_tail _ _ _ Hf).
Qed.

(** *** Occurrences in a concatenation *)

Lemma startswith_app_split p x y :
  startswith p (x +:+ y) = true ->
  startswith p x = true \/ exists q, p = x +:+ q /\ startswith q y = true.
Proof.
  revert x. induction p as [|c p IH]; intros x H.
  - left. apply startswith_nil.
  - destruct x as [|d x].
    + right. exists (String c p). split; [reflexivity | exact H].
    + rewrite app_cons in H. simpl in H.
      apply andb_true_iff in H as [Hc Hp].
      destruct (IH x Hp) as [Hx|(q & -> & Hq)].
      * left. simpl. rewrite Hc, Hx. reflexivity.
      * right. exists q. apply Ascii.eqb_eq in Hc as ->. auto.
Qed.

(** An occurrence of [p] in [a +:+ b] lies in [a], lies in [b], or starts
    with a non-empty end of [a] and goes on with a non-empty start of [b]. *)
Lemma occurs_app p a b :
  occurs p (a +:+ b) ->
  occurs p a \/ occurs p b \/
  exists a' x q, a = a' +:+ x /\ x <> "" /\ q <> "" /\ p = x +:+ q /\
                 startswith q b = true.
Proof.
  induction a as [|c a IH]; intros H.
  - right. left. exact H.
  - apply contains_occurs in H. rewrite app_cons in H. simpl in H.
    apply orb_true_iff in H as [H|H].
    + rewrite <- app_cons in H. apply startswith_app_split in H as [H|(q & -> & Hq)].
      * left. apply startswith_occurs, H.
      * destruct q as [|d q].
        -- left. exists "", "". rewrite app_nil_r, app_nil_l, app_nil_r. reflexivity.
        -- right. right. exists "", (String c a), (String d q).
           repeat split; try discriminate. exact Hq.
    + apply contains_occurs in H. destruct (IH H) as [Ha|[Hb|Hx]].
      * left. apply occurs_tail, Ha.
      * right. left. exact Hb.
      * right. right. destruct Hx as (a' & x & q & -> & Hx).
        exists (String c a'), x, q. split; [reflexivity | exact Hx].
Qed.

Lemma meets_spec a' x p :
  x <> "" -> startswith x p = true -> meets (a' +:+ x) p = true.
Proof.
  intros Hx Hs. induction a' as [|c a' IH].
  - rewrite app_nil_l. destruct x as [|d x]; [congruence|].
    simpl. simpl in Hs. rewrite Hs. reflexivity.
  - rewrite app_cons. simpl. rewrite IH. apply orb_true_r.
Qed.

(** Two texts that never meet: no occurrence of [p] straddles them. *)
Lemma occurs_app_apart p a b :
  meets a p = false -> occurs p (a +:+ b) -> occurs p a \/ occurs p b.
Proof.
  intros Hm H. destruct (occurs_app _ _ _ H) as [Ha|[Hb|Hx]]; auto.
  destruct Hx as (a' & x & q & -> & Hx & _ & -> & _).
  rewrite (meets_spec a' x (x +:+ q) Hx (startswith_app _ _)) in Hm. discriminate.
Qed.

Lemma app_eq_split (x y a z : string) :
  x +:+ y = a +:+ z -> String.length a <= String.length x ->
  exists r, x = a +:+ r /\ z = r +:+ y.
Proof.
  revert x. induction a as [|c a IH]; intros x H Hlen.
  - exists x. rewrite app_nil_l in H. auto.
  - destruct x as [|d x]; [simpl in Hlen; lia|].
    rewrite !app_cons in H. injection H as -> H.
    destruct (IH x H) as (r & -> & ->); [simpl in Hlen; lia|].
    exists r. auto.
Qed.

(** A pattern that does not overlap itself occurs first where it is put,
    after a text that does not contain it. *)
Lemma absent_first_occurrence p pre :
  meets (drop 1 p) p = false -> ~ occurs p pre -> first_occurrence p pre.
Proof.
  intros Hm Hno a b H.
  destruct b as [|d b]; [reflexivity|]. exfalso.
  destruct (app_eq_split pre p a (p +:+ String d b) H) as (r & -> & Hr).
  { apply (f_equal String.length) in H. rewrite !length_app in H. simpl in H. lia. }
  assert (startswith p (r +:+ p) = true) as Hs.
  { rewrite <- Hr. apply startswith_app. }
  apply startswith_app_split in Hs as [Hs|(q & Hq & Hs)].
  - apply Hno. apply startswith_iff in Hs as [t ->].
    exists a, t. reflexivity.
  - destruct r as [|c r].
    { apply (f_equal String.length) in Hr. rewrite !length_app in Hr.
      simpl in Hr. lia. }
    destruct q as [|e q].
    { apply Hno. exists a, "". rewrite app_nil_r in Hq. rewrite Hq, app_nil_r.
      reflexivity. }
    rewrite Hq in Hm at 1. rewrite app_cons in Hm. simpl in Hm.
    rewrite (meets_spec r (String e q) p) in Hm; [discriminate|discriminate|].
    exact Hs.
Qed.

End ReplaceFacts.

Module TagFacts.
Import PyStr Spans PyStrFacts ReplaceFacts.

Lemma occurs_app_apart_r p a b :
  meets (drop 1 p) b = false -> occurs p (a +:+ b) -> occurs p a \/ occurs p b.
Proof.
  intros Hm H. destruct (occurs_app _ _ _ H) as [Ha|[Hb|Hx]]; auto.
  destruct Hx as (a' & x & q & -> & Hx & Hq & -> & Hs).
  destruct x as [|c x]; [congruence|].
  rewrite app_cons in Hm. simpl in Hm.
  rewrite (meets_spec x q b Hq Hs) in Hm. discriminate.
Qed.

Lemma not_occurs p s : contains p s = false -> ~ occurs p s.
Proof. intros H Ho. apply contains_occurs in Ho. congruence. Qed.

(** The two tags do not overlap, themselves or each other. *)
Lemma open_absent_before_close mid :
  contains OPEN mid = false -> ~ occurs OPEN (mid +:+ CLOSE).
Proof.
  intros Hmid H. apply occurs_app_apart_r in H; [|reflexivity].
  destruct H as [H|H]; [exact (not_occurs _ _ Hmid H)|].
  apply (not_occurs OPEN CLOSE eq_refl H).
Qed.

Lemma close_first_after_open mid :
  contains CLOSE mid = false -> first_occurrence CLOSE (OPEN +:+ mid).
Proof.
  intros Hmid. apply absent_first_occurrence; [reflexivity|].
  intros H. apply occurs_app_apart in H; [|reflexivity].
  destruct H as [H|H]; [apply (not_occurs CLOSE OPEN eq_refl H)|].
  exact (not_occurs _ _ Hmid H).
Qed.

Lemma close_first_in mid :
  contains CLOSE mid = false -> first_occurrence CLOSE mid.
Proof.
  intros Hmid. apply absent_first_occurrence; [reflexivity|].
  apply not_occurs, Hmid.
Qed.

(** Removing the tags from a delimited text without inner tags gives the
    text between them. *)
Lemma clean_delimited mid :
  contains OPEN mid = false -> contains CLOSE mid = false ->
  Akash.clean (OPEN +:+ mid +:+ CLOSE) = mid.
Proof.
  intros Ho Hc. unfold Akash.clean.
  rewrite (replace_head OPEN "" (mid +:+ CLOSE)) by (simpl; lia).
  rewrite (replace_absent OPEN "" (mid +:+ CLOSE))
    by (apply open_absent_before_close, Ho).
  rewrite app_nil_l.
  rewrite <- (app_nil_r (mid +:+ CLOSE)), app_assoc.
  rewrite (replace_first CLOSE "" mid "");
    [|simpl; lia | apply close_first_in, Hc].
  rewrite app_nil_l. apply app_nil_r.
Qed.

(** The text is cut right after its first closing tag. *)
Lemma cut_after_close mid answer :
  contains CLOSE mid = false ->
  (if contains CLOSE (OPEN +:+ mid +:+ CLOSE +:+ answer)
   then split_head CLOSE (OPEN +:+ mid +:+ CLOSE +:+ answer) +:+ CLOSE
   else OPEN +:+ mid +:+ CLOSE +:+ answer) = OPEN +:+ mid +:+ CLOSE.
Proof.
  intros Hc.
  assert (contains CLOSE (OPEN +:+ mid +:+ CLOSE +:+ answer) = true) as ->.
  { apply contains_occurs. exists (OPEN +:+ mid), answer.
    rewrite !app_assoc. reflexivity. }
  unfold split_head.
  rewrite <- (app_assoc OPEN mid), (find_first _ _ answer (close_first_after_open _ Hc)).
  rewrite take_app, app_assoc. reflexivity.
Qed.

Lemma ends_only_delimited mid :
  contains CLOSE mid = false -> ends_only CLOSE (OPEN +:+ mid +:+ CLOSE).
Proof.
  intros Hc. rewrite <- app_assoc. apply (close_first_after_open _ Hc).
Qed.

Lemma ends_only_absent p t : contains p t = false -> ends_only p t.
Proof.
  intros H a b E. exfalso. apply (not_occurs _ _ H). exists a, b. exact E.
Qed.

End TagFacts.

(** ** The payload of the reasoning stage of rat-akash.py *)

Module AkashPayloads.
Import Akash AkashTurns Spans.

#[local] Arguments PyStr.contains : simpl never.

(** The outcome of the reasoning stage for a stream of well-formed chunks. *)
Lemma streamed_outcome be frags u (w : world AkashModelChain) :
  stream (self w) = true ->
  chat_stream be (reasoning_request u (self w)) = inr (pieces frags) ->
  fst (get_deepseek_reasoning be u w) = Ret (clean (PyStr.concat (consumed frags))).
Proof.
  intros Hs Hbe. rewrite AkashFacts.get_deepseek_reasoning_unfold.
  unfold mbind, M_bind, bind, create. simpl. rewrite Hs, Hbe. simpl.
  destruct (AkashStages.reasoning_loop_run frags ""
              (World (self (asked u w)) (stdout (asked u w))
                 (sent (asked u w) ++ [reasoning_request u (self w)])))
    as (out & Hrun & _).
  simpl in Hrun. rewrite Hrun.
  unfold finish_reasoning, mbind, M_bind, bind. simpl.
  destruct (show_reasoning (self w)); reflexivity.
Qed.

(** ... and for a complete response. *)
Lemma single_shot_outcome be content others u (w : world AkashModelChain) :
  stream (self w) = false ->
  chat_create be (reasoning_request u (self w)) = inr (content :: others) ->
  fst (get_deepseek_reasoning be u w) =
  Ret (clean (if PyStr.contains CLOSE content
              then PyStr.split_head CLOSE content +:+ CLOSE else content)).
Proof.
  intros Hs Hbe. destruct w as [[st dm lm cm sh] out snt].
  unfold reasoning_request in Hbe. simpl in Hs, Hbe. subst st.
  unfold get_deepseek_reasoning, mbind, M_bind, bind, create, modify, gets.
  simpl. destruct sh; simpl; rewrite Hbe; reflexivity.
Qed.

Lemma consumed_stop frags1 s frags2 :
  ends_only CLOSE (PyStr.concat (frags1 ++ [s])) ->
  PyStr.contains CLOSE s = true ->
  PyStr.concat (consumed (frags1 ++ s :: frags2)) = PyStr.concat (frags1 ++ [s]).
Proof.
  intros Hend Hs. induction frags1 as [|f frags1 IH]; simpl in *.
  - rewrite Hs. reflexivity.
  - destruct (PyStr.contains CLOSE f) eqn:E.
    + exfalso. apply PyStrFacts.contains_occurs in E as (a & b & ->).
      assert (b +:+ PyStr.concat (frags1 ++ [s]) = "") as Hb.
      { apply (Hend a). rewrite !PyStrFacts.app_assoc. reflexivity. }
      rewrite AkashStages.text_concat_app in Hb. simpl in Hb.
      apply (f_equal String.length) in Hb.
      rewrite !PyStrFacts.length_app in Hb. simpl in Hb.
      destruct s as [|c s]; [discriminate Hs | simpl in Hb; lia].
    + simpl. f_equal. apply IH. intros a b Hab.
      apply (Hend (f +:+ a) b). rewrite Hab, !PyStrFacts.app_assoc. reflexivity.
Qed.

(** Property X3.  Non-streaming mode (rat-akash.py): when the complete text is
    the reasoning between its tags followed by anything, and the reasoning has
    no tag inside, the stage returns exactly the reasoning: what follows the
    closing tag never reaches the payload. *)
Theorem single_shot_returns_reasoning be mid answer others u
    (w : world AkashModelChain) :
  stream (self w) = false ->
  chat_create be (reasoning_request u (self w)) =
    inr ((OPEN +:+ mid +:+ CLOSE +:+ answer) :: others) ->
  PyStr.contains OPEN mid = false ->
  PyStr.contains CLOSE mid = false ->
  fst (get_deepseek_reasoning be u w) = Ret mid.
Proof.
  intros Hs Hbe Ho Hc.
  rewrite (single_shot_outcome _ _ _ _ _ Hs Hbe).
  rewrite (TagFacts.cut_after_close _ _ Hc), (TagFacts.clean_delimited _ Ho Hc).
  reflexivity.
Qed.

(** Property X4.  Streaming mode: when the closing tag arrives whole in a chunk
    that ends the reasoning, the loop stops there and the stage returns exactly
    the reasoning, whatever the stream holds after that chunk and however the
    text before it was cut. *)
Theorem early_stop_returns_reasoning be frags1 s frags2 mid u
    (w : world AkashModelChain) :
  stream (self w) = true ->
  chat_stream be (reasoning_request u (self w)) =
    inr (pieces (frags1 ++ s :: frags2)) ->
  PyStr.concat (frags1 ++ [s]) = OPEN +:+ mid +:+ CLOSE ->
  PyStr.contains CLOSE s = true ->
  PyStr.contains OPEN mid = false ->
  PyStr.contains CLOSE mid = false ->
  fst (get_deepseek_reasoning be u w) = Ret mid.
Proof.
  intros Hs Hbe Htext Hclose Ho Hc.
  rewrite (streamed_outcome _ _ _ _ Hs Hbe).
  rewrite consumed_stop, Htext, (TagFacts.clean_delimited _ Ho Hc);
    [reflexivity | | exact Hclose].
  rewrite Htext. apply TagFacts.ends_only_delimited, Hc.
Qed.

(** Property X5.  When the whole text of the reasoning stage is the reasoning
    between its tags, the stage returns exactly the reasoning in either
    transport mode and for every way of cutting the stream, the tags included. *)
Theorem delimited_text_returns_reasoning be frags mid u (w : world AkashModelChain) :
  chat_stream be (reasoning_request u (self w)) = inr (pieces frags) ->
  chat_create be (reasoning_request u (self w)) = inr [PyStr.concat frags] ->
  PyStr.concat frags = OPEN +:+ mid +:+ CLOSE ->
  PyStr.contains OPEN mid = false ->
  PyStr.contains CLOSE mid = false ->
  fst (get_deepseek_reasoning be u w) = Ret mid.
Proof.
  intros Hst Hcr Htext Ho Hc. destruct (stream (self w)) eqn:Hs.
  - rewrite (streamed_outcome _ _ _ _ Hs Hst).
    rewrite PayloadFacts.consumed_all, Htext, (TagFacts.clean_delimited _ Ho Hc);
      [reflexivity|].
    rewrite Htext. apply TagFacts.ends_only_delimited, Hc.
  - rewrite (single_shot_outcome _ _ _ _ _ Hs Hcr), Htext.
    rewrite <- (PyStrFacts.app_nil_r (OPEN +:+ mid +:+ CLOSE)),
      !PyStrFacts.app_assoc.
    rewrite (TagFacts.cut_after_close _ _ Hc), (TagFacts.clean_delimited _ Ho Hc).
    reflexivity.
Qed.

(** Property X6.  A reasoning text without a closing tag is not an error: in
    either mode and for every way of cutting the stream the stage returns the
    whole text, without its opening tags. *)
Theorem unterminated_text_is_kept be frags u (w : world AkashModelChain) :
  chat_stream be (reasoning_request u (self w)) = inr (pieces frags) ->
  chat_create be (reasoning_request u (self w)) = inr [PyStr.concat frags] ->
  PyStr.contains CLOSE (PyStr.concat frags) = false ->
  fst (get_deepseek_reasoning be u w) =
    Ret (PyStr.replace CLOSE "" (PyStr.replace OPEN "" (PyStr.concat frags))).
Proof.
  intros Hst Hcr Hc. destruct (stream (self w)) eqn:Hs.
  - rewrite (streamed_outcome _ _ _ _ Hs Hst).
    rewrite PayloadFacts.consumed_all; [reflexivity|].
    apply TagFacts.ends_only_absent, Hc.
  - rewrite (single_shot_outcome _ _ _ _ _ Hs Hcr), Hc. reflexivity.
Qed.

End AkashPayloads.

(** ** The response stage of rat-akash.py *)

Module AkashResponse.
Import Akash AkashTurns.

(** The loop of the response stage on well-formed chunks: every piece is
    written to the terminal and joined to the answer. *)
Lemma response_loop_run frags acc (w : world AkashModelChain) :
  exists out,
    response_loop (pieces frags) acc w =
      (Ret (acc +:+ PyStr.concat frags), World (self w) (stdout w ++ out) (sent w)) /\
    PyStr.concat out = PyStr.concat frags.
Proof.
  revert acc w. induction frags as [|s frags IH]; intros acc w.
  - exists []. simpl. rewrite app_nil_r, PyStrFacts.app_nil_r. destruct w; auto.
  - destruct s as [|c s].
    + destruct (IH acc w) as (out & Hrun & Hout).
      exists out. simpl. unfold mbind, M_bind, bind. simpl. rewrite Hrun. auto.
    + destruct (IH (acc +:+ String c s)
                  (World (self w) (stdout w ++ [String c s +:+ ""]) (sent w)))
        as (out & Hrun & Hout).
      exists ((String c s +:+ "") :: out).
      simpl in *. unfold mbind, M_bind, bind. simpl.
      rewrite Hrun, <- !app_assoc, PyStrFacts.app_assoc, Hout,
        PyStrFacts.app_nil_r.
      auto.
Qed.

(** When the loop meets an exception after some well-formed chunks, it
    raises it; the pieces read so far are on the terminal and nowhere
    else. *)
Lemma response_loop_abort frags e rest acc (w : world AkashModelChain) :
  exists out,
    response_loop (pieces frags ++ Abort e :: rest) acc w =
      (Raise e, World (self w) (stdout w ++ out) (sent w)) /\
    PyStr.concat out = PyStr.concat frags.
Proof.
  revert acc w. induction frags as [|s frags IH]; intros acc w.
  - exists []. simpl. rewrite app_nil_r. destruct w; auto.
  - destruct s as [|c s].
    + destruct (IH acc w) as (out & Hrun & Hout).
      exists out. simpl. unfold mbind, M_bind, bind. simpl. rewrite Hrun. auto.
    + destruct (IH (acc +:+ String c s)
                  (World (self w) (stdout w ++ [String c s +:+ ""]) (sent w)))
        as (out & Hrun & Hout).
      exists ((String c s +:+ "") :: out).
      simpl in *. unfold mbind, M_bind, bind. simpl.
      rewrite Hrun, <- !app_assoc, Hout, PyStrFacts.app_nil_r.
      auto.
Qed.

(** Property X7.  The response stage on a stream of well-formed chunks
    (rat-akash.py), when rich renders the name of the model: the answer is
    the pieces joined; it is returned, shown on the terminal after the name
    of the model, and appended to both histories, with the user message
    before it in the response history. *)
Theorem streamed_response_stage be frags u r (w : world AkashModelChain) :
  stream (self w) = true ->
  markup_error be ("[green]" +:+ current_model (self w) +:+ "[/]") = None ->
  chat_stream be (response_request u r (self w)) = inr (pieces frags) ->
  let w' := snd (get_llama_response be u r w) in
  fst (get_llama_response be u r w) = Ret (PyStr.concat frags) /\
  llama_messages (self w') =
    llama_messages (self w) ++
      [Message user (Text u); Message assistant (Text (PyStr.concat frags))] /\
  deepseek_messages (self w') =
    deepseek_messages (self w) ++ [Message assistant (Text (PyStr.concat frags))] /\
  terminal w' =
    terminal w +:+ "[green]" +:+ current_model (self w) +:+ "[/]" +:+
    PyStr.concat frags +:+ PyStr.nl +:+ PyStr.nl.
Proof.
  intros Hs Hm Hbe. unfold response_request in Hbe.
  unfold get_llama_response. rewrite AkashFacts.announce_then.
  unfold announcement. rewrite Hm.
  unfold try_except, attempt_response, read_response, record_response.
  unfold mbind, M_bind, bind, create, gets, modify, print. simpl.
  rewrite Hs in Hbe. rewrite Hs. simpl. rewrite Hbe.
  destruct (response_loop_run frags ""
              (World (self w)
                 (stdout w ++ [("[green]" +:+ current_model (self w) +:+ "[/]") +:+ ""])
                 (sent w ++ [Request (current_model (self w)) (handoff u r) true None])))
    as (out & Hrun & Hout).
  simpl in Hrun. rewrite Hrun. simpl.
  repeat split.
  unfold terminal. simpl. rewrite !AkashStages.text_concat_app, Hout. simpl.
  norm_text. reflexivity.
Qed.

(** Property X8.  A stream that breaks part-way with an [Exception], when
    rich renders the name of the model and the message of the exception: the
    stage returns its fixed error text, the pieces already received and the
    message of the exception are on the terminal, and neither history has
    changed. *)
Theorem broken_response_stream be frags e rest u r (w : world AkashModelChain) :
  stream (self w) = true ->
  markup_error be ("[green]" +:+ current_model (self w) +:+ "[/]") = None ->
  markup_error be
    (PyStr.nl +:+ "[red]Error in response: " +:+ str_exn e +:+ "[/]") = None ->
  chat_stream be (response_request u r (self w)) =
    inr (pieces frags ++ Abort e :: rest) ->
  is_Exception e = true ->
  let w' := snd (get_llama_response be u r w) in
  fst (get_llama_response be u r w) = Ret "Error occurred while getting response" /\
  self w' = self w /\
  terminal w' =
    terminal w +:+ "[green]" +:+ current_model (self w) +:+ "[/]" +:+
    PyStr.concat frags +:+
    PyStr.nl +:+ "[red]Error in response: " +:+ str_exn e +:+ "[/]" +:+ PyStr.nl.
Proof.
  intros Hs Hm Hr Hbe He. unfold response_request in Hbe.
  unfold get_llama_response. rewrite AkashFacts.announce_then.
  unfold announcement. rewrite Hm.
  unfold try_except, attempt_response, read_response, record_response.
  unfold mbind, M_bind, bind, create, gets, modify. simpl.
  rewrite Hs in Hbe. rewrite Hs. simpl. rewrite Hbe.
  destruct (response_loop_abort frags e rest ""
              (World (self w)
                 (stdout w ++ [("[green]" +:+ current_model (self w) +:+ "[/]") +:+ ""])
                 (sent w ++ [Request (current_model (self w)) (handoff u r) true None])))
    as (out & Hrun & Hout).
  simpl in Hrun. rewrite Hrun. simpl. rewrite He.
  rewrite AkashFacts.report_error_run, Hr. simpl.
  repeat split.
  unfold terminal. simpl. rewrite !AkashStages.text_concat_app, Hout. simpl.
  norm_text. reflexivity.
Qed.

(** When the response stage does not return, it was interrupted from the
    keyboard or rich refused a text, and the chain is as it was before the
    stage. *)
Lemma get_llama_response_raises be u r (w : world AkashModelChain) e :
  fst (get_llama_response be u r w) = Raise e ->
  (e = KeyboardInterrupt \/
   exists text msg, markup_error be text = Some msg /\ e = MarkupError msg) /\
  self (snd (get_llama_response be u r w)) = self w.
Proof.
  unfold get_llama_response. rewrite AkashFacts.announce_then.
  destruct (markup_error be (announcement (self w))) as [msg|] eqn:Hm; simpl.
  { intros H. injection H as <-. split; [right; eauto | reflexivity]. }
  set (w2 := World _ _ _).
  destruct (AkashFacts.attempt_response_world be u (handoff u r) w2) as [_ Hatt].
  unfold try_except.
  destruct (attempt_response be u (handoff u r) w2) as [[a|e'] w3]; simpl in *;
    [discriminate|].
  destruct (is_Exception e') eqn:He'.
  - rewrite AkashFacts.report_error_run.
    destruct (markup_error be (PyStr.nl +:+ _)) as [msg|] eqn:Hr; simpl;
      [|discriminate].
    intros H. injection H as <-. split; [right; eauto | exact Hatt].
  - simpl. intros H. injection H as <-.
    split; [left; destruct e'; try discriminate; reflexivity | exact Hatt].
Qed.

(** Property X9.  What the response stage can raise.  An error of the
    endpoint never leaves [get_llama_response]: when the stage raises, it was
    interrupted from the keyboard, or rich refused a text with a
    [MarkupError] (the name of the model before the request, or the message
    of a caught exception); nothing has then been written to the
    histories. *)
Theorem response_stage_raises be u r (w : world AkashModelChain) e :
  fst (get_llama_response be u r w) = Raise e ->
  (e = KeyboardInterrupt \/
   exists text msg, markup_error be text = Some msg /\ e = MarkupError msg) /\
  deepseek_messages (self (snd (get_llama_response be u r w))) =
    deepseek_messages (self w) /\
  llama_messages (self (snd (get_llama_response be u r w))) =
    llama_messages (self w).
Proof.
  intros H. apply get_llama_response_raises in H as [H ->]. auto.
Qed.

End AkashResponse.

(** ** The command loop of rat-akash.py *)

Module CommandFacts.
Import PyStr PyStrFacts.

(** *** [lower] and [strip] *)

Lemma lower_app a b : lower (a +:+ b) = lower a +:+ lower b.
Proof.
  induction a as [|c a IH]; [reflexivity|].
  rewrite !app_cons. simpl. rewrite IH. reflexivity.
Qed.

Lemma length_lower s : String.length (lower s) = String.length s.
Proof. induction s as [|c s IH]; simpl; congruence. Qed.

Lemma lower_take n s : lower (take n s) = take n (lower s).
Proof.
  revert s. induction n as [|n IH]; intros [|c s]; simpl; try reflexivity.
  rewrite IH. reflexivity.
Qed.

(** A character that [lower] sends to a space is a space. *)
Lemma lower_char_space c : lower_char c = " "%char -> c = " "%char.
Proof.
  destruct c as [[] [] [] [] [] [] [] []]; vm_compute; intros H;
    solve [reflexivity | discriminate H].
Qed.

(** *** White space at the start of a text *)

Lemma after_space_split s r :
  after_space s = Some r -> exists e, s = e +:+ r /\ after_space e = Some "".
Proof.
  unfold after_space. destruct s as [|a s1]; [discriminate|].
  destruct (space1 a) eqn:E1.
  { intros [= ->]. exists (String a ""). simpl. rewrite E1. auto. }
  destruct s1 as [|b s2]; [discriminate|].
  destruct (space2 a b) eqn:E2.
  { intros [= ->]. exists (String a (String b "")). simpl. rewrite E1, E2. auto. }
  destruct s2 as [|c s3]; [discriminate|].
  destruct (space3 a b c) eqn:E3; [|discriminate].
  intros [= ->]. exists (String a (String b (String c ""))). simpl.
  rewrite E1, E2, E3. auto.
Qed.

Lemma after_space_app s r t :
  after_space s = Some r -> after_space (s +:+ t) = Some (r +:+ t).
Proof.
  unfold after_space. destruct s as [|a s1]; [discriminate|].
  rewrite app_cons. destruct (space1 a).
  { intros [= ->]. reflexivity. }
  destruct s1 as [|b s2]; [discriminate|].
  rewrite app_cons. destruct (space2 a b).
  { intros [= ->]. reflexivity. }
  destruct s2 as [|c s3]; [discriminate|].
  rewrite app_cons. destruct (space3 a b c); [|discriminate].
  intros [= ->]. reflexivity.
Qed.

Lemma lstrip_after s r : after_space s = Some r -> lstrip s = lstrip r.
Proof.
  unfold after_space. destruct s as [|a s1]; [discriminate|]. simpl.
  destruct (space1 a).
  { intros [= ->]. reflexivity. }
  destruct s1 as [|b s2]; [discriminate|].
  destruct (space2 a b).
  { intros [= ->]. reflexivity. }
  destruct s2 as [|c s3]; [discriminate|].
  destruct (space3 a b c); [|discriminate].
  intros [= ->]. reflexivity.
Qed.

Lemma lstrip_no_space s : after_space s = None -> lstrip s = s.
Proof.
  unfold after_space. destruct s as [|a s1]; [reflexivity|]. simpl.
  destruct (space1 a); [discriminate|].
  destruct s1 as [|b s2]; [reflexivity|].
  destruct (space2 a b); [discriminate|].
  destruct s2 as [|c s3]; [reflexivity|].
  destruct (space3 a b c); [discriminate | reflexivity].
Qed.

(** Induction along the white space at the start of a text. *)
Lemma space_ind (P : string -> Prop) :
  (forall s, after_space s = None -> P s) ->
  (forall s r, after_space s = Some r -> P r -> P s) ->
  forall s, P s.
Proof.
  intros Hnone Hsome s.
  assert (forall n s, String.length s <= n -> P s) as H; [|apply (H _ _ (le_n _))].
  clear s. induction n as [|n IH]; intros s Hlen.
  - apply Hnone. destruct s; [reflexivity | simpl in Hlen; lia].
  - destruct (after_space s) as [r|] eqn:E; [|apply Hnone, E].
    apply (Hsome s r E), IH.
    destruct (after_space_split _ _ E) as (e & -> & He).
    rewrite length_app in Hlen. destruct e; [discriminate He|]. simpl in Hlen. lia.
Qed.

Lemma lstrip_suffix s : exists a, s = a +:+ lstrip s.
Proof.
  induction s as [s E|s r E [a Ha]] using space_ind.
  - exists "". rewrite (lstrip_no_space _ E). reflexivity.
  - destruct (after_space_split _ _ E) as (e & -> & _).
    exists (e +:+ a). rewrite (lstrip_after _ _ E), app_assoc, <- Ha. reflexivity.
Qed.

(** *** [strip] *)

(** A blank text is empty or ends with white space. *)
Lemma blank_ends s : blank s = true -> s = "" \/ ends_with_space s.
Proof.
  unfold blank. induction s as [s E|s r E IH] using space_ind.
  - rewrite (lstrip_no_space _ E). destruct s; [auto | discriminate].
  - rewrite (lstrip_after _ _ E). intros H. right.
    destruct (after_space_split _ _ E) as (e & -> & He).
    destruct (IH H) as [->|(a & e' & -> & He')].
    + exists "", e. rewrite app_nil_r. auto.
    + exists (e +:+ a), e'. rewrite app_assoc. auto.
Qed.

Lemma blank_app_space e t : after_space e = Some "" -> blank (e +:+ t) = blank t.
Proof.
  intros He. unfold blank.
  rewrite (lstrip_after _ _ (after_space_app _ _ t He)). reflexivity.
Qed.

(** What [rstrip] removes is blank. *)
Lemma rstrip_split s : exists t, s = rstrip s +:+ t /\ blank t = true.
Proof.
  induction s as [|c s (t & Ht & Hb)]; [exists ""; auto|].
  simpl rstrip. destruct (blank (String c s)) eqn:E.
  - exists (String c s). auto.
  - exists t. rewrite app_cons, <- Ht. auto.
Qed.

Lemma rstrip_empty s : rstrip s = "" -> blank s = true.
Proof.
  destruct s as [|c s]; [reflexivity|]. simpl rstrip.
  destruct (blank (String c s)); [reflexivity | discriminate].
Qed.

(** What [rstrip] returns does not end with white space. *)
Lemma rstrip_no_trailing_space s : ~ ends_with_space (rstrip s).
Proof.
  induction s as [|c s IH]; intros (a & e & Ha & He).
  - destruct a, e; discriminate.
  - simpl rstrip in Ha. destruct (blank (String c s)) eqn:E.
    + destruct a, e; discriminate.
    + destruct a as [|x a].
      * rewrite app_nil_l in Ha.
        destruct (rstrip_split s) as (t & Ht & Hb).
        assert (String c s = e +:+ t) as Hs.
        { rewrite <- Ha, app_cons, <- Ht. reflexivity. }
        rewrite Hs, (blank_app_space _ _ He) in E. congruence.
      * rewrite app_cons in Ha. injection Ha as _ Ha.
        apply IH. exists a, e. auto.
Qed.

Lemma strip_no_trailing_space s : ~ ends_with_space (strip s).
Proof. apply rstrip_no_trailing_space. Qed.

(** A non-empty text that [strip] empties ends with white space. *)
Lemma strip_empty s : strip s = "" -> s = "" \/ ends_with_space s.
Proof.
  unfold strip. intros H. apply rstrip_empty, blank_ends in H as [H|H].
  - apply blank_ends. unfold blank. rewrite H. reflexivity.
  - right. destruct (lstrip_suffix s) as [a Ha].
    destruct H as (b & e & Hb & He). exists (a +:+ b), e.
    rewrite Ha at 1. rewrite Hb, app_assoc. auto.
Qed.

(** After [strip], the name that follows the six characters of a [model ]
    prefix is not blank. *)
Lemma model_name_not_blank raw prefix name :
  strip raw = prefix +:+ name -> lower prefix = "model " ->
  strip name <> "".
Proof.
  intros Hraw Hp Hname.
  apply (strip_no_trailing_space raw). rewrite Hraw.
  destruct (strip_empty _ Hname) as [->|(a & e & -> & He)].
  - do 6 (destruct prefix as [|? prefix]; [discriminate Hp|]).
    destruct prefix; [|discriminate Hp].
    simpl in Hp. injection Hp as _ _ _ _ _ Hsp.
    apply lower_char_space in Hsp as ->.
    eexists (String _ (String _ (String _ (String _ (String _ ""))))), " ".
    rewrite app_nil_r. split; reflexivity.
  - exists (prefix +:+ a), e. rewrite app_assoc. auto.
Qed.

End CommandFacts.

Section Returns.
Context {Self : Type}.

Lemma returns_ret {A} (a : A) : returns (mret a : M Self A).
Proof. intros w. exists a. reflexivity. Qed.

Lemma returns_print s e : returns (print s e : M Self unit).
Proof. intros w. exists tt. reflexivity. Qed.

Lemma returns_gets {A} (f : Self -> A) : returns (gets f).
Proof. intros w. eexists. reflexivity. Qed.

Lemma returns_modify f : returns (modify f : M Self unit).
Proof. intros w. exists tt. reflexivity. Qed.

Lemma returns_bind {A B} (c : M Self A) (k : A -> M Self B) :
  returns c -> (forall a, returns (k a)) -> returns (c ≫= k).
Proof.
  intros Hc Hk w. unfold mbind, M_bind, bind.
  destruct (Hc w) as [a Ha]. destruct (c w) as [[a'|e] w1]; simpl in Ha;
    [|discriminate]. apply Hk.
Qed.

Lemma returns_for_each {A} (l : list A) (body : A -> M Self unit) :
  (forall x, returns (body x)) -> returns (for_each l body).
Proof.
  intros Hb. induction l as [|x l IH]; simpl; [apply (returns_ret tt)|].
  apply (returns_bind (body x) (fun _ => for_each l body)); auto.
Qed.

End Returns.

Create HintDb returns.
#[global] Hint Resolve returns_ret returns_print returns_gets returns_modify
  : returns.

Ltac returns_step :=
  first [ apply returns_bind; [|intros ?] | solve [auto with returns] ].

Module AkashLoop.
Import Akash AkashTurns.

(** A turn changes the two histories and nothing else of the chain. *)
Lemma turn_settings be u (w : world AkashModelChain) :
  current_model (self (snd (turn be u w))) = current_model (self w) /\
  stream (self (snd (turn be u w))) = stream (self w) /\
  show_reasoning (self (snd (turn be u w))) = show_reasoning (self w).
Proof.
  rewrite AkashFacts.turn_unfold.
  destruct (AkashFacts.get_deepseek_reasoning_world be u w) as [Hself _].
  destruct (get_deepseek_reasoning be u w) as [[r|e] w1]; simpl in Hself;
    [|simpl; rewrite Hself; auto].
  destruct (AkashFacts.get_llama_response_world be u r w1) as [Hc _].
  destruct ((announce_model be;; attempt_response be u (handoff u r)) w1)
    as [[a|e] w3]; simpl in *; rewrite Hc, Hself; auto.
Qed.

Lemma turn_then be u (w : world AkashModelChain) :
  snd ((turn be u;; mret Continue) w) = snd (turn be u w) /\
  forall e, fst ((turn be u;; mret Continue) w) = Raise e ->
            fst (turn be u w) = Raise e.
Proof.
  unfold mbind, M_bind, bind, mret, M_ret, ret.
  destruct (turn be u w) as [[a|e] w']; simpl;
    (split; [reflexivity
            | intros e0 H; first [discriminate H | injection H as ->; reflexivity]]).
Qed.

Lemma is_command_false u :
  is_command u = false ->
  String.eqb (PyStr.lower u) "quit" = false /\
  String.eqb (PyStr.lower u) "view_models" = false /\
  String.eqb (PyStr.lower u) "clear" = false /\
  PyStr.startswith "model " (PyStr.lower u) = false /\
  String.eqb (PyStr.lower u) "reasoning" = false.
Proof.
  unfold is_command. intros H.
  repeat (apply orb_false_iff in H as [H ?]). auto.
Qed.

(** Property X10.  Dispatch in the loop of rat-akash.py.  A line that is
    not a command is a query: the iteration is the turn on the stripped
    line.  A command sends no request; [clear] empties both histories, every
    other command leaves them as they were. *)
Theorem main_iter_dispatch be raw (w : world AkashModelChain) :
  let u := PyStr.strip raw in
  let w' := snd (main_iter be (inr raw) w) in
  if is_command u
  then sent w' = sent w /\
       if String.eqb (PyStr.lower u) "clear"
       then deepseek_messages (self w') = [] /\ llama_messages (self w') = []
       else deepseek_messages (self w') = deepseek_messages (self w) /\
            llama_messages (self w') = llama_messages (self w)
  else w' = snd (turn be u w).
Proof.
  simpl. rewrite AkashFacts.main_iter_world.
  destruct (is_command (PyStr.strip raw)) eqn:Hc.
  - assert (forall c : Py loop_ctl, quiet c ->
              sent (snd (c w)) = sent w /\
              deepseek_messages (self (snd (c w))) = deepseek_messages (self w) /\
              llama_messages (self (snd (c w))) = llama_messages (self w))
      as Hquiet.
    { intros c Hq. destruct (Hq w) as [-> ->]. auto. }
    unfold is_command in Hc. unfold loop_body.
    set (u := PyStr.strip raw) in *.
    destruct (String.eqb (PyStr.lower u) "quit") eqn:Equit.
    { apply String.eqb_eq in Equit. rewrite Equit. apply Hquiet.
      repeat quiet_step. }
    destruct (String.eqb (PyStr.lower u) "view_models") eqn:Eview.
    { apply String.eqb_eq in Eview. rewrite Eview. apply Hquiet.
      quiet_step; [apply AkashFacts.quiet_get_all_models|].
      quiet_step; [auto with quiet|].
      quiet_step; [apply AkashFacts.quiet_for_each; auto with quiet|].
      repeat quiet_step. }
    destruct (String.eqb (PyStr.lower u) "clear") eqn:Eclear.
    { repeat split. }
    destruct (PyStr.startswith "model " (PyStr.lower u)).
    { repeat split. }
    destruct (String.eqb (PyStr.lower u) "reasoning"); [|discriminate Hc].
    repeat split.
  - destruct (is_command_false _ Hc) as (H1 & H2 & H3 & H4 & H5).
    unfold loop_body. rewrite H1, H2, H3, H4, H5.
    apply turn_then.
Qed.

(** Property X11.  What can end the loop.  When an iteration raises, the
    exception is an [Exception] other than [EOFError], and it comes from the
    prompt, from the listing of the models, from the reasoning stage, or it
    is the [MarkupError] of a text rich refused: an error of the endpoint in
    the response stage never ends the loop. *)
Theorem main_iter_raises be line (w : world AkashModelChain) e :
  fst (main_iter be line w) = Raise e ->
  e <> KeyboardInterrupt /\ e <> EOFError /\
  (line = inl e \/
   models_list be = inl e \/
   (exists text msg, markup_error be text = Some msg /\ e = MarkupError msg) \/
   exists raw, line = inr raw /\
               fst (get_deepseek_reasoning be (PyStr.strip raw) w) = Raise e).
Proof.
  unfold main_iter. intros H.
  assert (fst (loop_body be line w) = Raise e /\
          e <> KeyboardInterrupt /\ e <> EOFError) as (Hb & Hk & He).
  { destruct (loop_body be line w) as [[ctl|[]] w']; simpl in *;
      try discriminate; injection H as <-; repeat split; congruence. }
  clear H. split; [exact Hk|]. split; [exact He|].
  unfold loop_body in Hb. destruct line as [e0|raw].
  { left. simpl in Hb. congruence. }
  right. set (u := PyStr.strip raw) in *.
  destruct (String.eqb (PyStr.lower u) "quit"); [discriminate Hb|].
  destruct (String.eqb (PyStr.lower u) "view_models").
  { unfold get_all_models in Hb.
    destruct (models_list be) as [e1|ids]; [left; simpl in Hb; congruence|].
    right. left. revert Hb. unfold mbind, M_bind, bind, mret, M_ret, ret.
    simpl.
    generalize (World (self w)
                  (stdout w ++ [(PyStr.nl +:+ "[yellow]Available models:[/]")
                                  +:+ PyStr.nl]) (sent w)).
    induction (filter _ ids) as [|id l IH]; intros w0; simpl; [discriminate|].
    unfold bind at 1, rprint at 1.
    destruct (markup_error be _) as [msg|] eqn:Hm; simpl.
    - intros H. injection H as <-. eauto.
    - apply IH. }
  destruct (String.eqb (PyStr.lower u) "clear"); [discriminate Hb|].
  destruct (PyStr.startswith "model " (PyStr.lower u)); [discriminate Hb|].
  destruct (String.eqb (PyStr.lower u) "reasoning"); [discriminate Hb|].
  apply turn_then in Hb. unfold turn, mbind, M_bind, bind in Hb.
  destruct (get_deepseek_reasoning be u w) as [[r|e1] w1] eqn:Hg; simpl in Hb.
  - apply AkashResponse.get_llama_response_raises in Hb as [[Hb|Hb] _];
      [congruence | right; left; exact Hb].
  - right. right. exists raw. split; [reflexivity|].
    fold u. rewrite Hg. exact Hb.
Qed.

(** Property X12.  The [model] command.  When the stripped line is a prefix that
    reads [model ] in lower case followed by a name, the command sets the model
    of the response stage to the stripped name, which is never blank, and
    touches nothing else. *)
Theorem model_command be raw prefix name (w : world AkashModelChain) :
  PyStr.strip raw = prefix +:+ name ->
  PyStr.lower prefix = "model " ->
  let w' := snd (main_iter be (inr raw) w) in
  fst (main_iter be (inr raw) w) = Ret Continue /\
  current_model (self w') = PyStr.strip name /\
  PyStr.strip name <> "" /\
  deepseek_messages (self w') = deepseek_messages (self w) /\
  llama_messages (self w') = llama_messages (self w) /\
  sent w' = sent w.
Proof.
  intros Hraw Hp. simpl.
  assert (String.length prefix = 6) as Hlen.
  { rewrite <- CommandFacts.length_lower, Hp. reflexivity. }
  assert (PyStr.drop 6 (prefix +:+ name) = name) as Hdrop.
  { rewrite <- Hlen. apply PyStrFacts.drop_app. }
  unfold main_iter, loop_body. rewrite Hraw, CommandFacts.lower_app, Hp.
  change (String.eqb ("model " +:+ PyStr.lower name) "quit") with false.
  change (String.eqb ("model " +:+ PyStr.lower name) "view_models") with false.
  change (String.eqb ("model " +:+ PyStr.lower name) "clear") with false.
  rewrite PyStrFacts.startswith_app, Hdrop. simpl.
  repeat split. apply (CommandFacts.model_name_not_blank raw prefix name Hraw Hp).
Qed.

(** Property X13.  No command and no turn ever leaves the response stage without
    a model: if the name of the model is not empty before an iteration of the
    loop, it is not empty after it. *)
Theorem model_never_blank be line (w : world AkashModelChain) :
  current_model (self w) <> "" ->
  current_model (self (snd (main_iter be line w))) <> "".
Proof.
  intros Hm. rewrite AkashFacts.main_iter_world.
  assert (forall c : Py loop_ctl, quiet c ->
            current_model (self (snd (c w))) <> "") as Hquiet.
  { intros c Hq. destruct (Hq w) as [-> _]. exact Hm. }
  unfold loop_body. destruct line as [e|raw].
  { apply Hquiet. auto with quiet. }
  set (u := PyStr.strip raw).
  destruct (String.eqb (PyStr.lower u) "quit").
  { apply Hquiet. repeat quiet_step. }
  destruct (String.eqb (PyStr.lower u) "view_models").
  { apply Hquiet.
    quiet_step; [apply AkashFacts.quiet_get_all_models|].
    quiet_step; [auto with quiet|].
    quiet_step; [apply AkashFacts.quiet_for_each; auto with quiet|].
    repeat quiet_step. }
  destruct (String.eqb (PyStr.lower u) "clear"); [exact Hm|].
  destruct (PyStr.startswith "model " (PyStr.lower u)) eqn:Hstart.
  { simpl.
    apply (CommandFacts.model_name_not_blank raw (PyStr.take 6 u) (PyStr.drop 6 u)).
    - symmetry. apply PyStrFacts.take_drop.
    - rewrite CommandFacts.lower_take.
      apply PyStrFacts.startswith_iff in Hstart as [t ->].
      apply (PyStrFacts.take_app "model " t). }
  destruct (String.eqb (PyStr.lower u) "reasoning"); [exact Hm|].
  destruct (turn_then be u w) as [-> _].
  destruct (turn_settings be u w) as [-> _]. exact Hm.
Qed.

(** Property X26.  A name of the model that rich cannot render ends the
    session at the next query.  The reasoning stage runs and returns; the
    response stage then raises [MarkupError] at its announcement, before its
    [try] block, so no request of the response stage is sent, neither
    handler of the loop catches the exception, and the user message stays in
    the reasoning history without an answer. *)
Theorem refused_model_name_ends_loop be raw r msg (w : world AkashModelChain) :
  is_command (PyStr.strip raw) = false ->
  fst (get_deepseek_reasoning be (PyStr.strip raw) w) = Ret r ->
  markup_error be ("[green]" +:+ current_model (self w) +:+ "[/]") = Some msg ->
  let w' := snd (main_iter be (inr raw) w) in
  fst (main_iter be (inr raw) w) = Raise (MarkupError msg) /\
  sent w' = sent w ++ [reasoning_request (PyStr.strip raw) (self w)] /\
  deepseek_messages (self w') =
    deepseek_messages (self w) ++ [Message user (Text (PyStr.strip raw))] /\
  llama_messages (self w') = llama_messages (self w).
Proof.
  intros Hc Hr Hm. simpl.
  destruct (is_command_false _ Hc) as (H1 & H2 & H3 & H4 & H5).
  unfold main_iter, loop_body. rewrite H1, H2, H3, H4, H5.
  set (u := PyStr.strip raw) in *.
  destruct (AkashFacts.get_deepseek_reasoning_world be u w) as [Hself Hsent].
  destruct (get_deepseek_reasoning be u w) as [[r'|e] w1] eqn:Hg; simpl in Hr;
    [|discriminate].
  simpl in Hself, Hsent.
  assert (turn be u w = (Raise (MarkupError msg), w1)) as Ht.
  { rewrite AkashFacts.turn_unfold, Hg. unfold get_llama_response.
    rewrite AkashFacts.announce_then. unfold announcement.
    rewrite Hself. simpl. rewrite Hm. reflexivity. }
  unfold mbind, M_bind, bind. rewrite Ht. simpl. rewrite Hself, Hsent.
  repeat split.
Qed.

End AkashLoop.

(** ** The other commands of rat-akash.py *)

Module AkashCommands.
Import Akash AkashTurns.




(** Property X15.  The [reasoning] command flips the display switch and says
    which way; it sends nothing and changes nothing else of the chain. *)
Theorem reasoning_command be raw (w : world AkashModelChain) :
  PyStr.lower (PyStr.strip raw) = "reasoning" ->
  let w' := snd (main_iter be (inr raw) w) in
  fst (main_iter be (inr raw) w) = Ret Continue /\
  show_reasoning (self w') = negb (show_reasoning (self w)) /\
  deepseek_messages (self w') = deepseek_messages (self w) /\
  llama_messages (self w') = llama_messages (self w) /\
  current_model (self w') = current_model (self w) /\
  stream (self w') = stream (self w) /\
  sent w' = sent w /\
  terminal w' =
    terminal w +:+ PyStr.nl +:+ "[magenta]Reasoning process is now " +:+
    (if show_reasoning (self w) then "hidden" else "visible") +:+ "[/]" +:+
    PyStr.nl +:+ PyStr.nl.
Proof.
  intros Hcmd. simpl. unfold main_iter, loop_body. rewrite Hcmd.
  change (String.eqb "reasoning" "quit") with false.
  change (String.eqb "reasoning" "view_models") with false.
  change (String.eqb "reasoning" "clear") with false.
  change (PyStr.startswith "model " "reasoning") with false.
  change (String.eqb "reasoning" "reasoning") with true. cbv iota.
  destruct w as [[st dm lm cm sh] out snt].
  unfold terminal. destruct sh; simpl; repeat split;
    rewrite !AkashStages.text_concat_app; simpl; norm_text; reflexivity.
Qed.

(** Property X16.  Giving the [reasoning] command twice, with any turns of
    phrase and whatever the endpoint does in between, restores the chain. *)
Theorem reasoning_command_twice be1 be2 raw1 raw2 (w : world AkashModelChain) :
  PyStr.lower (PyStr.strip raw1) = "reasoning" ->
  PyStr.lower (PyStr.strip raw2) = "reasoning" ->
  self (snd (main_iter be2 (inr raw2) (snd (main_iter be1 (inr raw1) w)))) = self w.
Proof.
  intros H1 H2. unfold main_iter, loop_body. rewrite H1, H2.
  change (String.eqb "reasoning" "quit") with false.
  change (String.eqb "reasoning" "view_models") with false.
  change (String.eqb "reasoning" "clear") with false.
  change (PyStr.startswith "model " "reasoning") with false.
  change (String.eqb "reasoning" "reasoning") with true. cbv iota.
  destruct w as [[st dm lm cm sh] out snt]. destruct sh; reflexivity.
Qed.

Lemma ends_session_break be line (w : world AkashModelChain) :
  ends_session line = true -> fst (main_iter be line w) = Ret Break.
Proof.
  unfold ends_session, main_iter, loop_body.
  destruct line as [[]|raw]; try discriminate; [reflexivity|].
  intros ->. reflexivity.
Qed.

(** Property X17.  [quit], in any case and with blanks around it, and the end of
    input end the session: what the loop has done by then is the whole run, and
    nothing that would have come after is read. *)
Theorem session_ends_at_quit pre be line rest (w : world AkashModelChain) :
  ends_session line = true ->
  main_loop (pre ++ (be, line) :: rest) w = main_loop (pre ++ [(be, line)]) w.
Proof.
  intros Hend. revert w. induction pre as [|[be0 line0] pre IH]; intros w; simpl.
  - unfold mbind, M_bind, bind.
    pose proof (ends_session_break be line w Hend) as Hb.
    destruct (main_iter be line w) as [[[]|e] w']; simpl in Hb;
      try discriminate; reflexivity.
  - unfold mbind, M_bind, bind.
    destruct (main_iter be0 line0 w) as [[[]|e] w']; [apply IH | reflexivity..].
Qed.

End AkashCommands.

(** ** rat-claude.py *)

Module ClaudeFacts.
Import Claude ClaudeSession.

(** The response stage is its announcement followed by the guarded block. *)
Lemma get_claude_response_unfold be u r (w : world ModelChain) :
  get_claude_response be u r w =
  (announce_model be;; try_except (attempt_response be u r) (report_error be)) w.
Proof. reflexivity. Qed.

Lemma claude_quiet_report_error be e : quiet (report_error be e).
Proof. unfold report_error. repeat quiet_step. Qed.

(** The announcement either raises rich's [MarkupError] and writes
    nothing, or puts the name of the model on the terminal. *)
Lemma claude_announce_then {A} be (k : Py A) (w : world ModelChain) :
  (announce_model be;; k) w =
  match markup_error be (announcement (self w)) with
  | Some msg => (Raise (MarkupError msg), w)
  | None => k (World (self w) (stdout w ++ [announcement (self w) +:+ ""]) (sent w))
  end.
Proof.
  unfold announce_model, rprint, announcement, mbind, M_bind, bind, gets. simpl.
  destruct (markup_error be _); reflexivity.
Qed.

Lemma claude_quiet_reasoning_loop evs acc fc : quiet (reasoning_loop evs acc fc).
Proof.
  revert acc fc. induction evs as [|[chunk|e] evs IH]; intros acc fc; simpl.
  - auto with quiet.
  - quiet_step; [auto with quiet|]. quiet_step; [auto with quiet|].
    destruct (_ && _).
    { repeat quiet_step. destruct (PyStr.contains _ _); [auto with quiet | apply IH]. }
    destruct (truthy _); [|apply IH].
    destruct (negb _).
    { repeat quiet_step. destruct (PyStr.contains _ _); [auto with quiet | apply IH]. }
    destruct (PyStr.contains _ _); [auto with quiet | apply IH].
  - auto with quiet.
Qed.

Lemma claude_quiet_reasoning_single_shot contents : quiet (reasoning_single_shot contents).
Proof. unfold reasoning_single_shot. repeat quiet_step. Qed.

Lemma claude_quiet_response_loop evs acc : quiet (response_loop evs acc).
Proof.
  revert acc. induction evs as [|[chunk|e] evs IH]; intros acc; simpl.
  - auto with quiet.
  - quiet_step; [auto with quiet|]. quiet_step; [auto with quiet | apply IH].
  - auto with quiet.
Qed.

Lemma claude_quiet_read_response r : quiet (read_response r).
Proof.
  destruct r; simpl; [apply claude_quiet_response_loop | repeat quiet_step].
Qed.

Lemma claude_reasoning_unfold be u (w : world ModelChain) :
  get_deepseek_reasoning be u w =
  (create be (reasoning_request u (self w))
     ≫= λ response,
          match response with
          | Streamed evs => reasoning_loop evs "" ""
          | Completed contents => reasoning_single_shot contents
          end
          ≫= λ reasoning_content,
               print (PyStr.nl +:+ PyStr.nl +:+ "[yellow]Thought for "
                        +:+ time_str be +:+ "[/]") PyStr.nl;;
               show ← gets show_reasoning;
               when show (print PyStr.nl PyStr.nl);;
               mret (clean reasoning_content)) (asked u w).
Proof.
  unfold get_deepseek_reasoning, asked, reasoning_request.
  unfold mbind at 1 2 3 4 5 6 7. unfold M_bind, bind at 1 2 3 4 5 6 7. simpl.
  destruct (show_reasoning (self w)); simpl; [reflexivity|].
  rewrite app_nil_r. reflexivity.
Qed.

(** The reasoning stage appends the user message to the reasoning history
    and sends one request, whether it returns or raises. *)
Lemma claude_reasoning_world be u (w : world ModelChain) :
  self (snd (get_deepseek_reasoning be u w)) =
    with_deepseek_messages (fun h => h ++ [Message user (Text u)]) (self w) /\
  sent (snd (get_deepseek_reasoning be u w)) = sent w ++ [reasoning_request u (self w)].
Proof.
  rewrite claude_reasoning_unfold.
  apply (create_then be _ _ (asked u w)).
  intros resp. quiet_step; [|repeat quiet_step].
  destruct resp; [apply claude_quiet_reasoning_loop | apply claude_quiet_reasoning_single_shot].
Qed.

(** *** The response stage *)

(** The guarded block either raises before it has written anything to the
    histories, or returns after it has appended the exchange to both. *)
Lemma claude_attempt_response_world be u r (w : world ModelChain) :
  match fst (attempt_response be u r w) with
  | Raise _ => self (snd (attempt_response be u r w)) = self w
  | Ret a =>
      self (snd (attempt_response be u r w)) =
        with_deepseek_messages (fun h => h ++ [Message assistant (Text a)])
          (with_claude_messages (fun h =>
             h ++ [Message user (Blocks [u]); Message assistant (Blocks [a])])
             (self w))
  end.
Proof.
  change (attempt_response be u r w) with
    ((create be (Request (current_model (self w)) (handoff u r) (stream (self w))
                   (Some 8000%N))
        ≫= λ response, read_response response ≫= record_response u) w).
  set (req := Request _ _ _ _).
  destruct (create_then_outcome be req
              (λ response, read_response response ≫= record_response u) w)
    as [[e ->]|[resp ->]]; simpl; [reflexivity|].
  unfold mbind, M_bind, bind.
  destruct (claude_quiet_read_response resp (World (self w) (stdout w) (sent w ++ [req])))
    as [H1 _].
  destruct (read_response resp _) as [[a|e] w1]; simpl in *; rewrite ?H1; auto.
Qed.

(** *** A whole turn *)

Lemma claude_turn_unfold be u (w : world ModelChain) :
  turn be u w =
  match get_deepseek_reasoning be u w with
  | (Raise e, w1) => (Raise e, w1)
  | (Ret r, w1) => get_claude_response be u r w1
  end.
Proof.
  unfold turn, mbind, M_bind, bind.
  destruct (get_deepseek_reasoning be u w) as [[r|e] w1]; reflexivity.
Qed.

(** The response stage writes the chain only when the answer is there. *)
Lemma claude_response_world be u r (w : world ModelChain) :
  self (snd (get_claude_response be u r w)) =
  match fst ((announce_model be;; attempt_response be u r) w) with
  | Raise _ => self w
  | Ret a =>
      with_deepseek_messages (fun h => h ++ [Message assistant (Text a)])
        (with_claude_messages (fun h =>
           h ++ [Message user (Blocks [u]); Message assistant (Blocks [a])])
           (self w))
  end.
Proof.
  rewrite get_claude_response_unfold, !claude_announce_then.
  destruct (markup_error be (announcement (self w))); [reflexivity|].
  set (w2 := World _ _ _).
  pose proof (claude_attempt_response_world be u r w2) as Hatt.
  unfold try_except.
  destruct (attempt_response be u r w2) as [[a|e] w3]; simpl in *;
    [exact Hatt|].
  destruct (is_Exception e); simpl; [|exact Hatt].
  destruct (claude_quiet_report_error be e w3) as [-> _]. exact Hatt.
Qed.

(** The chain after a turn, by the way the turn ended. *)
Lemma claude_turn_self be u (w : world ModelChain) :
  self (snd (turn be u w)) =
  match turn_status be u w with
  | Answered a =>
      with_deepseek_messages (fun h => h ++ [Message assistant (Text a)])
        (with_claude_messages (fun h =>
           h ++ [Message user (Blocks [u]); Message assistant (Blocks [a])])
           (with_deepseek_messages (fun h => h ++ [Message user (Text u)]) (self w)))
  | ReasoningFailed _ | ResponseFailed _ =>
      with_deepseek_messages (fun h => h ++ [Message user (Text u)]) (self w)
  end.
Proof.
  unfold turn_status. rewrite claude_turn_unfold.
  destruct (claude_reasoning_world be u w) as [Hself _].
  destruct (get_deepseek_reasoning be u w) as [[r|e] w1]; simpl in Hself.
  - rewrite claude_response_world.
    destruct ((announce_model be;; attempt_response be u r) w1) as [[a|e] w3];
      simpl; rewrite Hself; reflexivity.
  - simpl. exact Hself.
Qed.

(** Property X18.  The histories of rat-claude.py after a turn.  An answered
    turn appends the exchange to both histories, as plain text to the reasoning
    history and as text blocks to the response history.  A turn in which either
    stage raises leaves the response history as it was and only the user message
    in the reasoning history. *)
Theorem claude_turn_histories be u (w : world ModelChain) :
  let c := self w in
  let c' := self (snd (turn be u w)) in
  match turn_status be u w with
  | Answered a =>
      deepseek_messages c' =
        deepseek_messages c ++ [Message user (Text u); Message assistant (Text a)] /\
      claude_messages c' =
        claude_messages c ++
          [Message user (Blocks [u]); Message assistant (Blocks [a])]
  | ReasoningFailed _ | ResponseFailed _ =>
      deepseek_messages c' = deepseek_messages c ++ [Message user (Text u)] /\
      claude_messages c' = claude_messages c
  end.
Proof.
  simpl. rewrite claude_turn_self.
  destruct (turn_status be u w); simpl; rewrite <- ?app_assoc; auto.
Qed.

(** *** The command loop *)

Lemma claude_main_iter_world be line (w : world ModelChain) :
  snd (main_iter be line w) = snd (loop_body be line w).
Proof.
  unfold main_iter. destruct (loop_body be line w) as [[ctl|[]] w']; reflexivity.
Qed.

(** Property X19.  In rat-claude.py an iteration of the command loop either
    empties both histories (the [clear] command) or extends each of them,
    possibly by nothing. *)
Theorem claude_main_iter_histories be line (w : world ModelChain) :
  let c := self w in
  let c' := self (snd (main_iter be line w)) in
  (deepseek_messages c' = [] /\ claude_messages c' = []) \/
  (exists d l, deepseek_messages c' = deepseek_messages c ++ d /\
               claude_messages c' = claude_messages c ++ l).
Proof.
  simpl. rewrite claude_main_iter_world.
  assert (forall c : Py loop_ctl, quiet c ->
            exists d l,
              deepseek_messages (self (snd (c w))) = deepseek_messages (self w) ++ d /\
              claude_messages (self (snd (c w))) = claude_messages (self w) ++ l)
    as Hquiet.
  { intros c Hc. destruct (Hc w) as [-> _]. exists [], [].
    rewrite !app_nil_r. auto. }
  unfold loop_body. destruct line as [e|raw].
  { right. apply Hquiet. auto with quiet. }
  set (u := PyStr.strip raw).
  destruct (String.eqb (PyStr.lower u) "quit").
  { right. apply Hquiet. repeat quiet_step. }
  destruct (String.eqb (PyStr.lower u) "clear").
  { left. split; reflexivity. }
  destruct (PyStr.startswith "model " (PyStr.lower u)).
  { right. exists [], []. rewrite !app_nil_r. split; reflexivity. }
  destruct (String.eqb (PyStr.lower u) "reasoning").
  { right. exists [], []. rewrite !app_nil_r. split; reflexivity. }
  right.
  assert (snd ((turn be u;; mret Continue) w) = snd (turn be u w)) as ->.
  { unfold mbind, M_bind, bind. destruct (turn be u w) as [[a|e] w']; reflexivity. }
  rewrite claude_turn_self.
  destruct (turn_status be u w); simpl; rewrite <- ?app_assoc; eauto;
    exists [Message user (Text u)], []; rewrite app_nil_r; auto.
Qed.

(** *** The two ways of reading the reasoning stream *)

(** With the Akash API the loop of rat-claude.py is the loop of
    rat-akash.py. *)
Lemma reasoning_loop_akash evs acc fc (wc : world ModelChain)
    (wa : world Akash.AkashModelChain) :
  use_deepseek_openrouter (self wc) = false ->
  fst (reasoning_loop evs acc fc wc) = fst (Akash.reasoning_loop evs acc wa).
Proof.
  intros Hor. revert acc wc wa Hor.
  induction evs as [|[chunk|e] evs IH]; intros acc wc wa Hor; simpl;
    [reflexivity| |reflexivity].
  unfold mbind, M_bind, bind, first.
  destruct (choices chunk) as [|d ds]; [reflexivity|]. simpl.
  rewrite Hor. simpl.
  destruct (truthy (delta_content d)); [|apply IH, Hor]. simpl.
  destruct (show_reasoning (self wc)), (Akash.show_reasoning (self wa)); simpl;
    destruct (PyStr.contains CLOSE (default "" (delta_content d)));
    try reflexivity; apply IH; exact Hor.
Qed.

(** Property X20.  The Akash path of rat-claude.py is rat-akash.py: started on
    the same reasoning history with the same model and transport mode, the two
    reasoning stages send the same request and end in the same way, with the
    same payload. *)
Theorem akash_path_agrees be u (wc : world ModelChain)
    (wa : world Akash.AkashModelChain) :
  use_deepseek_openrouter (self wc) = false ->
  deepseek_model (self wc) = Akash.DEEPSEEK_MODEL ->
  deepseek_messages (self wc) = Akash.deepseek_messages (self wa) ->
  stream (self wc) = Akash.stream (self wa) ->
  fst (get_deepseek_reasoning be u wc) = fst (Akash.get_deepseek_reasoning be u wa) /\
  reasoning_request u (self wc) = AkashTurns.reasoning_request u (self wa).
Proof.
  intros Hor Hm Hh Hs.
  assert (reasoning_request u (self wc) = AkashTurns.reasoning_request u (self wa))
    as Hreq.
  { unfold reasoning_request, AkashTurns.reasoning_request.
    rewrite Hor, Hm, Hh, Hs. reflexivity. }
  split; [|exact Hreq].
  rewrite claude_reasoning_unfold, AkashFacts.get_deepseek_reasoning_unfold, Hreq.
  unfold mbind, M_bind, bind, create.
  destruct (req_stream _);
    [destruct (chat_stream be _) as [e|evs] | destruct (chat_create be _) as [e|cs]];
    simpl; try reflexivity.
  - match goal with
    | |- context [reasoning_loop evs "" "" ?w1] =>
        match goal with
        | |- context [Akash.reasoning_loop evs "" ?w2] =>
            pose proof (reasoning_loop_akash evs "" "" w1 w2 Hor) as Hl;
            destruct (reasoning_loop evs "" "" w1) as [[r|e] w3],
                     (Akash.reasoning_loop evs "" w2) as [[r'|e'] w3']
        end
    end; simpl in Hl; try discriminate; injection Hl as <-; [|reflexivity].
    unfold Akash.finish_reasoning, mbind, M_bind, bind, gets, when. simpl.
    destruct (show_reasoning (self w3)), (Akash.show_reasoning (self w3'));
      reflexivity.
  - destruct cs as [|content cs]; [reflexivity|].
    destruct wc as [[? ? ? ? ? ? shc] ? ?], wa as [[? ? ? ? sha] ? ?].
    destruct shc, sha; reflexivity.
Qed.

(** With the DeepSeek API the loop joins the [reasoning_content] of the
    chunks it reads and nothing else. *)
Lemma reasoning_loop_deepseek ds acc fc (w : world ModelChain) :
  use_deepseek_openrouter (self w) = true ->
  fst (reasoning_loop (map delta_piece ds) acc fc w) =
  Ret (acc +:+ PyStr.concat (map reasoning_of (read_deltas ds fc))).
Proof.
  intros Hor. revert acc fc w Hor.
  induction ds as [|d ds IH]; intros acc fc w Hor.
  - simpl. rewrite PyStrFacts.app_nil_r. reflexivity.
  - simpl. unfold mbind, M_bind, bind. simpl. rewrite Hor. simpl.
    destruct (truthy (delta_reasoning_content d)) eqn:Hr; simpl.
    + destruct (show_reasoning (self w)); simpl;
        destruct (PyStr.contains CLOSE (default "" (delta_reasoning_content d)));
        simpl; unfold reasoning_of at 1; rewrite Hr;
        rewrite ?IH by exact Hor; norm_text; reflexivity.
    + destruct (truthy (delta_content d)); simpl.
      * destruct (PyStr.contains CLOSE (fc +:+ default "" (delta_content d)));
          simpl; unfold reasoning_of at 1; rewrite Hr;
          rewrite ?IH by exact Hor; norm_text; reflexivity.
      * unfold reasoning_of at 1. rewrite Hr, IH by exact Hor.
        norm_text. reflexivity.
Qed.

(** Property X21.  The DeepSeek path of rat-claude.py.  For a stream of
    well-formed chunks the payload is made of the [reasoning_content] of the
    chunks read, joined, without the two tags; the loop reads up to and
    including the first chunk whose [reasoning_content] holds the closing
    tag or with which the [content] gathered so far holds it.  The text of
    [content], the answer of the reasoning model, never reaches the
    payload. *)
Theorem deepseek_path_payload be ds u (w : world ModelChain) :
  use_deepseek_openrouter (self w) = true ->
  stream (self w) = true ->
  chat_stream be (reasoning_request u (self w)) = inr (map delta_piece ds) ->
  fst (get_deepseek_reasoning be u w) =
  Ret (clean (PyStr.concat (map reasoning_of (read_deltas ds "")))).
Proof.
  intros Hor Hs Hbe. rewrite claude_reasoning_unfold.
  unfold mbind, M_bind, bind, create.
  replace (req_stream (reasoning_request u (self w))) with true
    by (symmetry; exact Hs).
  rewrite Hbe. simpl.
  match goal with
  | |- context [reasoning_loop _ "" "" ?w1] =>
      pose proof (reasoning_loop_deepseek ds "" "" w1 Hor) as Hn;
      destruct (reasoning_loop (map delta_piece ds) "" "" w1) as [[r|e] w2]
  end; simpl in Hn; [|discriminate]. injection Hn as ->.
  simpl. destruct (show_reasoning (self w2)); reflexivity.
Qed.

End ClaudeFacts.

(** ** rat-local.py: where the reasoning comes from, and the turn *)

Module LocalExtras.
Import Local LocalSession Spans.

#[local] Arguments PyStr.contains : simpl never.

(** *** The scanning loop *)

Lemma local_scan_loop_run frags st (w : world ModelChain) :
  scan_loop (pieces frags) st w = (Ret (scan_all frags st), w).
Proof.
  revert st. induction frags as [|s frags IH]; intros st; [reflexivity|].
  simpl. destruct s as [|c s]; simpl; apply IH.
Qed.

Lemma scan_all_app pre frags st :
  scan_all (pre ++ frags) st = scan_all frags (scan_all pre st).
Proof. apply fold_left_app. Qed.

(** After a fragment with an opening tag, what was scanned before does not
    show in the two variables the extraction reads. *)
Lemma scan_step_open st s :
  PyStr.contains OPEN s = true ->
  is_thinking (scan_step st s) = negb (PyStr.contains CLOSE s) /\
  think_content (scan_step st s) = s.
Proof.
  intros Ho. unfold scan_step. rewrite Ho.
  destruct (PyStr.contains CLOSE s); simpl; auto.
Qed.

(** Without a further opening tag the loop keeps joining fragments until
    the first one with a closing tag. *)
Lemma scan_all_no_open post st :
  no_open post = true ->
  think_content (scan_all post st) =
  if is_thinking st
  then think_content st +:+ PyStr.concat (consumed post)
  else think_content st.
Proof.
  revert st. induction post as [|f post IH]; intros st Hno.
  - simpl. destruct (is_thinking st); [|reflexivity].
    symmetry. apply PyStrFacts.app_nil_r.
  - simpl in Hno. apply andb_true_iff in Hno as [Hf Hno].
    apply negb_true_iff in Hf.
    change (scan_all (f :: post) st)
      with (scan_all post (if truthy (Some f) then scan_step st f else st)).
    rewrite (IH _ Hno). destruct f as [|c f].
    + simpl. destruct (is_thinking st); reflexivity.
    + change (truthy (Some (String c f))) with true. cbv iota.
      unfold scan_step. rewrite Hf. simpl consumed.
      destruct (is_thinking st); simpl; [|reflexivity].
      destruct (PyStr.contains CLOSE (String c f)); simpl.
      * rewrite PyStrFacts.app_nil_r. reflexivity.
      * rewrite PyStrFacts.app_assoc. reflexivity.
Qed.

(** The outcome of the reasoning stage for a stream of well-formed chunks. *)
Lemma local_streamed_outcome be frags u (w : world ModelChain) :
  chat_stream be (reasoning_request u (self w)) = inr (pieces frags) ->
  fst (get_deepseek_reasoning be u w) =
  Ret (PyStr.findall OPEN CLOSE (think_content (scan_all frags (Scan "" false "")))).
Proof.
  intros Hbe. unfold reasoning_request in Hbe.
  destruct w as [[dm rm cm sh ex] out snt]. simpl in Hbe.
  unfold get_deepseek_reasoning, mbind, M_bind, bind, modify, gets, when, create.
  simpl. destruct sh; simpl; rewrite Hbe; rewrite local_scan_loop_run; reflexivity.
Qed.

(** After the last fragment with a whole opening tag, what the extraction
    reads is that fragment and the ones after it, up to and including the
    first with a whole closing tag. *)
Lemma think_content_last_opening pre s post st :
  PyStr.contains OPEN s = true ->
  no_open post = true ->
  think_content (scan_all (pre ++ s :: post) st) =
  PyStr.concat (consumed (s :: post)).
Proof.
  intros Ho Hno. rewrite scan_all_app.
  change (scan_all (s :: post) (scan_all pre st))
    with (scan_all post (if truthy (Some s)
                         then scan_step (scan_all pre st) s
                         else scan_all pre st)).
  assert (truthy (Some s) = true) as ->.
  { destruct s; [discriminate Ho | reflexivity]. }
  rewrite (scan_all_no_open _ _ Hno).
  destruct (scan_step_open (scan_all pre st) s Ho) as [-> ->].
  simpl. destruct (PyStr.contains CLOSE s); simpl; [|reflexivity].
  symmetry. apply PyStrFacts.app_nil_r.
Qed.

(** Every stream has a last fragment with a whole opening tag, or none. *)
Lemma last_opening frags :
  no_open frags = true \/
  exists pre s post, frags = pre ++ s :: post /\
                     PyStr.contains OPEN s = true /\ no_open post = true.
Proof.
  induction frags as [|f frags [Hno|(pre & s & post & -> & Ho & Hno)]].
  - left. reflexivity.
  - destruct (PyStr.contains OPEN f) eqn:E.
    + right. exists [], f, frags. auto.
    + left. simpl. rewrite E. exact Hno.
  - right. exists (f :: pre), s, post. auto.
Qed.

(** Property X22.  Where rat-local.py takes the reasoning from.  When the stream
    has a last fragment with a whole opening tag, the reasoning is extracted
    from that fragment and the fragments after it, up to and including the first
    one with a whole closing tag; everything the stream delivered before that
    fragment, complete reasoning blocks included, is forgotten. *)
Theorem reasoning_from_last_opening be pre s post u (w : world ModelChain) :
  chat_stream be (reasoning_request u (self w)) = inr (pieces (pre ++ s :: post)) ->
  PyStr.contains OPEN s = true ->
  no_open post = true ->
  fst (get_deepseek_reasoning be u w) =
  Ret (PyStr.findall OPEN CLOSE (PyStr.concat (consumed (s :: post)))).
Proof.
  intros Hbe Ho Hno. rewrite (local_streamed_outcome _ _ _ _ Hbe).
  rewrite (think_content_last_opening _ _ _ _ Ho Hno). reflexivity.
Qed.

(** Property X23.  When no fragment holds a whole opening tag, rat-local.py
    extracts no reasoning, whatever the fragments add up to. *)
Theorem no_whole_opening_no_reasoning be frags u (w : world ModelChain) :
  chat_stream be (reasoning_request u (self w)) = inr (pieces frags) ->
  no_open frags = true ->
  fst (get_deepseek_reasoning be u w) = Ret [].
Proof.
  intros Hbe Hno. rewrite (local_streamed_outcome _ _ _ _ Hbe).
  rewrite (scan_all_no_open _ _ Hno). reflexivity.
Qed.

(** *** What the extraction returns *)

Lemma spans_without_close op cl s l :
  0 < String.length cl -> matched_spans op cl s l ->
  forall x, In x l -> ~ occurs cl x.
Proof.
  intros Hlen H. induction H as [s Hno|pre rest Hf Hno|pre mid post l Hf Hm _ IH];
    intros x Hx; simpl in Hx; try contradiction.
  destruct Hx as [<-|Hx]; [|apply IH, Hx].
  intros (a & b & ->).
  assert (b +:+ cl = "") as Hb.
  { apply (Hm a). rewrite !PyStrFacts.app_assoc. reflexivity. }
  apply (f_equal String.length) in Hb. rewrite PyStrFacts.length_app in Hb.
  simpl in Hb. lia.
Qed.

(** Property X24.  Whatever the endpoint streams, well-formed or not, a text
    that rat-local.py returns as reasoning contains no closing tag. *)
Theorem reasoning_has_no_closing_tag be u (w : world ModelChain) l x :
  fst (get_deepseek_reasoning be u w) = Ret l ->
  In x l ->
  PyStr.contains CLOSE x = false.
Proof.
  intros Hrun Hx.
  assert (exists t, l = PyStr.findall OPEN CLOSE t) as [t ->].
  { revert Hrun. destruct w as [[dm rm cm sh ex] out snt].
    unfold get_deepseek_reasoning, mbind, M_bind, bind, modify, gets, when, create.
    simpl.
    destruct sh; simpl;
      destruct (chat_stream be _) as [e|evs]; simpl; try discriminate;
      destruct (scan_loop evs _ _) as [[st|e] w1]; simpl; try discriminate.
      all: destruct (show_reasoning (self w1)); simpl; intros H;
        injection H as <-; eauto. }
  destruct (PyStr.contains CLOSE x) eqn:E; [|reflexivity]. exfalso.
  apply PyStrFacts.contains_occurs in E.
  apply (spans_without_close OPEN CLOSE t (PyStr.findall OPEN CLOSE t)
           ltac:(simpl; lia) (PyStrFacts.findall_spans OPEN CLOSE ltac:(simpl; lia) t)
           x Hx E).
Qed.

(** *** A whole turn *)

Lemma quiet_scan_loop evs st : quiet (scan_loop evs st).
Proof.
  revert st. induction evs as [|[chunk|e] evs IH]; intros st; simpl.
  - auto with quiet.
  - destruct (choices chunk); [apply IH|]. destruct (truthy _); apply IH.
  - auto with quiet.
Qed.

Lemma local_quiet_response_loop evs acc : quiet (response_loop evs acc).
Proof.
  revert acc. induction evs as [|[chunk|e] evs IH]; intros acc; simpl.
  - auto with quiet.
  - quiet_step; [auto with quiet|].
    destruct (delta_content _); [|apply IH].
    quiet_step; [auto with quiet | apply IH].
  - auto with quiet.
Qed.

Lemma local_quiet_read_response r : quiet (read_response r).
Proof. destruct r; simpl; [apply local_quiet_response_loop | auto with quiet]. Qed.

Lemma local_reasoning_unfold be u (w : world ModelChain) :
  get_deepseek_reasoning be u w =
  (create be (reasoning_request u (self w))
     ≫= λ response,
          match response with
          | Streamed evs => scan_loop evs (Scan "" false "")
          | Completed _ => mret (Scan "" false "")
          end
          ≫= λ st,
               print (PyStr.join PyStr.nl
                        (PyStr.findall OPEN CLOSE (think_content st))) PyStr.nl;;
               print (PyStr.nl +:+ PyStr.nl +:+ "[yellow]Thought for "
                        +:+ time_str be +:+ "[/]") PyStr.nl;;
               show ← gets show_reasoning;
               when show (print PyStr.nl PyStr.nl);;
               mret (PyStr.findall OPEN CLOSE (think_content st))) (asked u w).
Proof.
  unfold get_deepseek_reasoning, asked, reasoning_request.
  unfold mbind at 1 2 3 4. unfold M_bind, bind at 1 2 3 4. simpl.
  destruct (show_reasoning (self w)); simpl; [reflexivity|].
  rewrite app_nil_r. reflexivity.
Qed.

(** The reasoning stage appends the user message to the reasoning history
    and sends one request, whether it returns or raises. *)
Lemma local_reasoning_world be u (w : world ModelChain) :
  self (snd (get_deepseek_reasoning be u w)) =
    with_deepseek_messages (fun h => h ++ [Message user (Text u)]) (self w) /\
  sent (snd (get_deepseek_reasoning be u w)) = sent w ++ [reasoning_request u (self w)].
Proof.
  rewrite local_reasoning_unfold.
  apply (create_then be _ _ (asked u w)).
  intros resp. quiet_step; [|repeat quiet_step].
  destruct resp; [apply quiet_scan_loop | auto with quiet].
Qed.

Section Response.
Variable str_of_list : list string -> string.

Lemma get_local_response_unfold be u r (w : world ModelChain) :
  get_local_response str_of_list be u r w =
  (announce_model be;;
   try_except (attempt_response str_of_list be u r) (report_error be)) w.
Proof. reflexivity. Qed.

Lemma local_quiet_report_error be e : quiet (report_error be e).
Proof. unfold report_error. repeat quiet_step. Qed.

(** The announcement either raises rich's [MarkupError] and writes
    nothing, or puts the name of the model on the terminal. *)
Lemma local_announce_then {A} be (k : Py A) (w : world ModelChain) :
  (announce_model be;; k) w =
  match markup_error be (announcement (self w)) with
  | Some msg => (Raise (MarkupError msg), w)
  | None => k (World (self w) (stdout w ++ [announcement (self w) +:+ ""]) (sent w))
  end.
Proof.
  unfold announce_model, rprint, announcement, mbind, M_bind, bind, gets. simpl.
  destruct (markup_error be _); reflexivity.
Qed.

Lemma local_attempt_response_world be u r (w : world ModelChain) :
  match fst (attempt_response str_of_list be u r w) with
  | Raise _ => self (snd (attempt_response str_of_list be u r w)) = self w
  | Ret a =>
      self (snd (attempt_response str_of_list be u r w)) =
        with_deepseek_messages (fun h => h ++ [Message assistant (Text a)])
          (with_response_messages (fun h =>
             h ++ [Message user (Blocks [u]); Message assistant (Blocks [a])])
             (self w))
  end.
Proof.
  change (attempt_response str_of_list be u r w) with
    ((create be (Request (current_model (self w)) (handoff str_of_list u r) true
                   (Some 8000%N))
        ≫= λ response, read_response response ≫= record_response u) w).
  set (req := Request _ _ _ _).
  destruct (create_then_outcome be req
              (λ response, read_response response ≫= record_response u) w)
    as [[e ->]|[resp ->]]; simpl; [reflexivity|].
  unfold mbind, M_bind, bind.
  destruct (local_quiet_read_response resp (World (self w) (stdout w) (sent w ++ [req])))
    as [H1 _].
  destruct (read_response resp _) as [[a|e] w1]; simpl in *; rewrite ?H1; auto.
Qed.

Lemma local_turn_unfold be u (w : world ModelChain) :
  turn str_of_list be u w =
  match get_deepseek_reasoning be u w with
  | (Raise e, w1) => (Raise e, w1)
  | (Ret r, w1) => get_local_response str_of_list be u r w1
  end.
Proof.
  unfold turn, mbind, M_bind, bind.
  destruct (get_deepseek_reasoning be u w) as [[r|e] w1]; reflexivity.
Qed.

(** Property X25.  The histories of rat-local.py after a turn.  An answered turn
    appends the exchange to both histories, as plain text to the reasoning
    history and as text blocks to the response history.  A turn in which either
    stage raises leaves the response history as it was and only the user message
    in the reasoning history. *)
Theorem local_turn_histories be u (w : world ModelChain) :
  let c := self w in
  let c' := self (snd (turn str_of_list be u w)) in
  match turn_status str_of_list be u w with
  | Answered a =>
      deepseek_messages c' =
        deepseek_messages c ++ [Message user (Text u); Message assistant (Text a)] /\
      response_messages c' =
        response_messages c ++
          [Message user (Blocks [u]); Message assistant (Blocks [a])]
  | ReasoningFailed _ | ResponseFailed _ =>
      deepseek_messages c' = deepseek_messages c ++ [Message user (Text u)] /\
      response_messages c' = response_messages c
  end.
Proof.
  simpl. unfold turn_status. rewrite local_turn_unfold.
  destruct (local_reasoning_world be u w) as [Hself _].
  destruct (get_deepseek_reasoning be u w) as [[r|e] w1]; simpl in Hself;
    [|simpl; rewrite Hself; simpl; auto].
  rewrite get_local_response_unfold, !local_announce_then.
  destruct (markup_error be (announcement (self w1))).
  { simpl. rewrite Hself. simpl. auto. }
  set (w2 := World _ _ _).
  pose proof (local_attempt_response_world be u r w2) as Hatt.
  unfold try_except.
  destruct (attempt_response str_of_list be u r w2) as [[a|e] w3]; simpl in *.
  - rewrite Hatt, Hself. simpl. rewrite <- app_assoc. auto.
  - destruct (is_Exception e); simpl;
      [destruct (local_quiet_report_error be e w3) as [-> _]|];
      rewrite Hatt, Hself; simpl; auto.
Qed.

End Response.

End LocalExtras.

(** ** An opening tag that is never closed *)

Module UnterminatedFacts.
Import Spans.

#[local] Arguments PyStr.contains : simpl never.

Lemma occurs_drop p n t : occurs p (PyStr.drop n t) -> occurs p t.
Proof.
  intros (a & b & H). exists (PyStr.take n t +:+ a), b.
  rewrite PyStrFacts.app_assoc, <- H, PyStrFacts.take_drop. reflexivity.
Qed.

(** The regular expression finds nothing in a text without a closing tag. *)
Lemma findall_no_close op cl t :
  PyStr.contains cl t = false -> PyStr.findall op cl t = [].
Proof.
  intros Hc. unfold PyStr.findall. simpl.
  destruct (PyStr.find op t) as [i|]; [|reflexivity].
  destruct (PyStr.find cl (PyStr.drop (i + String.length op) t)) as [j|] eqn:E;
    [|reflexivity].
  exfalso. destruct (PyStrFacts.find_split _ _ _ E) as (Hs & _).
  apply (TagFacts.not_occurs _ _ Hc), (occurs_drop _ (i + String.length op)).
  eexists _, _. exact Hs.
Qed.

(** The text the loop of rat-akash.py has read is a start of the whole. *)
Lemma consumed_prefix frags :
  exists rest, PyStr.concat frags = PyStr.concat (consumed frags) +:+ rest.
Proof.
  induction frags as [|f frags [rest IH]]; [exists ""; reflexivity|].
  simpl. destruct (PyStr.contains CLOSE f).
  - exists (PyStr.concat frags). simpl. rewrite PyStrFacts.app_nil_r. reflexivity.
  - exists rest. simpl. rewrite IH, PyStrFacts.app_assoc. reflexivity.
Qed.

(** Without a closing tag in the text, rat-local.py extracts nothing,
    however the stream is cut. *)
Lemma local_no_close be frags u (w : world Local.ModelChain) :
  chat_stream be (LocalSession.reasoning_request u (self w)) = inr (pieces frags) ->
  PyStr.contains CLOSE (PyStr.concat frags) = false ->
  fst (Local.get_deepseek_reasoning be u w) = Ret [].
Proof.
  intros Hbe Hc. rewrite (LocalExtras.local_streamed_outcome _ _ _ _ Hbe).
  f_equal. apply findall_no_close.
  destruct (LocalExtras.last_opening frags)
    as [Hno|(pre & s & post & -> & Ho & Hno)].
  - rewrite (LocalExtras.scan_all_no_open _ _ Hno). reflexivity.
  - rewrite (LocalExtras.think_content_last_opening _ _ _ _ Ho Hno).
    destruct (PyStr.contains CLOSE (PyStr.concat (consumed (s :: post)))) eqn:E;
      [|reflexivity].
    exfalso. apply (TagFacts.not_occurs _ _ Hc).
    apply PyStrFacts.contains_occurs in E as (a & b & E).
    destruct (consumed_prefix (s :: post)) as [rest Hrest].
    exists (PyStr.concat pre +:+ a), (b +:+ rest).
    rewrite AkashStages.text_concat_app, Hrest, E, !PyStrFacts.app_assoc.
    reflexivity.
Qed.

Lemma close_absent_after_open mid :
  PyStr.contains CLOSE mid = false -> PyStr.contains CLOSE (OPEN +:+ mid) = false.
Proof.
  intros Hc. destruct (PyStr.contains CLOSE (OPEN +:+ mid)) eqn:E; [|reflexivity].
  exfalso. apply PyStrFacts.contains_occurs in E.
  apply (ReplaceFacts.occurs_app_apart CLOSE OPEN mid) in E; [|reflexivity].
  destruct E as [E|E].
  - apply PyStrFacts.contains_occurs in E. discriminate E.
  - apply (TagFacts.not_occurs _ _ Hc), E.
Qed.

(** Claim C2.  A reasoning text whose opening tag is never closed: the
    text after the tag is inside the delimiters, and rat-akash.py returns
    it, but rat-local.py, whose regular expression needs the closing tag,
    returns no reasoning at all, however the stream is cut into
    fragments. *)
Theorem unterminated_open_loses_reasoning be frags mid u
    (wl : world Local.ModelChain) (wa : world Akash.AkashModelChain) :
  chat_stream be (LocalSession.reasoning_request u (self wl)) = inr (pieces frags) ->
  chat_stream be (AkashTurns.reasoning_request u (self wa)) = inr (pieces frags) ->
  Akash.stream (self wa) = true ->
  PyStr.concat frags = OPEN +:+ mid ->
  PyStr.contains OPEN mid = false ->
  PyStr.contains CLOSE mid = false ->
  inside_spans OPEN CLOSE (PyStr.concat frags) [mid] /\
  fst (Akash.get_deepseek_reasoning be u wa) = Ret mid /\
  fst (Local.get_deepseek_reasoning be u wl) = Ret [].
Proof.
  intros Hl Ha Hs Htext Ho Hc.
  pose proof (close_absent_after_open _ Hc) as Hclose. rewrite <- Htext in Hclose.
  split; [|split].
  - rewrite Htext. apply (inside_unterminated OPEN CLOSE "" mid).
    + apply PyStrFacts.first_occurrence_nil.
    + apply TagFacts.not_occurs, Hc.
  - rewrite (AkashPayloads.streamed_outcome _ _ _ _ Hs Ha).
    rewrite PayloadFacts.consumed_all
      by (apply TagFacts.ends_only_absent, Hclose).
    rewrite Htext. unfold Akash.clean.
    rewrite (ReplaceFacts.replace_head OPEN "" mid) by (simpl; lia).
    rewrite PyStrFacts.app_nil_l.
    rewrite (ReplaceFacts.replace_absent OPEN "" mid)
      by (apply TagFacts.not_occurs, Ho).
    rewrite (ReplaceFacts.replace_absent CLOSE "" mid)
      by (apply TagFacts.not_occurs, Hc).
    reflexivity.
  - apply (local_no_close _ _ _ _ Hl Hclose).
Qed.

Lemma unterminated_open_loses_reasoning_witness :
  fst (Akash.get_deepseek_reasoning (streaming ["<think>a"; "bc"]) "how?" fresh) =
    Ret "abc" /\
  fst (Local.get_deepseek_reasoning (streaming ["<think>a"; "bc"]) "how?"
         fresh_local) = Ret [].
Proof.
  apply (unterminated_open_loses_reasoning
           (streaming ["<think>a"; "bc"]) ["<think>a"; "bc"] "abc" "how?"
           fresh_local fresh); reflexivity.
Defined.

End UnterminatedFacts.

(** ** Runs of the properties above *)

Module ExtraWitnesses.
Import Akash AkashTurns.

Lemma streamed_reasoning_stage_witness :
  stream (self fresh) = true /\
  chat_stream (streaming plan_then_more) (reasoning_request "how?" (self fresh)) =
    inr (pieces plan_then_more) /\
  fst (get_deepseek_reasoning (streaming plan_then_more) "how?" fresh) =
    Ret "plan A".
Proof.
  split; [reflexivity|]. split; [reflexivity|].
  apply (proj1 (AkashStages.streamed_reasoning_stage (streaming plan_then_more)
                  plan_then_more "how?" fresh eq_refl eq_refl)).
Defined.

Lemma single_shot_returns_reasoning_witness :
  fst (get_deepseek_reasoning (streaming plan_then_more) "how?"
         (World (init false) [] [])) = Ret "plan A".
Proof.
  apply (AkashPayloads.single_shot_returns_reasoning (streaming plan_then_more)
           "plan A" "Do A." [] "how?" (World (init false) [] []));
    reflexivity.
Defined.

Lemma early_stop_returns_reasoning_witness :
  fst (get_deepseek_reasoning (streaming plan_then_more) "how?" fresh) = Ret "plan A".
Proof.
  apply (AkashPayloads.early_stop_returns_reasoning (streaming plan_then_more)
           ["<think>pl"] "an A</think>" ["Do A."] "plan A" "how?" fresh);
    reflexivity.
Defined.

Lemma delimited_text_returns_reasoning_witness :
  fst (get_deepseek_reasoning (streaming ["<th"; "ink>plan A</thi"; "nk>"])
         "how?" fresh) = Ret "plan A".
Proof.
  apply (AkashPayloads.delimited_text_returns_reasoning
           (streaming ["<th"; "ink>plan A</thi"; "nk>"])
           ["<th"; "ink>plan A</thi"; "nk>"] "plan A" "how?" fresh);
    reflexivity.
Defined.

Lemma unterminated_text_is_kept_witness :
  fst (get_deepseek_reasoning (streaming ["<thi"; "nk>plan"; " A"]) "how?" fresh) =
    Ret "plan A".
Proof.
  apply (AkashPayloads.unterminated_text_is_kept (streaming ["<thi"; "nk>plan"; " A"])
           ["<thi"; "nk>plan"; " A"] "how?" fresh);
    reflexivity.
Defined.

Lemma streamed_response_stage_witness :
  fst (get_llama_response (streaming ["Do"; ""; " A."]) "how?" "plan A" fresh) =
    Ret "Do A." /\
  llama_messages
    (self (snd (get_llama_response (streaming ["Do"; ""; " A."]) "how?" "plan A" fresh))) =
    [Message user (Text "how?"); Message assistant (Text "Do A.")].
Proof.
  destruct (AkashResponse.streamed_response_stage (streaming ["Do"; ""; " A."])
              ["Do"; ""; " A."] "how?" "plan A" fresh eq_refl eq_refl eq_refl)
    as (H1 & H2 & _).
  split; [exact H1 | exact H2].
Defined.

Lemma broken_response_stream_witness :
  fst (get_llama_response connection_lost "how?" "plan A" fresh) =
    Ret "Error occurred while getting response".
Proof.
  refine (proj1 (AkashResponse.broken_response_stream connection_lost ["Do"]
                   (APIError "connection lost") [] "how?" "plan A" fresh
                   _ _ _ _ _));
    reflexivity.
Defined.

Lemma response_stage_raises_witness :
  fst (get_llama_response (refusing "[/x]" plan_then_answer) "how?" "plan A"
         (World (with_current_model "[/x]" (init true)) [] [])) =
    Raise (MarkupError "closing tag '[/x]' doesn't match any open tag") /\
  llama_messages
    (self (snd (get_llama_response (refusing "[/x]" plan_then_answer)
                  "how?" "plan A"
                  (World (with_current_model "[/x]" (init true)) [] [])))) = [].
Proof.
  split; [reflexivity|].
  apply (AkashResponse.response_stage_raises (refusing "[/x]" plan_then_answer)
           "how?" "plan A" (World (with_current_model "[/x]" (init true)) [] [])
           (MarkupError "closing tag '[/x]' doesn't match any open tag")).
  reflexivity.
Defined.

Lemma main_iter_raises_witness :
  fst (main_iter reasoning_refused (inr "how?") fresh) =
    Raise (APIError "unauthorized") /\
  APIError "unauthorized" <> KeyboardInterrupt.
Proof.
  split; [reflexivity|].
  apply (AkashLoop.main_iter_raises reasoning_refused (inr "how?") fresh
           (APIError "unauthorized")).
  reflexivity.
Defined.

Lemma refused_model_name_ends_loop_witness :
  current_model
    (self (snd (main_iter plan_then_answer (inr "model [/x]") fresh))) = "[/x]" /\
  fst (main_iter (refusing "[/x]" plan_then_answer) (inr "how?")
         (snd (main_iter plan_then_answer (inr "model [/x]") fresh))) =
    Raise (MarkupError "closing tag '[/x]' doesn't match any open tag").
Proof.
  split; [reflexivity|].
  refine (proj1 (AkashLoop.refused_model_name_ends_loop
                   (refusing "[/x]" plan_then_answer) "how?" "plan A" _
                   (snd (main_iter plan_then_answer (inr "model [/x]") fresh))
                   _ _ _));
    reflexivity.
Defined.

Lemma model_command_witness :
  PyStr.strip ("  Model " +:+ nbsp +:+ "Llama-3 " +:+ nbsp) =
    "Model " +:+ (nbsp +:+ "Llama-3") /\
  current_model
    (self (snd (main_iter reasoning_refused
                  (inr ("  Model " +:+ nbsp +:+ "Llama-3 " +:+ nbsp)) fresh))) =
    "Llama-3".
Proof.
  split; [reflexivity|].
  destruct (AkashLoop.model_command reasoning_refused
              ("  Model " +:+ nbsp +:+ "Llama-3 " +:+ nbsp)
              "Model " (nbsp +:+ "Llama-3") fresh eq_refl eq_refl) as (_ & H & _).
  exact H.
Defined.

(** White space outside ASCII around a command is stripped as well: [quit]
    followed by a no-break space leaves the loop and sends nothing. *)
Lemma quit_with_no_break_space :
  main_iter plan_then_answer (inr ("quit" +:+ nbsp)) fresh =
  (Ret Break,
   World (self fresh) [(PyStr.nl +:+ "Goodbye! ðŸ‘‹") +:+ PyStr.nl] []).
Proof. reflexivity. Qed.

Lemma model_never_blank_witness :
  current_model (self fresh) <> "" /\
  current_model (self (snd (main_iter reasoning_refused (inr "model x") fresh))) <> "".
Proof.
  split; [discriminate|].
  apply (AkashLoop.model_never_blank reasoning_refused (inr "model x") fresh).
  discriminate.
Defined.


Lemma reasoning_command_witness :
  PyStr.lower (PyStr.strip " Reasoning ") = "reasoning" /\
  show_reasoning (self (snd (main_iter reasoning_refused (inr " Reasoning ") fresh))) =
    false.
Proof.
  split; [reflexivity|].
  destruct (AkashCommands.reasoning_command reasoning_refused " Reasoning " fresh
              eq_refl) as (_ & H & _).
  exact H.
Defined.

Lemma reasoning_command_twice_witness :
  self (snd (main_iter plan_then_answer (inr "REASONING")
               (snd (main_iter reasoning_refused (inr " Reasoning ") fresh)))) =
  self fresh.
Proof.
  apply (AkashCommands.reasoning_command_twice reasoning_refused plan_then_answer
           " Reasoning " "REASONING" fresh); reflexivity.
Defined.

Lemma session_ends_at_quit_witness :
  ends_session (inr " QUIT ") = true /\
  main_loop ([(plan_then_answer, inr "how?")] ++
             (plan_then_answer, inr " QUIT ") :: [(plan_then_answer, inr "then?")])
            fresh =
  main_loop ([(plan_then_answer, inr "how?")] ++ [(plan_then_answer, inr " QUIT ")])
            fresh.
Proof.
  split; [reflexivity|].
  apply (AkashCommands.session_ends_at_quit [(plan_then_answer, inr "how?")]
           plan_then_answer (inr " QUIT ") [(plan_then_answer, inr "then?")] fresh).
  reflexivity.
Defined.

Lemma akash_path_agrees_witness :
  fst (Claude.get_deepseek_reasoning plan_then_answer "how?" (fresh_claude false)) =
  fst (get_deepseek_reasoning plan_then_answer "how?" fresh).
Proof.
  apply (proj1 (ClaudeFacts.akash_path_agrees plan_then_answer "how?"
                  (fresh_claude false) fresh eq_refl eq_refl eq_refl eq_refl)).
Defined.

Lemma deepseek_path_payload_witness :
  fst (Claude.get_deepseek_reasoning (deepseek_endpoint deepseek_chunks) "how?"
         (fresh_claude true)) = Ret "plan A".
Proof.
  apply (ClaudeFacts.deepseek_path_payload (deepseek_endpoint deepseek_chunks)
           deepseek_chunks "how?" (fresh_claude true)); reflexivity.
Defined.

Lemma reasoning_from_last_opening_witness :
  fst (Local.get_deepseek_reasoning
         (streaming (["<think>old</think>"] ++ plan_then_more)) "how?" fresh_local) =
    Ret ["plan A"].
Proof.
  apply (LocalExtras.reasoning_from_last_opening
           (streaming (["<think>old</think>"] ++ plan_then_more))
           ["<think>old</think>"] "<think>pl" ["an A</think>"; "Do A."]
           "how?" fresh_local); reflexivity.
Defined.

Lemma no_whole_opening_no_reasoning_witness :
  fst (Local.get_deepseek_reasoning
         (streaming ["<th"; "ink>plan A</thi"; "nk>"]) "how?" fresh_local) = Ret [].
Proof.
  apply (LocalExtras.no_whole_opening_no_reasoning
           (streaming ["<th"; "ink>plan A</thi"; "nk>"])
           ["<th"; "ink>plan A</thi"; "nk>"] "how?" fresh_local); reflexivity.
Defined.

Lemma reasoning_has_no_closing_tag_witness :
  fst (Local.get_deepseek_reasoning (streaming plan_then_more) "how?" fresh_local) =
    Ret ["plan A"] /\
  PyStr.contains CLOSE "plan A" = false.
Proof.
  split; [reflexivity|].
  apply (LocalExtras.reasoning_has_no_closing_tag (streaming plan_then_more)
           "how?" fresh_local ["plan A"] "plan A");
    [reflexivity | left; reflexivity].
Defined.

End ExtraWitnesses.
